(** * Modular prospecting model: scoring, filtering, parsing and ranking

    A shallow embedding of the decision logic of the prospecting pipeline
    ([filter_module.py], [ai_module.py], [ModularProspectingModel1.py]) and
    the properties its specification states about it.

    Conventions of the embedding.
    - A company record is a Python [dict] with string keys: a finite map from
      [string] to Python values [pyval].
    - Python numbers ([int], [float]) are embedded as their exact rational
      value in [Q]; NaN and the infinities are outside the model, and
      arithmetic is exact.
    - Strings are sequences of 8-bit characters; [lower] and [strip] follow
      Python on ASCII text.
    - A Python exception is a value [Raise e] of the [result] type. *)

From Stdlib Require Import QArith String Ascii Permutation Sorted.
From stdpp Require Import gmap strings list.

Local Open Scope string_scope.
Local Open Scope list_scope.

(** ** Python values and exceptions *)

Inductive pyerr : Type :=
| AttributeError
| TypeError
| ValueError.

Inductive result (A : Type) : Type :=
| Ok (a : A)
| Raise (e : pyerr).

Arguments Ok {A} a.
Arguments Raise {A} e.

#[global] Instance result_ret : MRet result := fun _ a => Ok a.
#[global] Instance result_bind : MBind result := fun _ _ f m =>
  match m with
  | Ok a => f a
  | Raise e => Raise e
  end.

Inductive pyval : Type :=
| PNone
| PBool (b : bool)
| PNum (q : Q)
| PStr (s : string)
| PDict (d : gmap string Q).

(** ** String primitives ([str] methods used by the code) *)

(** [str.isspace] on one character of ASCII text. *)
Definition isspace (c : ascii) : bool :=
  let n := nat_of_ascii c in
  ((9 <=? n)%nat && (n <=? 13)%nat) || ((28 <=? n)%nat && (n <=? 32)%nat).

Fixpoint lstrip (s : string) : string :=
  match s with
  | EmptyString => EmptyString
  | String c s' => if isspace c then lstrip s' else s
  end.

Fixpoint rstrip (s : string) : string :=
  match s with
  | EmptyString => EmptyString
  | String c s' =>
      match rstrip s' with
      | EmptyString => if isspace c then EmptyString else String c EmptyString
      | r => String c r
      end
  end.

(** [s.strip()] *)
Definition strip (s : string) : string := rstrip (lstrip s).

Definition lower_char (c : ascii) : ascii :=
  let n := nat_of_ascii c in
  if ((65 <=? n)%nat && (n <=? 90)%nat) then ascii_of_nat (n + 32) else c.

(** [s.lower()] *)
Fixpoint lower (s : string) : string :=
  match s with
  | EmptyString => EmptyString
  | String c s' => String (lower_char c) (lower s')
  end.

(** [s.startswith(p)] *)
Definition startswith (s p : string) : bool := String.prefix p s.

(** [sub in s] *)
Fixpoint str_in (sub s : string) : bool :=
  String.prefix sub s ||
  match s with
  | EmptyString => false
  | String _ s' => str_in sub s'
  end.

(** [s.replace(old, new)] for a non-empty [old]: occurrences are found from
    the left and do not overlap; [skip] counts the characters of a match
    that are still to be passed over. *)
Fixpoint replace_from (old new : string) (skip : nat) (s : string) : string :=
  match s with
  | EmptyString => EmptyString
  | String c s' =>
      match skip with
      | S k => replace_from old new k s'
      | O =>
          if String.prefix old s
          then new +:+ replace_from old new (String.length old - 1) s'
          else String c (replace_from old new 0 s')
      end
  end.

(** With an empty [old] Python puts [new] before every character and at the
    end. *)
Fixpoint replace_empty (new : string) (s : string) : string :=
  match s with
  | EmptyString => new
  | String c s' => new +:+ String c (replace_empty new s')
  end.

Definition str_replace (s old new : string) : string :=
  match old with
  | EmptyString => replace_empty new s
  | _ => replace_from old new 0 s
  end.

(** [s.split(sep)] for a one-character separator. *)
Fixpoint split_char (sep : ascii) (s : string) : list string :=
  match s with
  | EmptyString => [EmptyString]
  | String c s' =>
      if Ascii.eqb c sep then EmptyString :: split_char sep s'
      else match split_char sep s' with
           | hd :: tl => String c hd :: tl
           | [] => [String c EmptyString]
           end
  end.

Definition newline : ascii := ascii_of_nat 10.

(** ** [ai_module.py]: the parser of the model's answer *)

Module AIModule.

(** Body of the [for line in lines] loop: one line updates [fields]. *)
Definition parse_line (fields : gmap string string) (line : string)
  : gmap string string :=
  let line := strip line in
  if startswith line "ai_fit_category:" then
    let content := strip (str_replace line "ai_fit_category:" "") in
    if str_in "High" content then <["ai_fit_category" := "High"]> fields
    else if str_in "Medium" content then <["ai_fit_category" := "Medium"]> fields
    else if str_in "Low" content then <["ai_fit_category" := "Low"]> fields
    else <["ai_fit_category" := "Unknown"]> fields
  else if startswith line "ai_reasoning:" then
    let content := strip (str_replace line "ai_reasoning:" "") in
    <["ai_reasoning" := content]> fields
  else if startswith line "ai_people_assessment:" then
    let content := strip (str_replace line "ai_people_assessment:" "") in
    <["ai_people_assessment" := content]> fields
  else if startswith line "ai_revenue_assessment:" then
    let content := strip (str_replace line "ai_revenue_assessment:" "") in
    <["ai_revenue_assessment" := content]> fields
  else fields.

(** [if key not in fields: fields[key] = value] *)
Definition setdefault (key value : string) (fields : gmap string string)
  : gmap string string :=
  match fields !! key with
  | Some _ => fields
  | None => <[key := value]> fields
  end.

Definition _parse_ai_evaluation_fields (text : string) : gmap string string :=
  match text with
  | EmptyString => ∅
  | _ =>
      let lines := split_char newline text in
      let fields := fold_left parse_line lines ∅ in
      let fields := setdefault "ai_fit_category" "Unknown" fields in
      let fields := setdefault "ai_reasoning" "Not evaluated" fields in
      let fields := setdefault "ai_people_assessment" "Not enough data" fields in
      let fields := setdefault "ai_revenue_assessment" "Unknown" fields in
      fields
  end.

End AIModule.

(** ** Dictionary access, numbers and truth values *)

(** [d.get(key)] and [d.get(key, default)] on a record. *)
Definition get (d : gmap string pyval) (key : string) : pyval :=
  default PNone (d !! key).

Definition get_or (d : gmap string pyval) (key : string) (dflt : pyval) : pyval :=
  default dflt (d !! key).

(** [weights.get(key, default)] on a dictionary of numbers. *)
Definition wget (d : gmap string Q) (key : string) (dflt : Q) : Q :=
  default dflt (d !! key).

Definition Qlt_bool (x y : Q) : bool := negb (Qle_bool y x).
Definition Qge_bool (x y : Q) : bool := Qle_bool y x.

(** [int(x)] of a float: truncation towards zero. *)
Definition py_int (x : Q) : Z := Z.quot (Qnum x) (Zpos (Qden x)).

(** [v.lower()]: only [str] has the method. *)
Definition py_lower (v : pyval) : result string :=
  match v with
  | PStr s => Ok (lower s)
  | _ => Raise AttributeError
  end.

(** [if v:] *)
Definition truthy (v : pyval) : bool :=
  match v with
  | PNone => false
  | PBool b => b
  | PNum q => negb (Qeq_bool q 0)
  | PStr s => negb (String.eqb s "")
  | PDict d => negb (bool_decide (d = ∅))
  end.

(** [v in states] for a set of strings: an unhashable [v] raises. *)
Definition py_in (v : pyval) (states : gset string) : result bool :=
  match v with
  | PStr s => Ok (bool_decide (s ∈ states))
  | PDict _ => Raise TypeError
  | _ => Ok false
  end.

(** The numeric reading of a value in a comparison with a number. *)
Definition py_num (v : pyval) : result Q :=
  match v with
  | PNum q => Ok q
  | PBool b => Ok (if b then 1%Q else 0%Q)
  | _ => Raise TypeError
  end.

(** [for x in l: body], threading the loop state and stopping at the first
    exception. *)
Fixpoint for_each {S A : Type} (body : S → A → result S) (l : list A) (st : S)
  : result S :=
  match l with
  | [] => Ok st
  | x :: l' =>
      match body st x with
      | Ok st' => for_each body l' st'
      | Raise e => Raise e
      end
  end.

(** ** [config_manager.py]: the loaded configuration and its getters *)

Module ConfigManager.

(** The [scoring] dictionary; a sub-dictionary that is missing reads as
    [None]. *)
Record scoring : Type := {
  icp_weights : option (gmap string Q);
  min_icp_score : option Q;
  website_required_weights : option (gmap string Q);
  rating_thresholds : option (gmap string Q);
  fit_thresholds : option (gmap string Q)
}.

Record t : Type := {
  filters_excluded_types : option (list string);
  filters_negative_keywords : option (list string);
  filters_min_review_count : option Q;
  us_states : option (list string);
  scoring_entry : scoring
}.

Definition get_excluded_types (c : t) : list string :=
  default [] (filters_excluded_types c).

Definition get_negative_keywords (c : t) : list string :=
  default [] (filters_negative_keywords c).

Definition get_min_review_count (c : t) : Q :=
  default 3%Q (filters_min_review_count c).

Definition get_us_states (c : t) : list string :=
  default [] (us_states c).

Definition get_scoring_config (c : t) : scoring := scoring_entry c.

(** A [scoring] section with no entry at all. *)
Definition no_scoring : scoring :=
  {| icp_weights := None; min_icp_score := None;
     website_required_weights := None; rating_thresholds := None;
     fit_thresholds := None |}.

End ConfigManager.

(** ** [filter_module.py] *)

Module FilterModule.
Import ConfigManager.

Section WithConfig.

(** [float(s)] on a string: the value read, or [None] for a
    [ValueError]. *)
Variable float_of_str : string → option Q.

(** [self.config] *)
Variable config : ConfigManager.t.

Definition scoring_config : scoring := get_scoring_config config.
Definition self_us_states : gset string := list_to_set (get_us_states config).

(** [float(v)] *)
Definition py_float (v : pyval) : result Q :=
  match v with
  | PNum q => Ok q
  | PBool b => Ok (if b then 1%Q else 0%Q)
  | PStr s =>
      match float_of_str s with
      | Some q => Ok q
      | None => Raise ValueError
      end
  | PNone | PDict _ => Raise TypeError
  end.

Definition _to_float (v : pyval) (dflt : Q) : result Q :=
  match py_float v with
  | Ok q => Ok q
  | Raise TypeError | Raise ValueError => Ok dflt
  | Raise e => Raise e
  end.

(** Loop state of [filter_noise]: [filtered_companies] and
    [excluded_count]. *)
Definition filter_noise_body
    (excluded_types negative_keywords : list string) (min_review_count : Q)
    (st : list (gmap string pyval) * nat) (company : gmap string pyval)
  : result (list (gmap string pyval) * nat) :=
  let '(filtered_companies, excluded_count) := st in
  let should_exclude := false in
  company_types ← py_lower (get_or company "types" (PStr ""));
  let should_exclude :=
    if existsb (λ excluded_type, str_in excluded_type company_types) excluded_types
    then true else should_exclude in
  company_name ← py_lower (get_or company "name" (PStr ""));
  let should_exclude :=
    if existsb (λ negative_keyword, str_in negative_keyword company_name)
         negative_keywords
    then true else should_exclude in
  review_count ← _to_float (get company "user_ratings_total") 0;
  let should_exclude :=
    if Qlt_bool review_count min_review_count then true else should_exclude in
  if should_exclude
  then Ok (filtered_companies, S excluded_count)
  else Ok (filtered_companies ++ [company], excluded_count).

Definition filter_noise (companies : list (gmap string pyval))
  : result (list (gmap string pyval)) :=
  let excluded_types := get_excluded_types config in
  let negative_keywords := get_negative_keywords config in
  let min_review_count := get_min_review_count config in
  '(filtered_companies, _) ←
    for_each (filter_noise_body excluded_types negative_keywords min_review_count)
      companies ([], 0%nat);
  Ok filtered_companies.

Definition filter_by_icp_criteria_body
    (icp_weights : gmap string Q) (min_icp_score : Q)
    (filtered_companies : list (gmap string pyval)) (company : gmap string pyval)
  : result (list (gmap string pyval)) :=
  let score := 0%Q in
  in_us ← py_in (get company "state") self_us_states;
  let score :=
    if (in_us : bool) then (score + wget icp_weights "us_location" 1)%Q else score in
  let rating := get company "rating" in
  score ←
    match rating with
    | PNone => Ok score
    | _ =>
        rating_float ← _to_float rating 0;
        if Qge_bool rating_float (7 # 2)
        then Ok (score + wget icp_weights "high_rating" 1)%Q
        else if Qge_bool rating_float 3
        then Ok (score + wget icp_weights "good_rating" (1 # 2))%Q
        else Ok score
    end;
  business_types ← py_lower (get_or company "types" (PStr ""));
  let score :=
    if existsb (λ keyword, str_in keyword business_types)
         ["establishment"; "business"]
    then (score + wget icp_weights "business_type" 1)%Q else score in
  keyword_used ← py_lower (get_or company "keyword_used" (PStr ""));
  let score :=
    if existsb (λ industry, str_in industry keyword_used)
         ["medical"; "manufacturing"; "defense"; "consulting"]
    then (score + wget icp_weights "industry_keyword" 2)%Q
    else if existsb (λ size, str_in size keyword_used)
              ["small"; "startup"; "boutique"; "specialized"]
    then (score + wget icp_weights "size_keyword" 1)%Q
    else score in
  if Qge_bool score min_icp_score
  then Ok (filtered_companies ++ [<["icp_score" := PNum score]> company])
  else Ok filtered_companies.

Definition filter_by_icp_criteria (companies : list (gmap string pyval))
  : result (list (gmap string pyval)) :=
  let icp_weights := default ∅ (icp_weights scoring_config) in
  let min_icp_score := default 2%Q (min_icp_score scoring_config) in
  for_each (filter_by_icp_criteria_body icp_weights min_icp_score) companies [].

Definition calculate_website_required_score (company : gmap string pyval)
  : result (gmap string pyval) :=
  let score := 0%Q in
  let score_breakdown : gmap string Q := ∅ in
  let weights := default ∅ (website_required_weights scoring_config) in
  let rating_thresholds := default ∅ (rating_thresholds scoring_config) in
  keyword_used ← py_lower (get_or company "keyword_used" (PStr ""));
  let core_keywords :=
    ["medical"; "manufacturing"; "defense"; "consulting"; "engineering"; "biotech"] in
  let '(score, score_breakdown) :=
    if existsb (λ core, str_in core keyword_used) core_keywords
    then ((score + wget weights "industry_match" 3)%Q,
          <["industry_match" := wget weights "industry_match" 3]> score_breakdown)
    else (score, score_breakdown) in
  let '(score, score_breakdown) :=
    if truthy (get company "website_valid")
    then ((score + wget weights "website_required" 2)%Q,
          <["website_required" := wget weights "website_required" 2]> score_breakdown)
    else (score, score_breakdown) in
  rating ← _to_float (get company "rating") 0;
  reviews_float ← _to_float (get company "user_ratings_total") 0;
  let reviews := inject_Z (py_int reviews_float) in
  let high_rating_threshold := wget rating_thresholds "high_rating" (7 # 2) in
  let high_reviews_threshold := wget rating_thresholds "high_reviews" 10 in
  let good_rating_threshold := wget rating_thresholds "good_rating" 3 in
  let good_reviews_threshold := wget rating_thresholds "good_reviews" 5 in
  let '(score, score_breakdown) :=
    if Qge_bool rating high_rating_threshold && Qge_bool reviews high_reviews_threshold
    then ((score + wget weights "high_rating" 2)%Q,
          <["high_rating" := wget weights "high_rating" 2]> score_breakdown)
    else if Qge_bool rating good_rating_threshold
            && Qge_bool reviews good_reviews_threshold
    then ((score + wget weights "good_rating" 1)%Q,
          <["good_rating" := 1%Q]> score_breakdown)
    else (score, score_breakdown) in
  let size_keywords :=
    ["small"; "boutique"; "specialized"; "startup"; "family-owned"] in
  let '(score, score_breakdown) :=
    if existsb (λ size, str_in size keyword_used) size_keywords
    then ((score + wget weights "size_indicator" 1)%Q,
          <["size_indicator" := wget weights "size_indicator" 1]> score_breakdown)
    else (score, score_breakdown) in
  in_us ← py_in (get company "state") self_us_states;
  let '(score, score_breakdown) :=
    if (in_us : bool)
    then ((score + wget weights "us_location" 1)%Q,
          <["us_location" := wget weights "us_location" 1]> score_breakdown)
    else (score, score_breakdown) in
  business_types ← py_lower (get_or company "types" (PStr ""));
  let '(score, score_breakdown) :=
    if str_in "establishment" business_types && str_in "business" business_types
    then ((score + wget weights "business_type" 1)%Q,
          <["business_type" := wget weights "business_type" 1]> score_breakdown)
    else (score, score_breakdown) in
  let company := <["website_required_score" := PNum score]> company in
  let company := <["score_breakdown" := PDict score_breakdown]> company in
  Ok company.

(** [score >= threshold] on the stored score. *)
Definition py_ge (v : pyval) (threshold : Q) : result bool :=
  q ← py_num v; Ok (Qge_bool q threshold).

(** Loop state of [categorize_by_website_required_fit]: the three
    lists. *)
Definition categorize_body
    (high_fit_threshold medium_fit_threshold low_fit_threshold : Q)
    (st : list (gmap string pyval) * list (gmap string pyval)
          * list (gmap string pyval))
    (company : gmap string pyval)
  : result (list (gmap string pyval) * list (gmap string pyval)
            * list (gmap string pyval)) :=
  let '(high_fit, medium_fit, low_fit) := st in
  let score := get_or company "website_required_score" (PNum 0) in
  is_high ← py_ge score high_fit_threshold;
  if (is_high : bool) then
    Ok (high_fit ++ [<["fit_category" := PStr "High Fit"]> company],
        medium_fit, low_fit)
  else
    is_medium ← py_ge score medium_fit_threshold;
    if (is_medium : bool) then
      Ok (high_fit,
          medium_fit ++ [<["fit_category" := PStr "Medium Fit"]> company],
          low_fit)
    else
      is_low ← py_ge score low_fit_threshold;
      if (is_low : bool) then
        Ok (high_fit, medium_fit,
            low_fit ++ [<["fit_category" := PStr "Low Fit"]> company])
      else Ok (high_fit, medium_fit, low_fit).

Definition categorize_by_website_required_fit
    (companies : list (gmap string pyval))
  : result (list (gmap string pyval) * list (gmap string pyval)
            * list (gmap string pyval)) :=
  let fit_thresholds := default ∅ (fit_thresholds scoring_config) in
  let high_fit_threshold := wget fit_thresholds "high_fit" 7 in
  let medium_fit_threshold := wget fit_thresholds "medium_fit" 5 in
  let low_fit_threshold := wget fit_thresholds "low_fit" 3 in
  for_each
    (categorize_body high_fit_threshold medium_fit_threshold low_fit_threshold)
    companies ([], [], []).

End WithConfig.

End FilterModule.

(** ** [ModularProspectingModel1.py]: the pipeline with its constants in
    the code *)

Module Pipeline.

(** [a == b] on values. *)
Definition py_eq (a b : pyval) : bool :=
  match a, b with
  | PNone, PNone => true
  | PStr s, PStr t => String.eqb s t
  | PDict d, PDict e =>
      bool_decide (dom d = dom e)
      && forallb (λ kv, match e !! kv.1 with
                        | Some w => Qeq_bool kv.2 w
                        | None => false
                        end) (map_to_list d)
  | _, _ =>
      match py_num a, py_num b with
      | Ok x, Ok y => Qeq_bool x y
      | _, _ => false
      end
  end.

(** [a < b] on values: numbers with numbers, strings with strings. *)
Definition py_lt (a b : pyval) : result bool :=
  match a, b with
  | PStr s, PStr t => Ok (String.ltb s t)
  | _, _ =>
      match py_num a, py_num b with
      | Ok x, Ok y => Ok (Qlt_bool x y)
      | _, _ => Raise TypeError
      end
  end.

(** [category_order.get(v, 0)] with
    [category_order = {'High': 3, 'Medium': 2, 'Low': 1, 'Unknown': 0}]. *)
Definition category_order_get (v : pyval) : result Z :=
  match v with
  | PStr s =>
      Ok (if String.eqb s "High" then 3
          else if String.eqb s "Medium" then 2
          else if String.eqb s "Low" then 1
          else 0)%Z
  | PDict _ => Raise TypeError
  | _ => Ok 0%Z
  end.

(** The [key=] function of the sort:
    [(category_order.get(x.get('ai_fit_category', 'Unknown'), 0),
      x.get('rating', 0))]. *)
Definition sort_key (x : gmap string pyval) : result (Z * pyval) :=
  ordinal ← category_order_get (get_or x "ai_fit_category" (PStr "Unknown"));
  Ok (ordinal, get_or x "rating" (PNum 0)).

(** [k1 < k2] on two key tuples: the first components that differ
    decide. *)
Definition key_lt (k1 k2 : Z * pyval) : result bool :=
  if negb (k1.1 =? k2.1)%Z then Ok (k1.1 <? k2.1)%Z
  else if py_eq k1.2 k2.2 then Ok false
  else py_lt k1.2 k2.2.

(** [list.sort(key=..., reverse=True)] is stable: elements come out in
    decreasing key order and elements with equal keys keep their order.
    Whenever no comparison raises that list is unique, so a stable
    insertion sort returns it. [x] stands before every element of [l] in
    the input, so it is put before the elements it is not below. *)
Fixpoint insert_desc {A : Type} (x : (Z * pyval) * A) (l : list ((Z * pyval) * A))
  : result (list ((Z * pyval) * A)) :=
  match l with
  | [] => Ok [x]
  | y :: l' =>
      below ← key_lt x.1 y.1;
      if (below : bool) then r ← insert_desc x l'; Ok (y :: r)
      else Ok (x :: y :: l')
  end.

Fixpoint sort_desc {A : Type} (l : list ((Z * pyval) * A))
  : result (list ((Z * pyval) * A)) :=
  match l with
  | [] => Ok []
  | x :: l' => s ← sort_desc l'; insert_desc x s
  end.

(** The keys are computed once, before any comparison. *)
Fixpoint with_keys (l : list (gmap string pyval))
  : result (list ((Z * pyval) * gmap string pyval)) :=
  match l with
  | [] => Ok []
  | x :: l' => k ← sort_key x; r ← with_keys l'; Ok ((k, x) :: r)
  end.

(** [evaluated_companies.sort(key=lambda x: ..., reverse=True)] in
    [run_refined_pipeline]. *)
Definition sort_evaluated (evaluated_companies : list (gmap string pyval))
  : result (list (gmap string pyval)) :=
  keyed ← with_keys evaluated_companies;
  sorted ← sort_desc keyed;
  Ok (map snd sorted).

Section WithState.

Variable float_of_str : string → option Q.

(** [self.us_states] *)
Variable us_states : gset string.

Definition _to_float := FilterModule._to_float float_of_str.

Definition calculate_website_required_score (company : gmap string pyval)
  : result (gmap string pyval) :=
  let score := 0%Q in
  let score_breakdown : gmap string Q := ∅ in
  keyword_used ← py_lower (get_or company "keyword_used" (PStr ""));
  let core_keywords :=
    ["medical"; "manufacturing"; "defense"; "consulting"; "engineering"; "biotech"] in
  let '(score, score_breakdown) :=
    if existsb (λ core, str_in core keyword_used) core_keywords
    then ((score + 3)%Q, <["industry_match" := 3%Q]> score_breakdown)
    else (score, score_breakdown) in
  let '(score, score_breakdown) :=
    if truthy (get company "website_valid")
    then ((score + 2)%Q, <["website_required" := 2%Q]> score_breakdown)
    else (score, score_breakdown) in
  rating ← _to_float (get company "rating") 0;
  reviews_float ← _to_float (get company "user_ratings_total") 0;
  let reviews := inject_Z (py_int reviews_float) in
  let '(score, score_breakdown) :=
    if Qge_bool rating (7 # 2) && Qge_bool reviews 10
    then ((score + 2)%Q, <["high_rating" := 2%Q]> score_breakdown)
    else if Qge_bool rating 3 && Qge_bool reviews 5
    then ((score + 1)%Q, <["good_rating" := 1%Q]> score_breakdown)
    else (score, score_breakdown) in
  let size_keywords :=
    ["small"; "boutique"; "specialized"; "startup"; "family-owned"] in
  let '(score, score_breakdown) :=
    if existsb (λ size, str_in size keyword_used) size_keywords
    then ((score + 1)%Q, <["size_indicator" := 1%Q]> score_breakdown)
    else (score, score_breakdown) in
  in_us ← py_in (get company "state") us_states;
  let '(score, score_breakdown) :=
    if (in_us : bool)
    then ((score + 1)%Q, <["us_location" := 1%Q]> score_breakdown)
    else (score, score_breakdown) in
  business_types ← py_lower (get_or company "types" (PStr ""));
  let '(score, score_breakdown) :=
    if str_in "establishment" business_types && str_in "business" business_types
    then ((score + 1)%Q, <["business_type" := 1%Q]> score_breakdown)
    else (score, score_breakdown) in
  let company := <["website_required_score" := PNum score]> company in
  let company := <["score_breakdown" := PDict score_breakdown]> company in
  Ok company.

Definition categorize_by_website_required_fit
    (companies : list (gmap string pyval))
  : result (list (gmap string pyval) * list (gmap string pyval)
            * list (gmap string pyval)) :=
  for_each (FilterModule.categorize_body 7 5 3) companies ([], [], []).

Definition filter_by_icp_criteria_body
    (filtered_companies : list (gmap string pyval)) (company : gmap string pyval)
  : result (list (gmap string pyval)) :=
  let score := 0%Q in
  in_us ← py_in (get company "state") us_states;
  let score := if (in_us : bool) then (score + 1)%Q else score in
  let rating := get company "rating" in
  score ←
    match rating with
    | PNone => Ok score
    | _ =>
        rating_float ← _to_float rating 0;
        if Qge_bool rating_float (7 # 2) then Ok (score + 1)%Q
        else if Qge_bool rating_float 3 then Ok (score + (1 # 2))%Q
        else Ok score
    end;
  business_types ← py_lower (get_or company "types" (PStr ""));
  let score :=
    if existsb (λ keyword, str_in keyword business_types)
         ["establishment"; "business"]
    then (score + 1)%Q else score in
  keyword_used ← py_lower (get_or company "keyword_used" (PStr ""));
  let score :=
    if existsb (λ industry, str_in industry keyword_used)
         ["medical"; "manufacturing"; "defense"; "consulting"]
    then (score + 2)%Q
    else if existsb (λ size, str_in size keyword_used)
              ["small"; "startup"; "boutique"; "specialized"]
    then (score + 1)%Q
    else score in
  if Qge_bool score 2
  then Ok (filtered_companies ++ [<["icp_score" := PNum score]> company])
  else Ok filtered_companies.

Definition filter_by_icp_criteria (companies : list (gmap string pyval))
  : result (list (gmap string pyval)) :=
  for_each filter_by_icp_criteria_body companies [].

End WithState.

End Pipeline.

(** ** A reading of [float] on strings, for the examples *)

Fixpoint digits_value (s : string) (acc : Z) : option Z :=
  match s with
  | EmptyString => Some acc
  | String c s' =>
      let n := nat_of_ascii c in
      if ((48 <=? n)%nat && (n <=? 57)%nat)
      then digits_value s' (10 * acc + Z.of_nat (n - 48))%Z
      else None
  end.

(** [float] on a string of decimal digits; every other string is taken as
    not a number. The theorems hold for every reading of [float]; this one
    instantiates them on examples whose strings it reads as Python does. *)
Definition float_of_digits (s : string) : option Q :=
  match s with
  | EmptyString => None
  | _ => inject_Z <$> digits_value s 0
  end.

(** ** Vocabulary of the statements *)

(** The text a record holds under [key]: the field when it is a string, the
    empty string when the key is missing. *)
Definition text_of (c : gmap string pyval) (key : string) : string :=
  match c !! key with
  | Some (PStr s) => s
  | _ => EmptyString
  end.

(** A text field is usable when it is missing or holds a string. *)
Definition text_field_ok (c : gmap string pyval) (key : string) : Prop :=
  match c !! key with
  | None | Some (PStr _) => True
  | Some _ => False
  end.

(** The characters of [s] after the first [n]. *)
Fixpoint string_drop (n : nat) (s : string) : string :=
  match n, s with
  | O, _ => s
  | S k, String _ s' => string_drop k s'
  | S _, EmptyString => EmptyString
  end.

Module ParserSpec.

(** The four fields of the answer: key, label of the line, default. *)
Definition field_keys : list string :=
  ["ai_fit_category"; "ai_reasoning"; "ai_people_assessment"; "ai_revenue_assessment"].

(** The fields whose line is stored as text: key and label. *)
Definition text_fields : list (string * string) :=
  [("ai_reasoning", "ai_reasoning:");
   ("ai_people_assessment", "ai_people_assessment:");
   ("ai_revenue_assessment", "ai_revenue_assessment:")].

(** The lines of [text] that carry [label], in order. *)
Definition labelled (label : string) (text : string) : list string :=
  List.filter (λ line, startswith (strip line) label) (split_char newline text).

(** The category token found in the content of an [ai_fit_category]
    line. *)
Definition fit_token (line : string) : string :=
  let content := strip (str_replace (strip line) "ai_fit_category:" "") in
  if str_in "High" content then "High"
  else if str_in "Medium" content then "Medium"
  else if str_in "Low" content then "Low"
  else "Unknown".

(** The line without its leading label, stripped: what a parser that
    removed only the prefix would store. *)
Definition minus_leading_label (label line : string) : string :=
  strip (string_drop (String.length label) (strip line)).

End ParserSpec.

Module NumSpec.

Section WithFloat.
Variable float_of_str : string → option Q.


(** The number [_to_float(v, dflt)] evaluates to. *)
Definition float_or (v : pyval) (dflt : Q) : Q :=
  match FilterModule.py_float float_of_str v with
  | Ok q => q
  | Raise _ => dflt
  end.
End WithFloat.

(** Sum of the values of a dictionary of numbers. *)
Definition dict_sum (d : gmap string Q) : Q :=
  map_fold (λ _ v acc, acc + v)%Q 0%Q d.

End NumSpec.

Module NoiseSpec.
Import ConfigManager NumSpec.

Section WithConfig.
Variable float_of_str : string → option Q.
Variable config : ConfigManager.t.



(** [field], lower-cased, contains [term] as it is configured. *)
Definition contains_configured (field term : string) : bool :=
  str_in term (lower field).

Definition review_count (c : gmap string pyval) : Q :=
  float_or float_of_str (get c "user_ratings_total") 0.

Definition below_minimum (c : gmap string pyval) : bool :=
  Qlt_bool (review_count c) (get_min_review_count config).


(** The three exclusion conditions, with the terms matched as they are
    configured. *)
Definition excluded (c : gmap string pyval) : bool :=
  existsb (contains_configured (text_of c "types")) (get_excluded_types config)
  || existsb (contains_configured (text_of c "name")) (get_negative_keywords config)
  || below_minimum c.

Definition terms : list string :=
  get_excluded_types config ++ get_negative_keywords config.




End WithConfig.

End NoiseSpec.

Module IcpSpec.
Import ConfigManager NumSpec.

Section WithConfig.
Variable float_of_str : string → option Q.
Variable states : gset string.

(** The record is fit for the checks of the ICP filter and of the
    scoring: text fields are strings, the state can be looked up in a
    set. *)
Definition record_ok (c : gmap string pyval) : Prop :=
  text_field_ok c "types" ∧ text_field_ok c "keyword_used"
  ∧ ∀ d, c !! "state" ≠ Some (PDict d).

Definition in_states (c : gmap string pyval) : bool :=
  match c !! "state" with
  | Some (PStr s) => bool_decide (s ∈ states)
  | _ => false
  end.

Definition any_in (terms : list string) (field : string) : bool :=
  existsb (λ term, str_in term (lower field)) terms.

Section WithWeights.
(** Points of the six rules. *)
Variables w_location w_high w_good w_category w_industry w_size : Q.

Definition location_points (c : gmap string pyval) : Q :=
  if in_states c then w_location else 0.

(** The rating counts only when it is present (not [None]). *)
Definition rating_points (c : gmap string pyval) : Q :=
  match get c "rating" with
  | PNone => 0
  | v =>
      let r := float_or float_of_str v 0 in
      if Qge_bool r (7 # 2) then w_high
      else if Qge_bool r 3 then w_good
      else 0
  end.

Definition category_points (c : gmap string pyval) : Q :=
  if any_in ["establishment"; "business"] (text_of c "types")
  then w_category else 0.

Definition keyword_points (c : gmap string pyval) : Q :=
  if any_in ["medical"; "manufacturing"; "defense"; "consulting"]
       (text_of c "keyword_used")
  then w_industry
  else if any_in ["small"; "startup"; "boutique"; "specialized"]
            (text_of c "keyword_used")
  then w_size
  else 0.

Definition weighted_score (c : gmap string pyval) : Q :=
  location_points c + rating_points c + category_points c + keyword_points c.
End WithWeights.

(** The score with the points fixed at +1, +1 / +0.5, +1 and +2 / +1. *)
Definition fixed_score : gmap string pyval → Q :=
  weighted_score 1 1 (1 # 2) 1 2 1.

(** The score with the points read from [icp_weights]. *)
Definition configured_score (icp_weights : gmap string Q)
  : gmap string pyval → Q :=
  weighted_score
    (wget icp_weights "us_location" 1) (wget icp_weights "high_rating" 1)
    (wget icp_weights "good_rating" (1 # 2)) (wget icp_weights "business_type" 1)
    (wget icp_weights "industry_keyword" 2) (wget icp_weights "size_keyword" 1).

Definition with_icp_score (score : gmap string pyval → Q) (c : gmap string pyval)
  : gmap string pyval :=
  <["icp_score" := PNum (score c)]> c.

End WithConfig.

End IcpSpec.

Module FitSpec.

(** A scored record: the score is a number, or missing and read as 0. *)
Definition scored (c : gmap string pyval) : Prop :=
  ∃ q, py_num (get_or c "website_required_score" (PNum 0)) = Ok q.

Definition score_value (c : gmap string pyval) : Q :=
  match py_num (get_or c "website_required_score" (PNum 0)) with
  | Ok q => q
  | Raise _ => 0
  end.

(** The bucket of a score: the thresholds are tried from the highest,
    each is an inclusive lower bound. *)
Definition bucket_of (high medium low : Q) (s : Q) : option string :=
  if Qge_bool s high then Some "High Fit"
  else if Qge_bool s medium then Some "Medium Fit"
  else if Qge_bool s low then Some "Low Fit"
  else None.

(** The records of [companies] that fall in bucket [name], in input
    order, with [fit_category] set to the name of the bucket. *)
Definition bucket (high medium low : Q) (name : string)
    (companies : list (gmap string pyval)) : list (gmap string pyval) :=
  map (λ c, <["fit_category" := PStr name]> c)
      (List.filter
         (λ c, bool_decide (bucket_of high medium low (score_value c) = Some name))
         companies).

(** The three thresholds read from the configuration. *)
Definition threshold (config : ConfigManager.t) (key : string) (dflt : Q) : Q :=
  wget (default ∅ (ConfigManager.fit_thresholds (ConfigManager.get_scoring_config config)))
    key dflt.

End FitSpec.

Module ScoreSpec.

(** One rule of the score: when it fires, [points] are added to the
    running score and [recorded] is entered under [rule]. *)
Definition award (fired : bool) (rule : string) (points recorded : Q)
    (st : Q * gmap string Q) : Q * gmap string Q :=
  if fired then ((st.1 + points)%Q, <[rule := recorded]> st.2) else st.

(** The keys of the running breakdown are among [rules] and, when
    [exact] is set, the running score is the sum of the running
    breakdown. *)
Definition tally_ok (exact : bool) (rules : list string) (st : Q * gmap string Q)
  : Prop :=
  (exact = true → (st.1 == NumSpec.dict_sum st.2)%Q)
  ∧ ∀ k, is_Some (st.2 !! k) → In k rules.

Definition rule_names : list string :=
  ["industry_match"; "website_required"; "high_rating"; "good_rating";
   "size_indicator"; "us_location"; "business_type"].

(** A score and a breakdown are stored, and the keys of the breakdown
    are rule names. *)
Definition breakdown_keys_ok (c : gmap string pyval) : Prop :=
  ∃ (score : Q) (breakdown : gmap string Q),
    c !! "website_required_score" = Some (PNum score)
    ∧ c !! "score_breakdown" = Some (PDict breakdown)
    ∧ ∀ k, is_Some (breakdown !! k) → In k rule_names.

(** The stored score is the sum of the stored breakdown, whose keys are
    rule names. *)
Definition breakdown_consistent (c : gmap string pyval) : Prop :=
  ∃ (score : Q) (breakdown : gmap string Q),
    c !! "website_required_score" = Some (PNum score)
    ∧ c !! "score_breakdown" = Some (PDict breakdown)
    ∧ (score == NumSpec.dict_sum breakdown)%Q
    ∧ ∀ k, is_Some (breakdown !! k) → In k rule_names.

End ScoreSpec.

Module RankSpec.

(** Ordinal of the fit category: High 3, Medium 2, Low 1, anything else
    and a missing field 0. *)
Definition fit_ordinal (c : gmap string pyval) : Z :=
  match c !! "ai_fit_category" with
  | Some (PStr s) =>
      if String.eqb s "High" then 3
      else if String.eqb s "Medium" then 2
      else if String.eqb s "Low" then 1
      else 0
  | _ => 0
  end.

(** The rating, a missing field read as 0. *)
Definition rating_value (c : gmap string pyval) : Q :=
  match py_num (get_or c "rating" (PNum 0)) with
  | Ok q => q
  | Raise _ => 0
  end.

(** A record whose sort key can be compared with every other: the
    category can be looked up and the rating is a number or missing. *)
Definition rankable (c : gmap string pyval) : Prop :=
  (∀ d, c !! "ai_fit_category" ≠ Some (PDict d))
  ∧ ∃ q, py_num (get_or c "rating" (PNum 0)) = Ok q.

(** [a] may stand before [b] in the ranking. *)
Definition may_precede (a b : gmap string pyval) : Prop :=
  (fit_ordinal b < fit_ordinal a)%Z
  ∨ (fit_ordinal a = fit_ordinal b ∧ (rating_value b <= rating_value a)%Q).

Definition same_key (a b : gmap string pyval) : bool :=
  (fit_ordinal a =? fit_ordinal b)%Z && Qeq_bool (rating_value a) (rating_value b).

(** The sort key of a record, and the key paired with the record. *)
Definition key_of (c : gmap string pyval) : Z * pyval :=
  (fit_ordinal c, get_or c "rating" (PNum 0)).

Definition keyed (c : gmap string pyval) : (Z * pyval) * gmap string pyval :=
  (key_of c, c).

(** The key of [a] is strictly below the key of [b]. *)
Definition key_below (a b : gmap string pyval) : bool :=
  (fit_ordinal a <? fit_ordinal b)%Z
  || ((fit_ordinal a =? fit_ordinal b)%Z
      && Qlt_bool (rating_value a) (rating_value b)).

(** The sort on records whose keys compare without an exception. *)
Fixpoint insert_ranked (x : gmap string pyval) (l : list (gmap string pyval))
  : list (gmap string pyval) :=
  match l with
  | [] => [x]
  | y :: l' => if key_below x y then y :: insert_ranked x l' else x :: y :: l'
  end.

Fixpoint ranked (l : list (gmap string pyval)) : list (gmap string pyval) :=
  match l with
  | [] => []
  | x :: l' => insert_ranked x (ranked l')
  end.

End RankSpec.

(** ** Concrete records and configurations used in the examples *)

Module Examples.
Import ConfigManager.

Definition record (fields : list (string * pyval)) : gmap string pyval :=
  list_to_map fields.

Definition config_of (excluded negative : list string) (minimum : option Q)
    (states : list string) (sc : scoring) : ConfigManager.t :=
  {| filters_excluded_types := Some excluded;
     filters_negative_keywords := Some negative;
     filters_min_review_count := minimum;
     us_states := Some states;
     scoring_entry := sc |}.

(** The record of end-to-end scenario 1. *)
Definition acme : gmap string pyval :=
  record [("name", PStr "Acme Medical Devices");
          ("types", PStr "establishment, business");
          ("rating", PNum (21 # 5));
          ("user_ratings_total", PNum 50);
          ("keyword_used", PStr "medical device");
          ("state", PStr "NY")].

Definition default_config : ConfigManager.t :=
  config_of ["restaurant"; "bar"] ["cafe"] None ["NY"; "CA"] no_scoring.

(** A bar, by its types. *)
Definition tavern : gmap string pyval :=
  record [("name", PStr "Old Town Tavern");
          ("types", PStr "Bar, Establishment");
          ("user_ratings_total", PNum 120)].

(** A record whose review count is null. *)
Definition unrated : gmap string pyval :=
  record [("name", PStr "Quiet Consulting");
          ("types", PStr "establishment");
          ("rating", PNone);
          ("user_ratings_total", PNone)].







(** A record with a partial rating tier. *)
Definition modest : gmap string pyval :=
  record [("name", PStr "Modest Works");
          ("types", PStr "point_of_interest, establishment");
          ("rating", PNum (16 # 5));
          ("user_ratings_total", PNum 6);
          ("keyword_used", PStr "it services");
          ("state", PStr "CA")].

(** A record known by its state alone. *)
Definition local_shop : gmap string pyval :=
  record [("name", PStr "Local Shop"); ("state", PStr "NY")].

Definition scoring_with (icp website : option (gmap string Q)) : scoring :=
  {| icp_weights := icp; min_icp_score := None;
     website_required_weights := website; rating_thresholds := None;
     fit_thresholds := None |}.


(** A configuration that gives the good-rating tier two points in the
    score. *)
Definition good_rating_config : ConfigManager.t :=
  config_of [] [] None ["NY"]
    (scoring_with None (Some (<["good_rating" := 2%Q]> ∅))).

(** Three scored records and one without a score. *)
Definition scored_8 : gmap string pyval :=
  record [("name", PStr "Eight"); ("website_required_score", PNum 8)].
Definition scored_5 : gmap string pyval :=
  record [("name", PStr "Five"); ("website_required_score", PNum 5)].
Definition scored_2 : gmap string pyval :=
  record [("name", PStr "Two"); ("website_required_score", PNum 2)].
Definition unscored : gmap string pyval :=
  record [("name", PStr "None")].

Definition high_4 : gmap string pyval :=
  record [("name", PStr "Second"); ("ai_fit_category", PStr "High");
          ("rating", PNum 4)].
Definition medium_4 : gmap string pyval :=
  record [("name", PStr "Third"); ("ai_fit_category", PStr "Medium");
          ("rating", PNum 4)].
Definition medium_35 : gmap string pyval :=
  record [("name", PStr "Fourth"); ("ai_fit_category", PStr "Medium");
          ("rating", PNum (7 # 2))].
Definition medium_4b : gmap string pyval :=
  record [("name", PStr "Fifth"); ("ai_fit_category", PStr "Medium");
          ("rating", PNum (8 # 2))].
Definition unknown_none : gmap string pyval :=
  record [("name", PStr "Sixth")].

(** Answers of the model. *)
Definition reasoning_only : string := "ai_reasoning: Yes: match".

Definition label_inside : string := "ai_reasoning: see ai_reasoning: above".

Definition two_lines : string :=
  "ai_fit_category: High" +:+ String newline
    "  ai_reasoning: see ai_reasoning: above  ".

Definition five_scored : list (gmap string pyval) :=
  [scored_5; scored_2; scored_8; unscored; acme].

End Examples.

(** * The rest of the modules

    [config_manager.py] ([get] with its dotted paths), [search_module.py],
    the website filter of [filter_module.py], the two loops of
    [ai_module.py] that call the model, the rows of [output_module.py] and
    the noise filter of [ModularProspectingModel1.py].

    Further conventions.
    - The network and the language model are outside the program: a
      function that calls them takes the state of the world and returns the
      new one, and the calls themselves are variables of the section, so
      that every statement holds whatever they answer.
    - An answer of a web service is taken as the code reads it: the entries
      the code looks at, typed as the service documents them; an answer that
      cannot be read that way (a failed request, invalid JSON, a missing
      [status]) is the failure of the call.
    - [print] and [time.sleep] with a delay that is not negative do nothing
      to the values computed and are left out; the arguments of [print] are
      kept where evaluating them can raise. *)

(** ** Further string and list primitives *)

Definition upper_char (c : ascii) : ascii :=
  let n := nat_of_ascii c in
  if ((97 <=? n)%nat && (n <=? 122)%nat) then ascii_of_nat (n - 32) else c.

(** [s.upper()] *)
Fixpoint upper (s : string) : string :=
  match s with
  | EmptyString => EmptyString
  | String c s' => String (upper_char c) (upper s')
  end.

(** [v.upper()]: only [str] has the method. *)
Definition py_upper (v : pyval) : result string :=
  match v with
  | PStr s => Ok (upper s)
  | _ => Raise AttributeError
  end.

(** [s.split()]: the maximal runs of characters that are not white space,
    in order. *)
Fixpoint split_ws (s : string) : list string :=
  match s with
  | EmptyString => []
  | String c s' =>
      if isspace c then split_ws s'
      else
        match s' with
        | EmptyString => [String c EmptyString]
        | String c' _ =>
            if isspace c' then String c EmptyString :: split_ws s'
            else
              match split_ws s' with
              | word :: words => String c word :: words
              | [] => [String c EmptyString]
              end
        end
  end.

(** [sep.join(l)] on a list of strings. *)
Fixpoint str_join (sep : string) (l : list string) : string :=
  match l with
  | [] => EmptyString
  | [x] => x
  | x :: l' => x +:+ sep +:+ str_join sep l'
  end.

(** [l[:n]]: a negative [n] counts from the end. *)
Definition slice_to {A : Type} (n : Z) (l : list A) : list A :=
  if (0 <=? n)%Z then take (Z.to_nat n) l
  else take (Z.to_nat (Z.of_nat (length l) + n)) l.

(** [v in s] for a [set] of hashable values, kept as the list of its
    elements in the order they were added: an unhashable [v] raises. *)
Definition set_contains (s : list pyval) (v : pyval) : result bool :=
  match v with
  | PDict _ => Raise TypeError
  | _ => Ok (existsb (Pipeline.py_eq v) s)
  end.

(** A loop that can be left from inside: [Next] goes on with the next
    element, [Leave] ends the loop ([return], [break]). *)
Inductive flow (S R : Type) : Type :=
| Next (st : S)
| Leave (r : R).

Arguments Next {S R} st.
Arguments Leave {S R} r.

Fixpoint for_flow {S R A : Type} (body : S → A → flow S R) (l : list A) (st : S)
  : flow S R :=
  match l with
  | [] => Next st
  | x :: l' =>
      match body st x with
      | Next st' => for_flow body l' st'
      | Leave r => Leave r
      end
  end.

(** ** [config_manager.py]: [get] on the loaded document *)

(** A parsed YAML document. A mapping keeps its string keys; [get] looks
    up strings only, so no other key can be found. *)
#[warnings="-register-all"]
Inductive doc : Type :=
| DNull
| DBool (b : bool)
| DNum (q : Q)
| DStr (s : string)
| DList (l : list doc)
| DDict (d : gmap string doc).

Module ConfigDoc.

(** The [for key in keys] loop of [get]. *)
Fixpoint descend (dflt : doc) (keys : list string) (value : doc) : doc :=
  match keys with
  | [] => value
  | key :: keys' =>
      match value with
      | DDict d =>
          match d !! key with
          | Some v => descend dflt keys' v
          | None => dflt
          end
      | _ => dflt
      end
  end.

Definition get (config : doc) (key_path : string) (dflt : doc) : doc :=
  let keys := split_char "."%char key_path in
  let value := config in
  descend dflt keys value.

Definition get_api_key (config : doc) (service : string) : doc :=
  get config ("api." +:+ service +:+ "_key") DNull.

Definition get_search_config (config : doc) : doc := get config "search" (DDict ∅).
Definition get_filter_config (config : doc) : doc := get config "filters" (DDict ∅).
Definition get_scoring_config (config : doc) : doc := get config "scoring" (DDict ∅).
Definition get_ai_config (config : doc) : doc := get config "ai" (DDict ∅).
Definition get_output_config (config : doc) : doc := get config "output" (DDict ∅).
Definition get_us_states (config : doc) : doc := get config "us_states" (DList []).
Definition get_max_results (config : doc) : doc :=
  get config "search.max_results" (DNum 100).
Definition get_core_keywords (config : doc) : doc :=
  get config "search.core_icp_keywords" (DList []).
Definition get_peripheral_keywords (config : doc) : doc :=
  get config "search.peripheral_keywords" (DList []).
Definition get_tier_1_cities (config : doc) : doc :=
  get config "search.tier_1_cities" (DList []).
Definition get_tier_2_cities (config : doc) : doc :=
  get config "search.tier_2_cities" (DList []).
Definition get_excluded_types (config : doc) : doc :=
  get config "filters.excluded_types" (DList []).
Definition get_negative_keywords (config : doc) : doc :=
  get config "filters.negative_keywords" (DList []).
Definition get_min_review_count (config : doc) : doc :=
  get config "filters.min_review_count" (DNum 3).
Definition get_business_indicators (config : doc) : doc :=
  get config "filters.business_indicators" (DList []).
Definition get_precheck_delay (config : doc) : doc :=
  get config "ai.precheck_delay" (DNum (3 # 10)).
Definition get_evaluation_delay (config : doc) : doc :=
  get config "ai.evaluation_delay" (DNum (3 # 10)).
Definition get_precheck_max_tokens (config : doc) : doc :=
  get config "ai.precheck_max_tokens" (DNum 10).
Definition get_evaluation_max_tokens (config : doc) : doc :=
  get config "ai.evaluation_max_tokens" (DNum 500).
Definition get_site_excerpt_max_chars (config : doc) : doc :=
  get config "ai.site_excerpt_max_chars" (DNum 1200).

End ConfigDoc.

(** ** The entries of the configuration read by the other modules *)

(** As in [ConfigManager.t], an entry that is missing reads as [None] and
    the getter supplies the default of [config_manager.py]. *)
Module Settings.

Record t : Type := {
  manager : ConfigManager.t;
  search_max_results : option Z;
  search_tier_1_radius : option Q;
  search_tier_2_radius : option Q;
  search_core_icp_keywords : option (list string);
  search_peripheral_keywords : option (list string);
  search_tier_1_cities : option (list string);
  search_tier_2_cities : option (list string);
  search_comprehensive_cities : option (list string);
  search_comprehensive_keywords : option (list string);
  filters_business_indicators : option (list string);
  ai_precheck_delay : option Q;
  ai_evaluation_delay : option Q
}.

Definition get_max_results (c : t) : Z := default 100%Z (search_max_results c).
Definition get_core_keywords (c : t) : list string :=
  default [] (search_core_icp_keywords c).
Definition get_peripheral_keywords (c : t) : list string :=
  default [] (search_peripheral_keywords c).
Definition get_tier_1_cities (c : t) : list string :=
  default [] (search_tier_1_cities c).
Definition get_tier_2_cities (c : t) : list string :=
  default [] (search_tier_2_cities c).
Definition get_business_indicators (c : t) : list string :=
  default [] (filters_business_indicators c).
Definition get_precheck_delay (c : t) : Q := default (3 # 10) (ai_precheck_delay c).
Definition get_evaluation_delay (c : t) : Q :=
  default (3 # 10) (ai_evaluation_delay c).

End Settings.

(** ** [search_module.py] *)

Module SearchModule.
Import ConfigManager.

(** A place of the Places answer: its entries other than [types], and the
    list under [types] when there is one. *)
Record place : Type := {
  entries : gmap string pyval;
  types : option (list pyval)
}.

(** The Places answer: [data['status']] and [data.get('results')]. *)
Record answer : Type := {
  status : pyval;
  results : option (list place)
}.

(** [', '.join(l)]: every item has to be a string. *)
Fixpoint strings_of (l : list pyval) : result (list string) :=
  match l with
  | [] => Ok []
  | PStr s :: l' => r ← strings_of l'; Ok (s :: r)
  | _ :: _ => Raise TypeError
  end.

Definition join_types (l : list pyval) : result string :=
  items ← strings_of l; Ok (str_join ", " items).

Section WithNetwork.

(** The state of the network. *)
Variable World : Type.

Variable settings : Settings.t.

(** [self.get_coordinates(city)]: the pair the geocoding service
    answers, [(None, None)] when it fails; it never raises. *)
Variable get_coordinates : string → World → (pyval * pyval) * World.

(** The request to the Places service for a location, a radius and a
    keyword, and the decoding of its answer; [None] when that raises. *)
Variable nearby_search : pyval → pyval → Q → string → World → option answer * World.

(** The attributes set by [__init__]. *)
Definition self_us_states : gset string :=
  list_to_set (get_us_states (Settings.manager settings)).
Definition self_max_results : Z := Settings.get_max_results settings.
Definition self_tier_1_radius : Q :=
  default 50000%Q (Settings.search_tier_1_radius settings).
Definition self_tier_2_radius : Q :=
  default 25000%Q (Settings.search_tier_2_radius settings).

Definition extract_state (address : pyval) : result string :=
  if negb (truthy address) then Ok ""
  else
    upper_address ← py_upper address;
    let words := split_ws upper_address in
    Ok (default "" (List.find (λ word, bool_decide (word ∈ self_us_states)) words)).

(** The dictionary [company_data] built from a place. *)
Definition company_data (city keyword : string) (place : place)
  : result (gmap string pyval) :=
  state ← extract_state (get_or (entries place) "vicinity" (PStr ""));
  types ← join_types (default [] (types place));
  Ok (list_to_map
        [("name", get (entries place) "name");
         ("address", get (entries place) "vicinity");
         ("city", PStr city);
         ("state", PStr state);
         ("keyword_used", PStr keyword);
         ("types", PStr types);
         ("rating", get (entries place) "rating");
         ("user_ratings_total", get (entries place) "user_ratings_total");
         ("place_id", get (entries place) "place_id");
         ("price_level", get (entries place) "price_level");
         ("business_status", get (entries place) "business_status")]).

(** The [for place in data.get('results', [])] loop. It changes
    [self.visited_place_ids] as it goes, so the set is returned also
    when a turn raises. *)
Fixpoint collect (city keyword : string) (places : list place)
    (visited_place_ids : list pyval) (companies : list (gmap string pyval))
  : list pyval * result (list (gmap string pyval)) :=
  match places with
  | [] => (visited_place_ids, Ok companies)
  | place :: places' =>
      let place_id := get (entries place) "place_id" in
      match set_contains visited_place_ids place_id with
      | Raise e => (visited_place_ids, Raise e)
      | Ok true => collect city keyword places' visited_place_ids companies
      | Ok false =>
          let visited_place_ids := visited_place_ids ++ [place_id] in
          match company_data city keyword place with
          | Raise e => (visited_place_ids, Raise e)
          | Ok company => collect city keyword places' visited_place_ids
                            (companies ++ [company])
          end
      end
  end.

(** The state of the object and of the network:
    [self.visited_place_ids] and the world. *)
Definition state : Type := list pyval * World.

Definition search_companies (city keyword : string) (radius : Q) (st : state)
  : list (gmap string pyval) * state :=
  let '(visited_place_ids, w) := st in
  let '((lat, lng), w) := get_coordinates city w in
  if negb (truthy lat) || negb (truthy lng) then ([], (visited_place_ids, w))
  else
    let '(data, w) := nearby_search lat lng radius keyword w in
    match data with
    | None => ([], (visited_place_ids, w))
    | Some data =>
        if Pipeline.py_eq (status data) (PStr "OK") then
          let '(visited_place_ids, companies) :=
            collect city keyword (default [] (results data)) visited_place_ids [] in
          match companies with
          | Ok companies => (companies, (visited_place_ids, w))
          | Raise _ => ([], (visited_place_ids, w))
          end
        else ([], (visited_place_ids, w))
    end.

(** One search of the core phase of [search_with_optimized_keywords]. *)
Definition core_search (city : string)
    (st : list (gmap string pyval) * state) (keyword : string)
  : flow (list (gmap string pyval) * state)
         ((list (gmap string pyval) * list (gmap string pyval)) * state) :=
  let '(core_results, s) := st in
  let '(companies, s) := search_companies city keyword self_tier_1_radius s in
  let core_results := core_results ++ companies in
  if (self_max_results <=? Z.of_nat (length core_results))%Z
  then Leave ((slice_to self_max_results core_results, []), s)
  else Next (core_results, s).

(** One search of the peripheral phase. *)
Definition peripheral_search (core_results : list (gmap string pyval))
    (city : string) (st : list (gmap string pyval) * state) (keyword : string)
  : flow (list (gmap string pyval) * state)
         ((list (gmap string pyval) * list (gmap string pyval)) * state) :=
  let '(peripheral_results, s) := st in
  let '(companies, s) := search_companies city keyword self_tier_2_radius s in
  let peripheral_results := peripheral_results ++ companies in
  if (self_max_results
      <=? Z.of_nat (length core_results) + Z.of_nat (length peripheral_results))%Z
  then
    let remaining := Z.max 0 (self_max_results - Z.of_nat (length core_results)) in
    Leave ((core_results, slice_to remaining peripheral_results), s)
  else Next (peripheral_results, s).

Definition search_with_optimized_keywords (s : state)
  : (list (gmap string pyval) * list (gmap string pyval)) * state :=
  let core_keywords := Settings.get_core_keywords settings in
  let peripheral_keywords := Settings.get_peripheral_keywords settings in
  let tier_1_cities := Settings.get_tier_1_cities settings in
  let tier_2_cities := Settings.get_tier_2_cities settings in
  match for_flow (λ st city, for_flow (core_search city) core_keywords st)
          tier_1_cities ([], s) with
  | Leave r => r
  | Next (core_results, s) =>
      match for_flow
              (λ st city,
                 for_flow (peripheral_search core_results city)
                   peripheral_keywords st)
              tier_2_cities ([], s) with
      | Leave r => r
      | Next (peripheral_results, s) => ((core_results, peripheral_results), s)
      end
  end.

(** One search of [search_comprehensive]; [Leave] is the [break] of the
    loop over the keywords. *)
Definition comprehensive_search (city : string)
    (st : list (gmap string pyval) * state) (keyword : string)
  : flow (list (gmap string pyval) * state) (list (gmap string pyval) * state) :=
  let '(all_companies, s) := st in
  let '(companies, s) := search_companies city keyword 50000 s in
  let all_companies := all_companies ++ companies in
  if (self_max_results <=? Z.of_nat (length all_companies))%Z
  then Leave (all_companies, s)
  else Next (all_companies, s).

(** One turn of the loop over the cities; [Leave] is its [break]. *)
Definition comprehensive_city (keywords : list string)
    (st : list (gmap string pyval) * state) (city : string)
  : flow (list (gmap string pyval) * state) (list (gmap string pyval) * state) :=
  let st :=
    match for_flow (comprehensive_search city) keywords st with
    | Next st => st
    | Leave st => st
    end in
  if (self_max_results <=? Z.of_nat (length st.1))%Z then Leave st else Next st.

Definition search_comprehensive (s : state) : list (gmap string pyval) * state :=
  let cities := default [] (Settings.search_comprehensive_cities settings) in
  let keywords := default [] (Settings.search_comprehensive_keywords settings) in
  match for_flow (comprehensive_city keywords) cities ([], s) with
  | Next st => st
  | Leave st => st
  end.

End WithNetwork.

End SearchModule.

(** ** [filter_module.py]: the website filter *)

Module WebsiteFilter.

(** The Places details answer: [details_data['status']] and
    [details_data['result']], [None] when that subscription raises. *)
Record details : Type := {
  status : pyval;
  result_entry : option (gmap string pyval)
}.

(** A function whose only exception is the [KeyError] of a subscription
    [d[key]]. *)
Inductive subscripted (A : Type) : Type :=
| Returns (a : A)
| KeyError (key : string).

Arguments Returns {A} a.
Arguments KeyError {A} key.

Section WithNetwork.

Variable World : Type.
Variable settings : Settings.t.

(** [requests.get(website, timeout=10)]: the status code and the text
    of the response, [None] when the request raises. *)
Variable requests_get : pyval → World → option (Z * string) * World.

(** The request to the Places details service for a place and the
    decoding of its answer; [None] when that raises. *)
Variable place_details : pyval → World → option details * World.

Definition validate_website (website company_name : pyval) (w : World)
  : bool * World :=
  let business_indicators := Settings.get_business_indicators settings in
  match requests_get website w with
  | (Some (status_code, text), w) =>
      if (status_code =? 200)%Z then
        let content := lower text in
        let has_business_content :=
          existsb (λ indicator, str_in indicator content) business_indicators in
        if has_business_content then (true, w) else (false, w)
      else (false, w)
  | (None, w) => (false, w)
  end.

(** The [try] block of one turn: [Some (Some company)] when the company
    is appended, [Some None] when it is excluded, [None] when an
    exception reaches the handler. [company['name']] raises on a record
    without the key. *)
Definition try_website (company : gmap string pyval) (place_id : pyval) (w : World)
  : option (option (gmap string pyval)) * World :=
  match place_details place_id w with
  | (None, w) => (None, w)
  | (Some details_data, w) =>
      if Pipeline.py_eq (status details_data) (PStr "OK") then
        match result_entry details_data with
        | None => (None, w)
        | Some result =>
            let website := get result "website" in
            if truthy website then
              match company !! "name" with
              | None => (None, w)
              | Some name =>
                  let '(valid, w) := validate_website website name w in
                  if (valid : bool) then
                    let company := <["website" := website]> company in
                    let company :=
                      <["phone" := get result "formatted_phone_number"]> company in
                    let company := <["website_valid" := PBool true]> company in
                    (Some (Some company), w)
                  else (Some None, w)
              end
            else
              match company !! "name" with
              | None => (None, w)
              | Some _ => (Some None, w)
              end
        end
      else
        match company !! "name" with
        | None => (None, w)
        | Some _ => (Some None, w)
        end
  end.

(** Loop state of [filter_websites_required]: [companies_with_websites],
    [excluded_count] and the world. *)
Definition filter_websites_required_body
    (st : list (gmap string pyval) * nat * World) (company : gmap string pyval)
  : subscripted (list (gmap string pyval) * nat * World) :=
  let '(companies_with_websites, excluded_count, w) := st in
  let place_id := get company "place_id" in
  if negb (truthy place_id)
  then Returns (companies_with_websites, S excluded_count, w)
  else
    match try_website company place_id w with
    | (Some (Some company), w) =>
        Returns (companies_with_websites ++ [company], excluded_count, w)
    | (Some None, w) => Returns (companies_with_websites, S excluded_count, w)
    | (None, w) =>
        match company !! "name" with
        | None => KeyError "name"
        | Some _ => Returns (companies_with_websites, S excluded_count, w)
        end
    end.

Fixpoint filter_websites_required_loop (companies : list (gmap string pyval))
    (st : list (gmap string pyval) * nat * World)
  : subscripted (list (gmap string pyval) * nat * World) :=
  match companies with
  | [] => Returns st
  | company :: companies' =>
      match filter_websites_required_body st company with
      | Returns st' => filter_websites_required_loop companies' st'
      | KeyError key => KeyError key
      end
  end.

Definition filter_websites_required (companies : list (gmap string pyval))
    (w : World) : subscripted (list (gmap string pyval) * World) :=
  match filter_websites_required_loop companies ([], 0%nat, w) with
  | Returns (companies_with_websites, _, w) => Returns (companies_with_websites, w)
  | KeyError key => KeyError key
  end.

End WithNetwork.

End WebsiteFilter.

(** ** [ai_module.py]: the two loops that call the model *)

Module AIEvaluation.

(** What a call of the model gives: the text of the answer, or the
    message of the exception it raised. *)
Inductive reply : Type :=
| Reply (text : string)
| Failure (message : string).




Section WithModel.

Variable World : Type.
Variable settings : Settings.t.

(** [run_prompt] on the pre-check prompt of a company. *)
Variable run_precheck : gmap string pyval → World → reply * World.

(** [_fetch_site_excerpt(url)]: the excerpt, or [None]; it never
    raises. *)
Variable _fetch_site_excerpt : pyval → World → option string * World.

(** [run_prompt] on the evaluation prompt of a company and an
    excerpt. *)
Variable run_evaluation :
  gmap string pyval → option string → World → reply * World.

(** One turn of the loop of [ai_precheck]. An exception of
    [time.sleep] comes after the company is appended and is caught:
    it changes nothing. *)
Definition ai_precheck_body (st : list (gmap string pyval) * World)
    (company : gmap string pyval) : list (gmap string pyval) * World :=
  let '(passed_companies, w) := st in
  match run_precheck company w with
  | (Reply response, w) =>
      if startswith (lower (strip response)) "yes"
      then (passed_companies ++ [company], w)
      else (passed_companies, w)
  | (Failure _, w) => (passed_companies, w)
  end.

Definition ai_precheck (companies : list (gmap string pyval)) (cap : option Z)
    (w : World) : list (gmap string pyval) * World :=
  let cap := default (Z.of_nat (length companies)) cap in
  fold_left ai_precheck_body (slice_to cap companies) ([], w).



End WithModel.

End AIEvaluation.

(** ** [output_module.py]: the rows handed to the data frame *)

(** A row is the dictionary [filtered_company]; the order of its columns is
    not modelled. *)
Module OutputModule.

(** The row of [save_results]. *)
Definition save_results_row (company : gmap string pyval) : gmap string pyval :=
  let filtered_company : gmap string pyval := ∅ in
  let filtered_company := <["place_id" := get company "place_id"]> filtered_company in
  let filtered_company := <["name" := get company "name"]> filtered_company in
  let filtered_company := <["address" := get company "address"]> filtered_company in
  let filtered_company := <["city" := get company "city"]> filtered_company in
  let filtered_company := <["state" := get company "state"]> filtered_company in
  let filtered_company :=
    <["keywords" := get company "keyword_used"]> filtered_company in
  let filtered_company := <["types" := get company "types"]> filtered_company in
  let filtered_company := <["rating" := get company "rating"]> filtered_company in
  let filtered_company := <["website" := get company "website"]> filtered_company in
  let filtered_company := <["phone" := get company "phone"]> filtered_company in
  let filtered_company :=
    <["ai_evaluation" := get company "ai_evaluation"]> filtered_company in
  let filtered_company :=
    <["ai_fit_category" := get company "ai_fit_category"]> filtered_company in
  let filtered_company :=
    <["ai_reasoning" := get company "ai_reasoning"]> filtered_company in
  let filtered_company :=
    <["ai_people_assessment" := get company "ai_people_assessment"]>
      filtered_company in
  let filtered_company :=
    <["ai_revenue_assessment" := get company "ai_revenue_assessment"]>
      filtered_company in
  filtered_company.

(** One column of the row of [save_results_with_custom_schema]. *)
Definition custom_column (company : gmap string pyval)
    (filtered_company : gmap string pyval) (column : string) : gmap string pyval :=
  if String.eqb column "keywords"
  then <[column := get company "keyword_used"]> filtered_company
  else if String.eqb column "ai_evaluation"
  then <[column := get company "ai_evaluation"]> filtered_company
  else if String.eqb column "ai_fit_category"
  then <[column := get company "ai_fit_category"]> filtered_company
  else if String.eqb column "ai_reasoning"
  then <[column := get company "ai_reasoning"]> filtered_company
  else if String.eqb column "ai_people_assessment"
  then <[column := get company "ai_people_assessment"]> filtered_company
  else if String.eqb column "ai_revenue_assessment"
  then <[column := get company "ai_revenue_assessment"]> filtered_company
  else <[column := get company column]> filtered_company.

Definition custom_schema_row (schema_columns : list string)
    (company : gmap string pyval) : gmap string pyval :=
  fold_left (custom_column company) schema_columns ∅.

(** The [schema_columns] of [save_results] and [export_to_excel]. *)
Definition schema_columns : list string :=
  ["place_id"; "name"; "address"; "city"; "state"; "keywords"; "types";
   "rating"; "website"; "phone"; "ai_evaluation"; "ai_fit_category";
   "ai_reasoning"; "ai_people_assessment"; "ai_revenue_assessment"].

(** One column of the row of [export_to_excel]. *)
Definition excel_column (company : gmap string pyval)
    (filtered_company : gmap string pyval) (column : string) : gmap string pyval :=
  if String.eqb column "keywords"
  then <[column := get company "keyword_used"]> filtered_company
  else <[column := get company column]> filtered_company.

Definition export_to_excel_row (company : gmap string pyval) : gmap string pyval :=
  fold_left (excel_column company) schema_columns ∅.

End OutputModule.

(** ** [ModularProspectingModel1.py]: the noise filter *)

Module Legacy.

Definition get_exclusion_filters : list string * list string :=
  let excluded_types :=
    ["restaurant"; "bar"; "gym"; "hotel"; "salon";
     "retail"; "grocery"; "daycare"; "real_estate";
     "auto_repair"; "spa"; "beauty_salon"; "car_dealer";
     "gas_station"; "pharmacy"; "bank"; "insurance_agency";
     "lawyer"; "dentist"; "doctor"; "hospital"; "clinic"] in
  let negative_keywords :=
    ["restaurant"; "cafe"; "bar"; "gym"; "hotel"; "motel";
     "salon"; "spa"; "retail"; "store"; "shop"; "grocery";
     "supermarket"; "daycare"; "childcare"; "real estate";
     "auto repair"; "car dealer"; "gas station"; "pharmacy";
     "bank"; "insurance"; "law firm"; "dental"; "medical center"] in
  (excluded_types, negative_keywords).

Section WithFloat.

Variable float_of_str : string → option Q.

Definition filter_noise_body
    (excluded_types negative_keywords : list string)
    (st : list (gmap string pyval) * nat) (company : gmap string pyval)
  : result (list (gmap string pyval) * nat) :=
  let '(filtered_companies, excluded_count) := st in
  let should_exclude := false in
  company_types ← py_lower (get_or company "types" (PStr ""));
  let should_exclude :=
    if existsb (λ excluded_type, str_in excluded_type company_types) excluded_types
    then true else should_exclude in
  company_name ← py_lower (get_or company "name" (PStr ""));
  let should_exclude :=
    if existsb (λ negative_keyword, str_in negative_keyword company_name)
         negative_keywords
    then true else should_exclude in
  review_count ← Pipeline._to_float float_of_str (get company "user_ratings_total") 0;
  let should_exclude :=
    if Qlt_bool review_count 3 then true else should_exclude in
  if should_exclude
  then Ok (filtered_companies, S excluded_count)
  else Ok (filtered_companies ++ [company], excluded_count).

Definition filter_noise (companies : list (gmap string pyval))
  : result (list (gmap string pyval)) :=
  let '(excluded_types, negative_keywords) := get_exclusion_filters in
  '(filtered_companies, _) ←
    for_each (filter_noise_body excluded_types negative_keywords)
      companies ([], 0%nat);
  Ok filtered_companies.

End WithFloat.

End Legacy.

(** ** Vocabulary of the statements on the rest of the modules *)

(** Every character of [s] passes the test [f]. *)
Fixpoint str_forallb (f : ascii → bool) (s : string) : bool :=
  match s with
  | EmptyString => true
  | String c s' => f c && str_forallb f s'
  end.

Module SearchSpec.

(** The words [extract_state] goes through: those of the upper-cased
    address. *)
Definition words_of (address : pyval) : list string :=
  match address with
  | PStr s => split_ws (upper s)
  | _ => []
  end.

Definition no_space (s : string) : bool := str_forallb (λ c, negb (isspace c)) s.

Definition place_id_of (c : gmap string pyval) : pyval := get c "place_id".

(** No record of the list has the place id of a record before it. *)
Fixpoint distinct_places (l : list (gmap string pyval)) : Prop :=
  match l with
  | [] => True
  | c :: l' =>
      Forall (λ c', Pipeline.py_eq (place_id_of c') (place_id_of c) = false) l'
      ∧ distinct_places l'
  end.

(** The place of the record is not in the set of visited places. *)
Definition unvisited (visited_place_ids : list pyval) (c : gmap string pyval)
  : Prop :=
  existsb (Pipeline.py_eq (place_id_of c)) visited_place_ids = false.

Definition company_keys : gset string :=
  list_to_set ["name"; "address"; "city"; "state"; "keyword_used"; "types";
               "rating"; "user_ratings_total"; "place_id"; "price_level";
               "business_status"].

(** A record as [search_companies] builds it for a city and a keyword:
    the eleven keys, the city and the keyword, the types joined in a
    string, and a state that is empty or one of the configured states. *)
Definition search_record (states : gset string) (city keyword : string)
    (c : gmap string pyval) : Prop :=
  dom c = company_keys
  ∧ c !! "city" = Some (PStr city)
  ∧ c !! "keyword_used" = Some (PStr keyword)
  ∧ (∃ types, c !! "types" = Some (PStr types))
  ∧ (∃ state, c !! "state" = Some (PStr state) ∧ (state = "" ∨ state ∈ states)).

(** Invariant of the loops over the searches: the set has only grown,
    the records found are distinct, were not in the set at the start and
    are in the set now. *)
Definition found_ok {World : Type} (visited0 : list pyval)
    (found : list (gmap string pyval)) (s : list pyval * World) : Prop :=
  (∃ extra, s.1 = visited0 ++ extra)
  ∧ distinct_places found
  ∧ Forall (unvisited visited0) found
  ∧ Forall (λ c, In (place_id_of c) s.1) found.

(** The searches of a grid of cities and keywords, city by city. *)
Definition grid (cities keywords : list string) : list (string * string) :=
  flat_map (λ city, map (pair city) keywords) cities.

(** The end of a loop, reached or left. *)
Definition ended {S : Type} (f : flow S S) : S :=
  match f with
  | Next st => st
  | Leave st => st
  end.

End SearchSpec.

Module WebsiteSpec.

(** A record the website filter can go through: one it skips for want of
    a place id, or one that has the key [name]. *)
Definition named (c : gmap string pyval) : Prop :=
  truthy (get c "place_id") = true → is_Some (c !! "name").

(** [c'] is [c] with the three entries of a validated website. *)
Definition validated (c c' : gmap string pyval) : Prop :=
  ∃ website phone,
    truthy website = true
    ∧ c' = <["website_valid" := PBool true]>
             (<["phone" := phone]> (<["website" := website]> c)).

End WebsiteSpec.

Module AISpec.


Definition categories : list string := ["High"; "Medium"; "Low"; "Unknown"].

(** The reply lets a company pass the pre-check: it is an answer that,
    stripped and lower-cased, starts with [yes]. *)
Definition says_yes (r : AIEvaluation.reply) : bool :=
  match r with
  | AIEvaluation.Reply response => startswith (lower (strip response)) "yes"
  | AIEvaluation.Failure _ => false
  end.



End AISpec.

Module OutputSpec.

(** The key of the record a column is read from. *)
Definition source (column : string) : string :=
  if String.eqb column "keywords" then "keyword_used" else column.

End OutputSpec.

Module ScoreReads.

(** The entries of a record the score is computed from. *)
Definition reads : list string :=
  ["keyword_used"; "website_valid"; "rating"; "user_ratings_total"; "state"; "types"].

(** The record with a score and a breakdown stored. *)
Definition stored (score : Q) (breakdown : gmap string Q) (c : gmap string pyval)
  : gmap string pyval :=
  <["score_breakdown" := PDict breakdown]>
    (<["website_required_score" := PNum score]> c).

End ScoreReads.

(** ** Concrete documents, settings and worlds used in the examples *)

Module Scenarios.

(** A configuration document with a key that contains a dot. *)
Definition filters_doc : gmap string doc :=
  <["min_review_count" := DNum 5]> (<["excluded_types" := DNull]> ∅).

Definition config_entries : gmap string doc :=
  <["filters" := DDict filters_doc]> (<["us_states" := DList [DStr "NY"]]> ∅).

Definition config_doc : doc := DDict config_entries.

Definition settings_with (max_results : Z) (indicators : option (list string))
    (delay : option Q) : Settings.t :=
  {| Settings.manager := Examples.default_config;
     Settings.search_max_results := Some max_results;
     Settings.search_tier_1_radius := None;
     Settings.search_tier_2_radius := None;
     Settings.search_core_icp_keywords := Some ["medical device"];
     Settings.search_peripheral_keywords := Some ["boutique"];
     Settings.search_tier_1_cities := Some ["New York, NY"];
     Settings.search_tier_2_cities := Some ["Austin, TX"];
     Settings.search_comprehensive_cities := None;
     Settings.search_comprehensive_keywords := None;
     Settings.filters_business_indicators := indicators;
     Settings.ai_precheck_delay := None;
     Settings.ai_evaluation_delay := delay |}.

Definition settings : Settings.t := settings_with 1 (Some ["services"]) None.

(** The world counts the requests made. *)
Definition get_coordinates (city : string) (w : nat) : (pyval * pyval) * nat :=
  ((PNum 40, PNum (-74)), S w).

Definition place_of (place_id : string) (name : pyval) (vicinity : string)
  : SearchModule.place :=
  {| SearchModule.entries :=
       Examples.record [("place_id", PStr place_id); ("name", name);
                        ("vicinity", PStr vicinity); ("rating", PNum 4)];
     SearchModule.types := Some [PStr "point_of_interest"; PStr "establishment"] |}.

(** Every search answers the same three places, the third a repetition
    of the first. *)
Definition nearby_search (lat lng : pyval) (radius : Q) (keyword : string) (w : nat)
  : option SearchModule.answer * nat :=
  (Some {| SearchModule.status := PStr "OK";
           SearchModule.results :=
             Some [place_of "p1" (PStr "Acme Devices") "1 Main St, Albany ny";
                   place_of "p2" PNone "2 Oak Ave, Austin";
                   place_of "p1" (PStr "Acme Devices") "1 Main St, Albany ny"] |},
   S w).

(** The records of a first search. *)
Definition found : list (gmap string pyval) :=
  (SearchModule.search_companies nat settings get_coordinates nearby_search
     "New York, NY" "medical device" 50000 ([], 0%nat)).1.

(** A site that answers 200 with a text, and the details of a place. *)
Definition requests_get (website : pyval) (w : nat) : option (Z * string) * nat :=
  (Some (200%Z, "Our Services and Team"), S w).

Definition place_details (place_id : pyval) (w : nat)
  : option WebsiteFilter.details * nat :=
  (Some {| WebsiteFilter.status := PStr "OK";
           WebsiteFilter.result_entry :=
             Some (Examples.record [("website", PStr "https://acme.example");
                                    ("formatted_phone_number", PStr "555-0100")]) |},
   S w).

Definition with_place : gmap string pyval :=
  Examples.record [("name", PStr "Acme Devices"); ("place_id", PStr "p1")].

Definition without_place : gmap string pyval :=
  Examples.record [("name", PStr "No Place")].

Definition without_name : gmap string pyval :=
  Examples.record [("place_id", PStr "p3")].

(** A model that lets a company pass when it has a rating, and that
    evaluates every company as a high fit. *)
Definition answer (c : gmap string pyval) : AIEvaluation.reply :=
  match c !! "rating" with
  | Some _ => AIEvaluation.Reply " Yes."
  | None => AIEvaluation.Failure "timeout"
  end.

Definition run_precheck (c : gmap string pyval) (w : nat) : AIEvaluation.reply * nat :=
  (answer c, S w).



(** The scored record of the scenario of the specification. *)
Definition acme_with_website : gmap string pyval :=
  <["website_valid" := PBool true]> Examples.acme.

(** A configuration with the lists of [ModularProspectingModel1.py]. *)
Definition legacy_config : ConfigManager.t :=
  Examples.config_of Legacy.get_exclusion_filters.1 Legacy.get_exclusion_filters.2
    None ["NY"; "CA"] ConfigManager.no_scoring.

(** The scenario record after its scoring: 3 + 2 + 2 + 1 + 1. *)
Definition acme_scored : gmap string pyval :=
  ScoreReads.stored 9
    (<["business_type" := 1%Q]>
       (<["us_location" := 1%Q]>
          (<["high_rating" := 2%Q]>
             (<["website_required" := 2%Q]> (<["industry_match" := 3%Q]> ∅)))))
    acme_with_website.


Definition optimized : list (gmap string pyval) * list (gmap string pyval) :=
  (SearchModule.search_with_optimized_keywords nat settings get_coordinates
     nearby_search ([], 0%nat)).1.

End Scenarios.

(** * Properties *)

(** ** Strings *)

Lemma prefix_common (p q s : string) :
  String.prefix p s = true → String.prefix q s = true →
  String.prefix p q = true ∨ String.prefix q p = true.
Proof.
  revert p q. induction s as [|c s IH]; intros [|a p] [|b q]; simpl; auto.
  - discriminate.
  - destruct (ascii_dec a c) as [->|]; [|discriminate].
    destruct (ascii_dec b c) as [->|]; [|discriminate].
    intros Hp Hq. destruct (ascii_dec c c); [|congruence]. auto.
Qed.

Lemma startswith_exclusive (p q s : string) :
  String.prefix p q = false → String.prefix q p = false →
  startswith s p = true → startswith s q = false.
Proof.
  unfold startswith. intros Hpq Hqp Hp.
  destruct (String.prefix q s) eqn:Hq; [|reflexivity].
  destruct (prefix_common p q s Hp Hq); congruence.
Qed.

Lemma prefix_append (p r : string) : String.prefix p (p +:+ r) = true.
Proof.
  induction p as [|a p IH]; simpl; [by destruct r|].
  destruct (ascii_dec a a); [done | congruence].
Qed.

Lemma replace_from_skip (old new : string) (k : nat) (s : string) :
  replace_from old new k s = replace_from old new 0 (string_drop k s).
Proof.
  revert s. induction k as [|k IH]; intros [|c s]; simpl; try reflexivity.
  rewrite IH. by destruct s.
Qed.

Lemma string_drop_append (p r : string) : string_drop (String.length p) (p +:+ r) = r.
Proof. induction p as [|a p IH]; simpl; [by destruct r | done]. Qed.

(** Removing [old] from a string that begins with it removes that prefix and
    goes on removing in the rest. *)
Lemma str_replace_leading (a : ascii) (old r : string) :
  str_replace (String a old +:+ r) (String a old) "" = str_replace r (String a old) "".
Proof.
  unfold str_replace.
  change (String a old +:+ r) with (String a (old +:+ r)).
  cbn [replace_from].
  change (String a (old +:+ r)) with (String a old +:+ r).
  rewrite prefix_append.
  replace (String.length (String a old) - 1)%nat with (String.length old)
    by (simpl; lia).
  rewrite replace_from_skip, string_drop_append. reflexivity.
Qed.

(** ** The parser *)

Section Parser.
Import AIModule ParserSpec.

Lemma setdefault_lookup (key value : string) (fields : gmap string string) (k : string) :
  setdefault key value fields !! k
  = if decide (key = k) then Some (default value (fields !! key)) else fields !! k.
Proof.
  unfold setdefault. destruct (fields !! key) as [v|] eqn:E; case_decide; subst;
    simplify_map_eq; done.
Qed.

(** What one line does to a text field. *)
Lemma parse_line_text_field (key label : string) (fields : gmap string string)
    (line : string) :
  In (key, label) text_fields →
  parse_line fields line !! key
  = if startswith (strip line) label
    then Some (strip (str_replace (strip line) label ""))
    else fields !! key.
Proof.
  intros Hin. unfold parse_line.
  destruct (startswith (strip line) "ai_fit_category:") eqn:E1.
  { assert (startswith (strip line) label = false) as ->.
    { simpl in Hin. destruct Hin as [[= <- <-]|[[= <- <-]|[[= <- <-]|[]]]];
        by apply (startswith_exclusive "ai_fit_category:"). }
    simpl in Hin. destruct Hin as [[= <- <-]|[[= <- <-]|[[= <- <-]|[]]]];
      repeat case_match; by simplify_map_eq. }
  destruct (startswith (strip line) "ai_reasoning:") eqn:E2.
  { simpl in Hin. destruct Hin as [[= <- <-]|[[= <- <-]|[[= <- <-]|[]]]].
    - rewrite E2. by simplify_map_eq.
    - rewrite (startswith_exclusive "ai_reasoning:" "ai_people_assessment:") by done.
      by simplify_map_eq.
    - rewrite (startswith_exclusive "ai_reasoning:" "ai_revenue_assessment:") by done.
      by simplify_map_eq. }
  destruct (startswith (strip line) "ai_people_assessment:") eqn:E3.
  { simpl in Hin. destruct Hin as [[= <- <-]|[[= <- <-]|[[= <- <-]|[]]]].
    - rewrite E2. by simplify_map_eq.
    - rewrite E3. by simplify_map_eq.
    - rewrite (startswith_exclusive "ai_people_assessment:" "ai_revenue_assessment:")
        by done.
      by simplify_map_eq. }
  destruct (startswith (strip line) "ai_revenue_assessment:") eqn:E4.
  { simpl in Hin. destruct Hin as [[= <- <-]|[[= <- <-]|[[= <- <-]|[]]]].
    - rewrite E2. by simplify_map_eq.
    - rewrite E3. by simplify_map_eq.
    - rewrite E4. by simplify_map_eq. }
  simpl in Hin. destruct Hin as [[= <- <-]|[[= <- <-]|[[= <- <-]|[]]]].
  - by rewrite E2.
  - by rewrite E3.
  - by rewrite E4.
Qed.

(** What one line does to the category field. *)
Lemma parse_line_fit_field (fields : gmap string string) (line : string) :
  parse_line fields line !! "ai_fit_category"
  = if startswith (strip line) "ai_fit_category:"
    then Some (fit_token line)
    else fields !! "ai_fit_category".
Proof.
  unfold parse_line, fit_token.
  destruct (startswith (strip line) "ai_fit_category:") eqn:E1.
  { repeat case_match; by simplify_map_eq. }
  repeat case_match; by simplify_map_eq.
Qed.

(** A line never writes outside the four fields. *)
Lemma parse_line_other_key (fields : gmap string string) (line k : string) :
  ¬ In k field_keys → parse_line fields line !! k = fields !! k.
Proof.
  intros Hk. unfold parse_line.
  repeat case_match; try reflexivity;
    apply lookup_insert_ne; intros <-; apply Hk; simpl; tauto.
Qed.

(** After the loop a field holds what the last line that writes it
    stored. *)
Lemma fold_parse_line_lookup (key : string) (writes : string → bool)
    (value : string → string) :
  (∀ fields line,
      parse_line fields line !! key
      = if writes line then Some (value line) else fields !! key) →
  ∀ (lines : list string) (fields : gmap string string),
    fold_left parse_line lines fields !! key
    = match last (List.filter writes lines) with
      | Some line => Some (value line)
      | None => fields !! key
      end.
Proof.
  intros Hline lines. induction lines as [|line lines IH] using rev_ind; intros fields.
  - reflexivity.
  - rewrite fold_left_app, List.filter_app. simpl. rewrite Hline.
    destruct (writes line).
    + by rewrite last_snoc.
    + rewrite app_nil_r. apply IH.
Qed.

Lemma fold_parse_line_other_key (k : string) (lines : list string)
    (fields : gmap string string) :
  ¬ In k field_keys → fold_left parse_line lines fields !! k = fields !! k.
Proof.
  intros Hk. revert fields. induction lines as [|line lines IH]; intros fields.
  - reflexivity.
  - simpl. rewrite IH. by apply parse_line_other_key.
Qed.

(** The parser on a non-empty text, one text field at a time. *)
Lemma parse_text_field (text key label dflt : string) :
  text ≠ "" →
  In (key, label, dflt)
     [("ai_reasoning", "ai_reasoning:", "Not evaluated");
      ("ai_people_assessment", "ai_people_assessment:", "Not enough data");
      ("ai_revenue_assessment", "ai_revenue_assessment:", "Unknown")] →
  _parse_ai_evaluation_fields text !! key
  = Some match last (labelled label text) with
         | Some line => strip (str_replace (strip line) label "")
         | None => dflt
         end.
Proof.
  intros Hne Hin. unfold _parse_ai_evaluation_fields, labelled.
  destruct text as [|c text]; [done|].
  set (lines := split_char newline (String c text)).
  assert (In (key, label) text_fields) as Hkl.
  { simpl in *. destruct Hin as [[= <- <- <-]|[[= <- <- <-]|[[= <- <- <-]|[]]]]; tauto. }
  pose proof (fold_parse_line_lookup key (λ line, startswith (strip line) label)
                (λ line, strip (str_replace (strip line) label ""))
                (λ fields line, parse_line_text_field key label fields line Hkl)
                lines ∅) as Hfold.
  rewrite lookup_empty in Hfold.
  simpl in Hin. destruct Hin as [[= <- <- <-]|[[= <- <- <-]|[[= <- <- <-]|[]]]];
    rewrite !setdefault_lookup; repeat (case_decide; try done);
    rewrite ?setdefault_lookup; repeat (case_decide; try done);
    rewrite ?setdefault_lookup; repeat (case_decide; try done);
    rewrite Hfold; by destruct (last _).
Qed.

Lemma parse_fit_field (text : string) :
  text ≠ "" →
  _parse_ai_evaluation_fields text !! "ai_fit_category"
  = Some match last (labelled "ai_fit_category:" text) with
         | Some line => fit_token line
         | None => "Unknown"
         end.
Proof.
  intros Hne. unfold _parse_ai_evaluation_fields, labelled.
  destruct text as [|c text]; [done|].
  set (lines := split_char newline (String c text)).
  pose proof (fold_parse_line_lookup "ai_fit_category"
                (λ line, startswith (strip line) "ai_fit_category:") fit_token
                parse_line_fit_field lines ∅) as Hfold.
  rewrite lookup_empty in Hfold.
  rewrite !setdefault_lookup; repeat (case_decide; try done).
  rewrite Hfold; by destruct (last _).
Qed.

Lemma parse_other_key (text k : string) :
  ¬ In k field_keys → _parse_ai_evaluation_fields text !! k = None.
Proof.
  intros Hk. unfold _parse_ai_evaluation_fields.
  destruct text as [|c text]; [done|].
  rewrite !setdefault_lookup.
  repeat (case_decide; [subst k; exfalso; apply Hk; simpl; tauto|]).
  by rewrite fold_parse_line_other_key.
Qed.

End Parser.

(** C2 (as amended). On the empty text the parser returns the empty
    mapping. On every other text, whatever its lines and their order, it
    returns a mapping with exactly the four fields [ai_fit_category],
    [ai_reasoning], [ai_people_assessment] and [ai_revenue_assessment], and
    a field whose labelled line never appeared holds its default:
    [Unknown], [Not evaluated], [Not enough data], [Unknown]. The parser is
    a total function: it never raises. *)
Theorem parse_fields_complete_on_nonempty_text (text : string) :
  (text = "" → AIModule._parse_ai_evaluation_fields text = ∅)
  ∧ (text ≠ "" →
     (∀ k, is_Some (AIModule._parse_ai_evaluation_fields text !! k)
           ↔ In k ParserSpec.field_keys)
     ∧ (ParserSpec.labelled "ai_fit_category:" text = [] →
        AIModule._parse_ai_evaluation_fields text !! "ai_fit_category" = Some "Unknown")
     ∧ (ParserSpec.labelled "ai_reasoning:" text = [] →
        AIModule._parse_ai_evaluation_fields text !! "ai_reasoning"
        = Some "Not evaluated")
     ∧ (ParserSpec.labelled "ai_people_assessment:" text = [] →
        AIModule._parse_ai_evaluation_fields text !! "ai_people_assessment"
        = Some "Not enough data")
     ∧ (ParserSpec.labelled "ai_revenue_assessment:" text = [] →
        AIModule._parse_ai_evaluation_fields text !! "ai_revenue_assessment"
        = Some "Unknown")).
Proof.
  split; [by intros ->|]. intros Hne. split; [|split; [|split; [|split]]].
  - intros k. split.
    + intros Hk. destruct (in_dec string_dec k ParserSpec.field_keys) as [|Hn]; [done|].
      rewrite (parse_other_key text k Hn) in Hk. by destruct Hk.
    + simpl. intros [<-|[<-|[<-|[<-|[]]]]].
      * rewrite parse_fit_field by done. eauto.
      * rewrite (parse_text_field text _ "ai_reasoning:" "Not evaluated") by (simpl; auto).
        eauto.
      * rewrite (parse_text_field text _ "ai_people_assessment:" "Not enough data")
          by (simpl; auto).
        eauto.
      * rewrite (parse_text_field text _ "ai_revenue_assessment:" "Unknown")
          by (simpl; auto).
        eauto.
  - intros Hnone. rewrite parse_fit_field by done. by rewrite Hnone.
  - intros Hnone.
    rewrite (parse_text_field text _ "ai_reasoning:" "Not evaluated") by (simpl; auto).
    by rewrite Hnone.
  - intros Hnone.
    rewrite (parse_text_field text _ "ai_people_assessment:" "Not enough data")
      by (simpl; auto).
    by rewrite Hnone.
  - intros Hnone.
    rewrite (parse_text_field text _ "ai_revenue_assessment:" "Unknown")
      by (simpl; auto).
    by rewrite Hnone.
Qed.

(** C10. When the last line carrying the label of a text field is [line],
    the parser stores [line], stripped, with every occurrence of the label
    removed, stripped again; so when the stripped line is the label followed
    by [rest], the occurrences of the label inside [rest] are removed as
    well. The content of an [ai_fit_category] line is obtained in the same
    way and searched for the category. On
    [ai_reasoning: see ai_reasoning: above] the stored value is
    [see  above], not the line without its leading label. *)
Theorem parse_removes_every_label_occurrence :
  (∀ text key label line,
      text ≠ "" →
      In (key, label) ParserSpec.text_fields →
      last (ParserSpec.labelled label text) = Some line →
      AIModule._parse_ai_evaluation_fields text !! key
      = Some (strip (str_replace (strip line) label ""))
      ∧ ∀ rest, strip line = label +:+ rest →
                AIModule._parse_ai_evaluation_fields text !! key
                = Some (strip (str_replace rest label "")))
  ∧ (∀ text line,
        text ≠ "" →
        last (ParserSpec.labelled "ai_fit_category:" text) = Some line →
        AIModule._parse_ai_evaluation_fields text !! "ai_fit_category"
        = Some (ParserSpec.fit_token line))
  ∧ AIModule._parse_ai_evaluation_fields Examples.label_inside !! "ai_reasoning"
    = Some "see  above"
  ∧ ParserSpec.minus_leading_label "ai_reasoning:" Examples.label_inside
    = "see ai_reasoning: above".
Proof.
  split; [|split; [|split; reflexivity]].
  - intros text key label line Hne Hin Hlast.
    assert (AIModule._parse_ai_evaluation_fields text !! key
            = Some (strip (str_replace (strip line) label ""))) as Hstored.
    { simpl in Hin. destruct Hin as [[= <- <-]|[[= <- <-]|[[= <- <-]|[]]]].
      - rewrite (parse_text_field text _ "ai_reasoning:" "Not evaluated")
          by (simpl; auto).
        by rewrite Hlast.
      - rewrite (parse_text_field text _ "ai_people_assessment:" "Not enough data")
          by (simpl; auto).
        by rewrite Hlast.
      - rewrite (parse_text_field text _ "ai_revenue_assessment:" "Unknown")
          by (simpl; auto).
        by rewrite Hlast. }
    split; [done|]. intros rest Hrest. rewrite Hstored, Hrest.
    simpl in Hin. destruct Hin as [[= <- <-]|[[= <- <-]|[[= <- <-]|[]]]];
      by rewrite str_replace_leading.
  - intros text line Hne Hlast. rewrite parse_fit_field by done. by rewrite Hlast.
Qed.

(** ** Numbers *)

Section Floats.
Import FilterModule NumSpec.
Variable float_of_str : string → option Q.

(** [_to_float] never raises. *)
Lemma _to_float_ok (v : pyval) (dflt : Q) :
  _to_float float_of_str v dflt = Ok (float_or float_of_str v dflt).
Proof.
  unfold _to_float, float_or.
  destruct v as [| b | q | s | d]; simpl; try reflexivity.
  by destruct (float_of_str s).
Qed.

End Floats.

Lemma Qlt_bool_iff (x y : Q) : Qlt_bool x y = true ↔ (x < y)%Q.
Proof.
  unfold Qlt_bool. rewrite negb_true_iff. split.
  - intros H. apply Qnot_le_lt. intros Hle. apply Qle_bool_iff in Hle. congruence.
  - intros H. destruct (Qle_bool y x) eqn:E; [|reflexivity].
    apply Qle_bool_iff in E. exfalso. by apply (Qlt_not_le x y).
Qed.

Lemma Qge_bool_iff (x y : Q) : Qge_bool x y = true ↔ (y <= x)%Q.
Proof. apply Qle_bool_iff. Qed.

(** ** The noise filter *)

Section Noise.
Import ConfigManager FilterModule NumSpec NoiseSpec.
Variable float_of_str : string → option Q.
Variable config : ConfigManager.t.






Lemma py_lower_text (c : gmap string pyval) (key : string) :
  text_field_ok c key →
  py_lower (get_or c key (PStr "")) = Ok (lower (text_of c key)).
Proof.
  unfold text_field_ok, get_or, text_of.
  destruct (c !! key) as [[]|]; simpl; intros H; done.
Qed.










End Noise.

Lemma filter_filter_same {A : Type} (f : A → bool) (l : list A) :
  List.filter f (List.filter f l) = List.filter f l.
Proof.
  induction l as [|a l IH]; simpl; [done|].
  destruct (f a) eqn:E; simpl; rewrite ?E, IH; reflexivity.
Qed.

Lemma Forall_filter_keep {A : Type} (P : A → Prop) (f : A → bool) (l : list A) :
  Forall P l → Forall P (List.filter f l).
Proof.
  induction 1 as [|a l Ha _ IH]; simpl; [constructor|].
  destruct (f a); [by constructor | done].
Qed.









(** C2, counterexample. On the empty text none of the four fields is
    returned. *)
Lemma parse_empty_text_counterexample :
  AIModule._parse_ai_evaluation_fields "" = ∅
  ∧ ¬ is_Some (AIModule._parse_ai_evaluation_fields "" !! "ai_fit_category").
Proof. split; [reflexivity|]. intros [v Hv]. discriminate. Qed.

(** A text with the [ai_reasoning] line alone. *)
Lemma parse_fields_complete_on_nonempty_text_witness :
  Examples.reasoning_only ≠ ""
  ∧ AIModule._parse_ai_evaluation_fields Examples.reasoning_only !! "ai_fit_category"
    = Some "Unknown"
  ∧ AIModule._parse_ai_evaluation_fields Examples.reasoning_only !! "ai_reasoning"
    = Some "Yes: match".
Proof.
  assert (Examples.reasoning_only ≠ "") as Hne by discriminate.
  split; [assumption|].
  destruct (parse_fields_complete_on_nonempty_text Examples.reasoning_only)
    as [_ Hfull].
  destruct (Hfull Hne) as (_ & Hfit & _).
  split; [by apply Hfit | reflexivity].
Defined.

(** Two lines, the second with the label inside its value. *)
Lemma parse_removes_every_label_occurrence_witness :
  Examples.two_lines ≠ ""
  ∧ In ("ai_reasoning", "ai_reasoning:") ParserSpec.text_fields
  ∧ last (ParserSpec.labelled "ai_reasoning:" Examples.two_lines)
    = Some "  ai_reasoning: see ai_reasoning: above  "
  ∧ AIModule._parse_ai_evaluation_fields Examples.two_lines !! "ai_reasoning"
    = Some "see  above".
Proof.
  assert (Examples.two_lines ≠ "") as Hne by discriminate.
  assert (In ("ai_reasoning", "ai_reasoning:") ParserSpec.text_fields) as Hin
    by (simpl; auto).
  assert (last (ParserSpec.labelled "ai_reasoning:" Examples.two_lines)
          = Some "  ai_reasoning: see ai_reasoning: above  ") as Hlast by reflexivity.
  repeat (split; [assumption|]).
  destruct parse_removes_every_label_occurrence as [Hgen _].
  destruct (Hgen Examples.two_lines _ _ _ Hne Hin Hlast) as [-> _]. reflexivity.
Defined.

(** ** Fit categorisation *)

Section Categorize.
Import FilterModule FitSpec.
Variables high medium low : Q.

Lemma py_ge_scored (c : gmap string pyval) (t : Q) :
  scored c →
  py_ge (get_or c "website_required_score" (PNum 0)) t
  = Ok (Qge_bool (score_value c) t).
Proof.
  intros [q Hq]. unfold py_ge, score_value. rewrite Hq. reflexivity.
Qed.

Lemma bucket_cons (name : string) (c : gmap string pyval)
    (cs : list (gmap string pyval)) :
  bucket high medium low name (c :: cs)
  = bucket high medium low name [c] ++ bucket high medium low name cs.
Proof.
  unfold FitSpec.bucket. simpl. by destruct (bool_decide _).
Qed.

Lemma categorize_body_scored (c : gmap string pyval)
    (H M L : list (gmap string pyval)) :
  scored c →
  categorize_body high medium low (H, M, L) c
  = Ok (H ++ bucket high medium low "High Fit" [c],
        M ++ bucket high medium low "Medium Fit" [c],
        L ++ bucket high medium low "Low Fit" [c]).
Proof.
  intros Hc. unfold categorize_body.
  rewrite !(py_ge_scored c) by done.
  unfold FitSpec.bucket, bucket_of. simpl.
  destruct (Qge_bool (score_value c) high); simpl; [by rewrite !app_nil_r|].
  destruct (Qge_bool (score_value c) medium); simpl; [by rewrite !app_nil_r|].
  destruct (Qge_bool (score_value c) low); simpl; by rewrite !app_nil_r.
Qed.

Lemma categorize_loop (cs : list (gmap string pyval)) :
  Forall scored cs →
  ∀ H M L,
    for_each (categorize_body high medium low) cs (H, M, L)
    = Ok (H ++ bucket high medium low "High Fit" cs,
          M ++ bucket high medium low "Medium Fit" cs,
          L ++ bucket high medium low "Low Fit" cs).
Proof.
  induction 1 as [|c cs Hc _ IH]; intros H M L; cbn [for_each].
  - unfold FitSpec.bucket. simpl. by rewrite !app_nil_r.
  - rewrite categorize_body_scored by done. rewrite IH.
    rewrite (bucket_cons "High Fit" c cs), (bucket_cons "Medium Fit" c cs),
      (bucket_cons "Low Fit" c cs).
    by rewrite <- !app_assoc.
Qed.

Lemma score_value_set_fit (name : string) (c : gmap string pyval) :
  score_value (<["fit_category" := PStr name]> c) = score_value c.
Proof.
  unfold score_value, get_or. by rewrite lookup_insert_ne.
Qed.

Lemma in_bucket (name : string) (x : gmap string pyval)
    (cs : list (gmap string pyval)) :
  In x (bucket high medium low name cs)
  ↔ ∃ c, In c cs ∧ bucket_of high medium low (score_value c) = Some name
         ∧ x = <["fit_category" := PStr name]> c.
Proof.
  unfold FitSpec.bucket. rewrite in_map_iff. split.
  - intros (c & <- & Hc). apply filter_In in Hc as [Hin Hb].
    apply bool_decide_eq_true in Hb. eauto.
  - intros (c & Hin & Hb & ->). exists c. split; [done|].
    apply filter_In. split; [done|]. by apply bool_decide_eq_true.
Qed.

Lemma bucket_of_some_iff (s : Q) :
  (medium <= high)%Q → (low <= medium)%Q →
  (low <= s)%Q ↔ ∃ name, bucket_of high medium low s = Some name.
Proof.
  intros Hmh Hlm. unfold bucket_of.
  destruct (Qge_bool s high) eqn:Eh.
  { apply Qge_bool_iff in Eh. split; [eauto|]. intros _.
    eapply Qle_trans; [exact Hlm|]. eapply Qle_trans; [exact Hmh|]. done. }
  destruct (Qge_bool s medium) eqn:Em.
  { apply Qge_bool_iff in Em. split; [eauto|]. intros _.
    eapply Qle_trans; [exact Hlm|]. done. }
  destruct (Qge_bool s low) eqn:El.
  { apply Qge_bool_iff in El. split; [eauto|]. done. }
  split.
  - intros Hs. apply Qge_bool_iff in Hs. congruence.
  - intros [name [=]].
Qed.

End Categorize.

(** C5. With thresholds high ≥ medium ≥ low and records whose score is a
    number (or missing, read as 0), [categorize_by_website_required_fit]
    returns the three buckets: each is the sub-list, in input order, of the
    records whose score falls in it (high tried first, then medium, then
    low, lower bounds inclusive), with [fit_category] set to the name of the
    bucket. A record whose score is at least the low threshold is in one
    bucket, every member of a bucket carries the name of that bucket alone,
    and a record below the low threshold is in none. The pipeline of
    [ModularProspectingModel1.py] does the same with the thresholds 7, 5
    and 3. *)
Theorem categorize_partitions (config : ConfigManager.t)
    (companies : list (gmap string pyval)) :
  let high := FitSpec.threshold config "high_fit" 7 in
  let medium := FitSpec.threshold config "medium_fit" 5 in
  let low := FitSpec.threshold config "low_fit" 3 in
  Forall FitSpec.scored companies →
  (medium <= high)%Q → (low <= medium)%Q →
  FilterModule.categorize_by_website_required_fit config companies
  = Ok (FitSpec.bucket high medium low "High Fit" companies,
        FitSpec.bucket high medium low "Medium Fit" companies,
        FitSpec.bucket high medium low "Low Fit" companies)
  ∧ (∀ c, In c companies → (low <= FitSpec.score_value c)%Q →
          ∃ name, In name ["High Fit"; "Medium Fit"; "Low Fit"]
                  ∧ In (<["fit_category" := PStr name]> c)
                       (FitSpec.bucket high medium low name companies))
  ∧ (∀ x name, In x (FitSpec.bucket high medium low name companies) →
               x !! "fit_category" = Some (PStr name)
               ∧ (low <= FitSpec.score_value x)%Q
               ∧ ∀ name', In x (FitSpec.bucket high medium low name' companies) →
                          name' = name)
  ∧ (∀ c label name, (FitSpec.score_value c < low)%Q →
                     ¬ In (<["fit_category" := PStr label]> c)
                          (FitSpec.bucket high medium low name companies))
  ∧ (FitSpec.threshold config "high_fit" 7 = 7%Q →
     FitSpec.threshold config "medium_fit" 5 = 5%Q →
     FitSpec.threshold config "low_fit" 3 = 3%Q →
     Pipeline.categorize_by_website_required_fit companies
     = FilterModule.categorize_by_website_required_fit config companies).
Proof.
  intros high medium low Hsc Hmh Hlm. split; [|split; [|split; [|split]]].
  - unfold FilterModule.categorize_by_website_required_fit.
    apply (categorize_loop high medium low companies Hsc [] [] []).
  - intros c Hin Hlow.
    apply (bucket_of_some_iff high medium low _ Hmh Hlm) in Hlow as [name Hname].
    exists name. split.
    + unfold FitSpec.bucket_of in Hname. repeat case_match; simplify_eq; simpl; auto.
    + apply in_bucket. eauto.
  - intros x name Hx. apply in_bucket in Hx as (c & Hin & Hb & ->).
    split; [by rewrite lookup_insert_eq|]. split.
    + rewrite score_value_set_fit.
      apply (bucket_of_some_iff high medium low _ Hmh Hlm). eauto.
    + intros name' Hx'. apply in_bucket in Hx' as (c' & _ & _ & Heq).
      apply (f_equal (λ m : gmap string pyval, m !! "fit_category")) in Heq.
      rewrite !lookup_insert_eq in Heq. congruence.
  - intros c label name Hlt Hin. apply in_bucket in Hin as (c0 & _ & Hb & Heq).
    assert (low <= FitSpec.score_value c0)%Q as Hle
      by (apply (bucket_of_some_iff high medium low _ Hmh Hlm); eauto).
    apply (f_equal FitSpec.score_value) in Heq.
    rewrite !score_value_set_fit in Heq. rewrite <- Heq in Hle.
    by apply (Qlt_not_le _ _ Hlt).
  - intros Hh Hm Hl. unfold Pipeline.categorize_by_website_required_fit,
      FilterModule.categorize_by_website_required_fit.
    unfold FitSpec.threshold in Hh, Hm, Hl. unfold FilterModule.scoring_config.
    by rewrite Hh, Hm, Hl.
Qed.

(** ** The ICP filter *)

Lemma Qplus_0_l_eq (q : Q) : (0 + q)%Q = q.
Proof.
  destruct q as [n d]. unfold Qplus. simpl. f_equal. lia.
Qed.

Lemma Qplus_0_r_eq (q : Q) : (q + 0)%Q = q.
Proof.
  destruct q as [n d]. unfold Qplus. simpl. f_equal; [lia | apply Pos.mul_1_r].
Qed.

Lemma py_in_state (c : gmap string pyval) (states : gset string) :
  (∀ d, c !! "state" ≠ Some (PDict d)) →
  py_in (get c "state") states = Ok (IcpSpec.in_states states c).
Proof.
  unfold get, IcpSpec.in_states. intros H.
  destruct (c !! "state") as [[| b | q | s | d]|]; simpl; try reflexivity.
  by destruct (H d).
Qed.

Section Icp.
Import ConfigManager FilterModule NumSpec IcpSpec.
Variable float_of_str : string → option Q.

Lemma filter_by_icp_criteria_body_ok (config : ConfigManager.t)
    (icp_weights : gmap string Q) (minimum : Q)
    (acc : list (gmap string pyval)) (c : gmap string pyval) :
  let score := configured_score float_of_str (self_us_states config) icp_weights in
  record_ok c →
  filter_by_icp_criteria_body float_of_str config icp_weights minimum acc c
  = Ok (if Qge_bool (score c) minimum then acc ++ [with_icp_score score c] else acc).
Proof.
  intros score (Ht & Hk & Hs). subst score. unfold filter_by_icp_criteria_body.
  rewrite (py_in_state c _ Hs), (py_lower_text c "types" Ht),
    (py_lower_text c "keyword_used" Hk).
  cbn [mbind result_bind].
  unfold with_icp_score, configured_score, fixed_score, weighted_score,
    location_points, rating_points, category_points, keyword_points, any_in.
  destruct (get c "rating") eqn:E; rewrite ?_to_float_ok; cbn [mbind result_bind];
    repeat match goal with
           | |- context [if ?b then _ else _] =>
               lazymatch b with
               | Qge_bool _ minimum => fail
               | _ => destruct b; cbn [mbind result_bind]
               end
           end;
    rewrite ?Qplus_0_l_eq, ?Qplus_0_r_eq;
    try (destruct (Qge_bool _ minimum)); reflexivity.
Qed.


Lemma icp_loop (body : list (gmap string pyval) → gmap string pyval
                       → result (list (gmap string pyval)))
    (score : gmap string pyval → Q) (minimum : Q) (cs : list (gmap string pyval)) :
  (∀ acc c, record_ok c →
            body acc c
            = Ok (if Qge_bool (score c) minimum
                  then acc ++ [with_icp_score score c] else acc)) →
  Forall record_ok cs →
  ∀ acc,
    for_each body cs acc
    = Ok (acc ++ map (with_icp_score score)
                   (List.filter (λ c, Qge_bool (score c) minimum) cs)).
Proof.
  intros Hbody. induction 1 as [|c cs Hc _ IH]; intros acc; cbn [for_each List.filter].
  - by rewrite app_nil_r.
  - rewrite Hbody by done. destruct (Qge_bool (score c) minimum).
    + rewrite IH. simpl. by rewrite <- app_assoc.
    + apply IH.
Qed.

End Icp.




(** Scores 5, 2, 8 and two records without a score, default thresholds. *)
Lemma categorize_partitions_witness :
  Forall FitSpec.scored Examples.five_scored
  ∧ (FitSpec.threshold Examples.default_config "medium_fit" 5
     <= FitSpec.threshold Examples.default_config "high_fit" 7)%Q
  ∧ (FitSpec.threshold Examples.default_config "low_fit" 3
     <= FitSpec.threshold Examples.default_config "medium_fit" 5)%Q
  ∧ FilterModule.categorize_by_website_required_fit Examples.default_config
      Examples.five_scored
    = Ok ([<["fit_category" := PStr "High Fit"]> Examples.scored_8],
          [<["fit_category" := PStr "Medium Fit"]> Examples.scored_5],
          []).
Proof.
  assert (Forall FitSpec.scored Examples.five_scored) as Hsc
    by (repeat constructor; eexists; reflexivity).
  assert (FitSpec.threshold Examples.default_config "medium_fit" 5
          <= FitSpec.threshold Examples.default_config "high_fit" 7)%Q as Hmh
    by discriminate.
  assert (FitSpec.threshold Examples.default_config "low_fit" 3
          <= FitSpec.threshold Examples.default_config "medium_fit" 5)%Q as Hlm
    by discriminate.
  repeat (split; [assumption|]).
  destruct (categorize_partitions Examples.default_config Examples.five_scored
              Hsc Hmh Hlm) as [-> _].
  reflexivity.
Defined.

(** ** The score and its breakdown *)

Section Scoring.
Import ConfigManager NumSpec ScoreSpec.

Lemma dict_sum_empty : dict_sum ∅ = 0%Q.
Proof. apply map_fold_empty. Qed.

Lemma dict_sum_insert (k : string) (w : Q) (d : gmap string Q) :
  d !! k = None → (dict_sum (<[k := w]> d) == dict_sum d + w)%Q.
Proof.
  intros Hk. unfold dict_sum.
  apply (map_fold_insert Qeq (λ (_ : string) (v acc : Q), (acc + v)%Q) 0%Q k w d);
    [| |exact Hk].
  - intros j z a b Hab. by rewrite Hab.
  - intros. ring.
Qed.

Lemma tally_ok_start (exact : bool) : tally_ok exact [] (0%Q, ∅).
Proof.
  split; simpl.
  - intros _. by rewrite dict_sum_empty.
  - intros k [v Hv]. by rewrite lookup_empty in Hv.
Qed.

Lemma tally_ok_award (exact : bool) (rules : list string) (fired : bool)
    (rule : string) (points recorded : Q) (st : Q * gmap string Q) :
  tally_ok exact rules st → ¬ In rule rules →
  (exact = true → (points == recorded)%Q) →
  tally_ok exact (rule :: rules) (award fired rule points recorded st).
Proof.
  intros [Hs Hk] Hnew Heq. unfold award. destruct fired.
  - split; simpl.
    + intros He. rewrite dict_sum_insert.
      * by rewrite (Hs He), (Heq He).
      * destruct (st.2 !! rule) eqn:E; [|done]. destruct Hnew. apply Hk. eauto.
    + intros k. rewrite lookup_insert. case_decide; [subst; auto|].
      intros Hin. right. by apply Hk.
  - split; [done|]. intros k Hin. right. by apply Hk.
Qed.

Lemma breakdown_of_tally (exact : bool) (rules : list string)
    (st : Q * gmap string Q) (c : gmap string pyval) :
  tally_ok exact rules st → (∀ k, In k rules → In k rule_names) →
  let c' :=
    <["score_breakdown" := PDict st.2]>
      (<["website_required_score" := PNum st.1]> c) in
  breakdown_keys_ok c' ∧ (exact = true → breakdown_consistent c').
Proof.
  intros [Hs Hk] Hsub c'.
  assert (c' !! "website_required_score" = Some (PNum st.1)) as H1
    by (subst c'; by rewrite lookup_insert_ne, lookup_insert_eq).
  assert (c' !! "score_breakdown" = Some (PDict st.2)) as H2
    by (subst c'; by rewrite lookup_insert_eq).
  assert (∀ k, is_Some (st.2 !! k) → In k rule_names) as H3
    by (intros k Hin; by apply Hsub, Hk).
  split.
  - exists st.1, st.2. auto.
  - intros He. exists st.1, st.2. auto.
Qed.

End Scoring.

(** One conditional award of the running score: the invariant moves from
    the state before the [if] to the state after it. *)
Ltac tally_step :=
  lazymatch goal with
  | H : ScoreSpec.tally_ok ?e ?rules (?s, ?d)
    |- context [if ?b then ((?s + ?p)%Q, <[?k := ?r]> ?d) else (?s, ?d)] =>
      let H' := fresh "Htally" in
      assert (ScoreSpec.tally_ok e (k :: rules)
                (if b then ((s + p)%Q, <[k := r]> d) else (s, d))) as H'
        by (apply (tally_ok_award e rules b k p r (s, d) H);
            [simpl; intuition congruence
            | first [intros _; reflexivity | assumption]]);
      clear H;
      destruct (if b then ((s + p)%Q, <[k := r]> d) else (s, d));
      cbn beta iota zeta
  end.

(** The two rating tiers: the first that applies is awarded. *)
Ltac tally_rating :=
  lazymatch goal with
  | H : ScoreSpec.tally_ok ?e ?rules (?s, ?d)
    |- context [if ?h then ((?s + ?p)%Q, <[?k := ?r]> ?d)
                else if _ then _ else _] =>
      destruct h;
      [ let H' := fresh "Htally" in
        assert (ScoreSpec.tally_ok e (k :: rules) ((s + p)%Q, <[k := r]> d)) as H'
          by (apply (tally_ok_award e rules true k p r (s, d) H);
              [simpl; intuition congruence | intros _; reflexivity]);
        clear H; cbn beta iota zeta
      | tally_step ]
  end.

Ltac tally_finish :=
  let E := fresh "E" in
  intros E; injection E as <-;
  lazymatch goal with
  | H : ScoreSpec.tally_ok ?e ?rules (?s, ?d) |- _ =>
      apply (breakdown_of_tally e rules (s, d) _ H);
      unfold ScoreSpec.rule_names; simpl; tauto
  end.

Ltac tally_bind :=
  lazymatch goal with
  | |- context [mbind _ ?m] => destruct m; [|discriminate]; cbn [mbind result_bind]
  end.

Section ScoringCode.
Import ConfigManager NumSpec ScoreSpec.
Variable float_of_str : string → option Q.

Lemma calculate_tally (exact : bool) (config : ConfigManager.t)
    (c c' : gmap string pyval) :
  (exact = true →
   (wget (default ∅ (website_required_weights (get_scoring_config config)))
      "good_rating" 1 == 1)%Q) →
  FilterModule.calculate_website_required_score float_of_str config c = Ok c' →
  breakdown_keys_ok c' ∧ (exact = true → breakdown_consistent c').
Proof.
  intros Hgood. unfold FilterModule.calculate_website_required_score,
    FilterModule.scoring_config.
  tally_bind.
  pose proof (tally_ok_start exact) as Htally.
  tally_step. tally_step.
  rewrite !_to_float_ok. cbn [mbind result_bind].
  tally_rating; tally_step; tally_bind; tally_step; tally_bind; tally_step;
    tally_finish.
Qed.


(** Whenever the good-rating tier is worth one point, the stored score of
    [filter_module.py] is the sum of the stored breakdown. *)
Lemma calculate_breakdown_consistent (config : ConfigManager.t)
    (c c' : gmap string pyval) :
  (wget (default ∅ (website_required_weights (get_scoring_config config)))
     "good_rating" 1 == 1)%Q →
  FilterModule.calculate_website_required_score float_of_str config c = Ok c' →
  breakdown_consistent c'.
Proof.
  intros Hgood H. by apply (calculate_tally true config c c').
Qed.

(** The stored score of [ModularProspectingModel1.py] is always the sum
    of the stored breakdown. *)
Lemma pipeline_breakdown_consistent (states : gset string)
    (c c' : gmap string pyval) :
  Pipeline.calculate_website_required_score float_of_str states c = Ok c' →
  breakdown_consistent c'.
Proof.
  intros H. cut (breakdown_keys_ok c' ∧ (true = true → breakdown_consistent c')).
  { intros [_ Hc]. by apply Hc. }
  revert H. unfold Pipeline.calculate_website_required_score, Pipeline._to_float.
  tally_bind.
  pose proof (tally_ok_start true) as Htally.
  tally_step. tally_step.
  rewrite !_to_float_ok. cbn [mbind result_bind].
  tally_rating; tally_step; tally_bind; tally_step; tally_bind; tally_step;
    tally_finish.
Qed.

End ScoringCode.

(** C1, the defect. With [good_rating] configured at 2 points, a record
    rated 3.2 on 6 reviews gets the score 2 while its breakdown records
    [good_rating: 1]: the stored score is not the sum of the stored
    breakdown. *)
Theorem good_rating_breakdown_differs_from_score :
  let scored :=
    <["score_breakdown" := PDict (<["good_rating" := 1%Q]> ∅)]>
      (<["website_required_score" := PNum 2]> Examples.modest) in
  FilterModule.calculate_website_required_score float_of_digits
    Examples.good_rating_config Examples.modest = Ok scored
  ∧ ¬ ScoreSpec.breakdown_consistent scored.
Proof.
  intros scored. split; [reflexivity|].
  intros (s & d & Hs & Hd & Hsum & _). subst scored.
  rewrite lookup_insert_ne, lookup_insert_eq in Hs by done.
  rewrite lookup_insert_eq in Hd.
  injection Hs as <-. injection Hd as <-.
  rewrite dict_sum_insert, dict_sum_empty in Hsum by apply lookup_empty.
  discriminate Hsum.
Qed.

(** C4. With no weights and no thresholds configured and [NY] among the
    states, the record of scenario 1 gets the score 7, recorded as
    [industry_match] 3, [high_rating] 2, [us_location] 1 and
    [business_type] 1, and is then put alone in the high bucket with
    [fit_category] [High Fit]. *)
Theorem acme_scores_seven_and_is_high_fit (float_of_str : string → option Q)
    (config : ConfigManager.t) :
  let sc := ConfigManager.get_scoring_config config in
  ConfigManager.website_required_weights sc = None →
  ConfigManager.rating_thresholds sc = None →
  ConfigManager.fit_thresholds sc = None →
  In "NY" (ConfigManager.get_us_states config) →
  let breakdown : gmap string Q :=
    <["business_type" := 1%Q]>
      (<["us_location" := 1%Q]>
         (<["high_rating" := 2%Q]> (<["industry_match" := 3%Q]> ∅))) in
  let scored :=
    <["score_breakdown" := PDict breakdown]>
      (<["website_required_score" := PNum 7]> Examples.acme) in
  FilterModule.calculate_website_required_score float_of_str config Examples.acme
  = Ok scored
  ∧ FilterModule.categorize_by_website_required_fit config [scored]
    = Ok ([<["fit_category" := PStr "High Fit"]> scored], [], []).
Proof.
  intros sc Hw Hr Hf Hny breakdown scored. subst sc. split.
  - unfold FilterModule.calculate_website_required_score, FilterModule.scoring_config.
    rewrite Hw, Hr.
    assert (py_in (get Examples.acme "state") (FilterModule.self_us_states config)
            = Ok true) as ->.
    { rewrite py_in_state by discriminate. unfold IcpSpec.in_states.
      change (Examples.acme !! "state") with (Some (PStr "NY")).
      f_equal. apply bool_decide_eq_true.
      unfold FilterModule.self_us_states. apply elem_of_list_to_set.
      by apply list_elem_of_In. }
    reflexivity.
  - unfold FilterModule.categorize_by_website_required_fit, FilterModule.scoring_config.
    rewrite Hf. reflexivity.
Qed.

(** Scenario 1 under the configuration of the examples. *)
Lemma acme_scores_seven_and_is_high_fit_witness :
  ConfigManager.website_required_weights
    (ConfigManager.get_scoring_config Examples.default_config) = None
  ∧ ConfigManager.rating_thresholds
      (ConfigManager.get_scoring_config Examples.default_config) = None
  ∧ ConfigManager.fit_thresholds
      (ConfigManager.get_scoring_config Examples.default_config) = None
  ∧ In "NY" (ConfigManager.get_us_states Examples.default_config)
  ∧ ∃ scored,
      FilterModule.calculate_website_required_score float_of_digits
        Examples.default_config Examples.acme = Ok scored
      ∧ scored !! "website_required_score" = Some (PNum 7)
      ∧ FilterModule.categorize_by_website_required_fit Examples.default_config
          [scored]
        = Ok ([<["fit_category" := PStr "High Fit"]> scored], [], []).
Proof.
  assert (In "NY" (ConfigManager.get_us_states Examples.default_config)) as Hny
    by (simpl; auto).
  repeat (split; [first [reflexivity | assumption]|]).
  destruct (acme_scores_seven_and_is_high_fit float_of_digits Examples.default_config
              eq_refl eq_refl eq_refl Hny) as [Hscore Hfit].
  eexists. split; [exact Hscore|]. split; [reflexivity | exact Hfit].
Defined.

(** ** The ranking *)

Section Ranking.
Import Pipeline RankSpec.

Lemma Qlt_bool_of_Qeq (x y : Q) : Qeq_bool x y = true → Qlt_bool x y = false.
Proof.
  intros H. apply Qeq_bool_iff in H. unfold Qlt_bool.
  apply negb_false_iff, Qle_bool_iff. rewrite H. apply Qle_refl.
Qed.

Lemma rating_of_rankable (c : gmap string pyval) :
  rankable c → py_num (get_or c "rating" (PNum 0)) = Ok (rating_value c).
Proof. intros [_ [q Hq]]. unfold rating_value. by rewrite Hq. Qed.

Lemma sort_key_rankable (c : gmap string pyval) :
  rankable c → sort_key c = Ok (key_of c).
Proof.
  intros [Hcat _]. unfold sort_key, key_of, fit_ordinal, get_or.
  destruct (c !! "ai_fit_category") as [[| b | q | s | d]|] eqn:E; simpl;
    try reflexivity.
  by destruct (Hcat d).
Qed.

Lemma key_lt_rankable (a b : gmap string pyval) :
  rankable a → rankable b → key_lt (key_of a) (key_of b) = Ok (key_below a b).
Proof.
  intros Ha Hb. apply rating_of_rankable in Ha, Hb.
  unfold key_lt, key_of, key_below. simpl.
  destruct (fit_ordinal a =? fit_ordinal b)%Z eqn:Eo; simpl.
  - apply Z.eqb_eq in Eo. rewrite Eo, Z.ltb_irrefl. simpl.
    generalize dependent (rating_value a). generalize dependent (rating_value b).
    intros y Hb x Ha.
    destruct (get_or a "rating" (PNum 0)) as [| ba | qa | sa | da];
      try discriminate Ha;
      destruct (get_or b "rating" (PNum 0)) as [| bb | qb | sb | db];
      try discriminate Hb;
      simpl in *; injection Ha as <-; injection Hb as <-;
      unfold py_eq, py_lt; simpl;
      (destruct (Qeq_bool _ _) eqn:Eq; [by rewrite Qlt_bool_of_Qeq | done]).
  - by rewrite orb_false_r.
Qed.

Lemma with_keys_rankable (l : list (gmap string pyval)) :
  Forall rankable l → with_keys l = Ok (map keyed l).
Proof.
  induction 1 as [|c l Hc _ IH]; simpl; [done|].
  by rewrite sort_key_rankable, IH.
Qed.

Lemma insert_desc_rankable (x : gmap string pyval) (l : list (gmap string pyval)) :
  rankable x → Forall rankable l →
  insert_desc (keyed x) (map keyed l) = Ok (map keyed (insert_ranked x l)).
Proof.
  intros Hx. induction 1 as [|y l Hy _ IH]; simpl; [done|].
  rewrite key_lt_rankable by done. simpl.
  destruct (key_below x y); simpl; [by rewrite IH | done].
Qed.

Lemma insert_ranked_perm (x : gmap string pyval) (l : list (gmap string pyval)) :
  Permutation (x :: l) (insert_ranked x l).
Proof.
  induction l as [|y l IH]; simpl; [done|].
  destruct (key_below x y); [|done].
  etransitivity; [apply perm_swap|]. by apply perm_skip.
Qed.

Lemma ranked_perm (l : list (gmap string pyval)) : Permutation l (ranked l).
Proof.
  induction l as [|x l IH]; simpl; [done|].
  etransitivity; [apply perm_skip, IH | apply insert_ranked_perm].
Qed.

Lemma sort_desc_rankable (l : list (gmap string pyval)) :
  Forall rankable l → sort_desc (map keyed l) = Ok (map keyed (ranked l)).
Proof.
  induction 1 as [|x l Hx Hl IH]; simpl; [done|].
  rewrite IH. simpl. apply insert_desc_rankable; [done|].
  eapply Permutation_Forall; [apply ranked_perm | done].
Qed.

Lemma sort_evaluated_rankable (l : list (gmap string pyval)) :
  Forall rankable l → sort_evaluated l = Ok (ranked l).
Proof.
  intros Hl. unfold sort_evaluated.
  rewrite with_keys_rankable by done. simpl.
  rewrite sort_desc_rankable by done. simpl.
  f_equal. rewrite map_map. simpl. apply map_id.
Qed.

(** The order of the keys. *)

Lemma key_below_false_iff (a b : gmap string pyval) :
  key_below a b = false ↔ may_precede a b.
Proof.
  unfold key_below, may_precede.
  rewrite orb_false_iff, andb_false_iff, Z.ltb_ge, Z.eqb_neq.
  split.
  - intros [Hle [Hne|Hlt]].
    + left. lia.
    + destruct (Z.eq_dec (fit_ordinal a) (fit_ordinal b)) as [Heq|Hne];
        [|left; lia].
      right. split; [done|]. apply Qnot_lt_le. intros Hlt'.
      apply Qlt_bool_iff in Hlt'. congruence.
  - intros [Hlt|[Heq Hle]].
    + split; [lia|]. left. lia.
    + split; [lia|]. right.
      destruct (Qlt_bool (rating_value a) (rating_value b)) eqn:E; [|done].
      apply Qlt_bool_iff in E. exfalso. by apply (Qlt_not_le _ _ E).
Qed.

Lemma key_below_true_precede (a b : gmap string pyval) :
  key_below a b = true → may_precede b a.
Proof.
  unfold key_below, may_precede.
  rewrite orb_true_iff, andb_true_iff, Z.ltb_lt, Z.eqb_eq.
  intros [Hlt|[Heq Hlt]]; [by left|]. right. split; [done|].
  apply Qlt_bool_iff in Hlt. by apply Qlt_le_weak.
Qed.

Lemma may_precede_trans (a b c : gmap string pyval) :
  may_precede a b → may_precede b c → may_precede a c.
Proof.
  unfold may_precede. intros [H1|[H1 H1']] [H2|[H2 H2']].
  - left. lia.
  - left. lia.
  - left. lia.
  - right. split; [congruence|]. by eapply Qle_trans.
Qed.

Lemma insert_ranked_sorted (x : gmap string pyval) (l : list (gmap string pyval)) :
  StronglySorted may_precede l → StronglySorted may_precede (insert_ranked x l).
Proof.
  induction 1 as [|y l Hs IH Hy]; simpl.
  - repeat constructor.
  - destruct (key_below x y) eqn:E.
    + constructor; [done|].
      eapply Permutation_Forall; [apply insert_ranked_perm|].
      constructor; [by apply key_below_true_precede | done].
    + apply key_below_false_iff in E.
      constructor; [by constructor|].
      constructor; [done|].
      eapply Forall_impl; [exact Hy|]. intros z Hz. by eapply may_precede_trans.
Qed.

Lemma ranked_sorted (l : list (gmap string pyval)) :
  StronglySorted may_precede (ranked l).
Proof.
  induction l as [|x l IH]; simpl; [constructor | by apply insert_ranked_sorted].
Qed.

Lemma sorted_before (l1 l2 l3 : list (gmap string pyval)) (a b : gmap string pyval) :
  StronglySorted may_precede (l1 ++ a :: l2 ++ b :: l3) → may_precede a b.
Proof.
  induction l1 as [|x l1 IH]; simpl; intros Hs.
  - apply StronglySorted_inv in Hs as [_ Hall].
    rewrite List.Forall_forall in Hall. apply Hall.
    apply in_or_app. right. by left.
  - apply StronglySorted_inv in Hs as [Hs _]. by apply IH.
Qed.

(** Stability. *)

Lemma same_key_not_below (c x y : gmap string pyval) :
  same_key c x = true → same_key c y = true → key_below x y = false.
Proof.
  unfold same_key, key_below.
  rewrite !andb_true_iff, !Z.eqb_eq, !Qeq_bool_iff.
  intros [Ho1 Hr1] [Ho2 Hr2].
  assert (fit_ordinal x = fit_ordinal y) as Ho by congruence.
  rewrite Ho, Z.ltb_irrefl, Z.eqb_refl. simpl.
  apply Qlt_bool_of_Qeq, Qeq_bool_iff. by rewrite <- Hr1, <- Hr2.
Qed.

Lemma insert_ranked_stable (c x : gmap string pyval) (l : list (gmap string pyval)) :
  List.filter (same_key c) (insert_ranked x l) = List.filter (same_key c) (x :: l).
Proof.
  induction l as [|y l IH]; [done|].
  cbn [insert_ranked]. destruct (key_below x y) eqn:E; [|done].
  cbn [List.filter] in *. rewrite IH.
  destruct (same_key c x) eqn:Ex, (same_key c y) eqn:Ey; try reflexivity.
  rewrite (same_key_not_below c x y Ex Ey) in E. discriminate.
Qed.

Lemma ranked_stable (c : gmap string pyval) (l : list (gmap string pyval)) :
  List.filter (same_key c) (ranked l) = List.filter (same_key c) l.
Proof.
  induction l as [|x l IH]; [done|].
  cbn [ranked]. rewrite insert_ranked_stable. cbn [List.filter]. by rewrite IH.
Qed.

(** On records whose rating is a number or missing, the sort of
    [run_refined_pipeline] returns a permutation of its input in which a
    record standing before another has a higher fit ordinal, or the same
    ordinal and a rating at least as high, and in which records with
    equal keys keep their input order. *)
Lemma sort_evaluated_stable_and_monotonic (l : list (gmap string pyval)) :
  Forall rankable l →
  ∃ out,
    sort_evaluated l = Ok out
    ∧ Permutation l out
    ∧ (∀ l1 a l2 b l3, out = l1 ++ a :: l2 ++ b :: l3 → may_precede a b)
    ∧ (∀ c, List.filter (same_key c) out = List.filter (same_key c) l).
Proof.
  intros Hl. exists (ranked l). split; [by apply sort_evaluated_rankable|].
  split; [apply ranked_perm|]. split.
  - intros l1 a l2 b l3 Hout. apply (sorted_before l1 l2 l3).
    rewrite <- Hout. apply ranked_sorted.
  - intros c. apply ranked_stable.
Qed.

End Ranking.


Example sort_evaluated_scenario :
  Pipeline.sort_evaluated
    [Examples.unknown_none; Examples.medium_35; Examples.medium_4; Examples.high_4;
     Examples.medium_4b]
  = Ok [Examples.high_4; Examples.medium_4; Examples.medium_4b; Examples.medium_35;
        Examples.unknown_none].
Proof. reflexivity. Qed.

(** End-to-end scenario 3 of the specification. *)
Example parse_scenario_3 :
  AIModule._parse_ai_evaluation_fields
    ("ai_fit_category: High: strong match" +:+ String newline "ai_reasoning: Yes: match")
  = <["ai_revenue_assessment" := "Unknown"]>
      (<["ai_people_assessment" := "Not enough data"]>
         (<["ai_reasoning" := "Yes: match"]>
            (<["ai_fit_category" := "High"]> ∅))).
Proof. reflexivity. Qed.

(** * Properties of the rest of the modules *)

(** ** The dotted paths of the configuration *)

Lemma split_char_not_nil (sep : ascii) (s : string) : split_char sep s ≠ [].
Proof.
  destruct s as [|c s]; simpl; [done|].
  destruct (Ascii.eqb c sep); [done|]. by destruct (split_char sep s).
Qed.

Lemma split_char_app (sep : ascii) (p q : string) :
  split_char sep (p +:+ String sep q) = split_char sep p ++ split_char sep q.
Proof.
  induction p as [|c p IH]; simpl.
  - by rewrite Ascii.eqb_refl.
  - rewrite IH. destruct (Ascii.eqb c sep); [done|].
    pose proof (split_char_not_nil sep p) as Hne.
    by destruct (split_char sep p).
Qed.

Lemma split_char_segments (sep : ascii) (s : string) :
  Forall (λ segment, str_in (String sep EmptyString) segment = false)
    (split_char sep s).
Proof.
  induction s as [|c s IH]; simpl.
  - by constructor.
  - destruct (Ascii.eqb c sep) eqn:E.
    + by constructor.
    + pose proof (split_char_not_nil sep s) as Hne.
      destruct (split_char sep s) as [|hd tl]; [done|].
      inversion IH as [|? ? Hhd Htl]; subst. constructor; [|done].
      simpl. destruct (ascii_dec sep c) as [->|]; [by rewrite Ascii.eqb_refl in E|].
      exact Hhd.
Qed.

Lemma str_in_differs (sub s t : string) :
  str_in sub s = true → str_in sub t = false → s ≠ t.
Proof. intros Hs Ht ->. congruence. Qed.

Lemma descend_app_cases (keys1 keys2 : list string) (value : doc) :
  (∃ sub, (∀ d, ConfigDoc.descend d keys1 value = sub)
          ∧ ∀ d, ConfigDoc.descend d (keys1 ++ keys2) value
                 = ConfigDoc.descend d keys2 sub)
  ∨ ((∀ d, ConfigDoc.descend d keys1 value = d)
     ∧ ∀ d, ConfigDoc.descend d (keys1 ++ keys2) value = d).
Proof.
  revert value. induction keys1 as [|key keys1 IH]; intros value.
  - left. exists value. by split.
  - destruct value as [| | | | |m]; try (right; by split).
    simpl. destruct (m !! key) as [v|]; [apply IH | right; by split].
Qed.

Lemma descend_not_mapping (dflt : doc) (keys : list string) (value : doc) :
  keys ≠ [] → (∀ d, value ≠ DDict d) → ConfigDoc.descend dflt keys value = dflt.
Proof.
  intros Hk Hv. destruct keys as [|key keys]; [done|].
  destruct value; try reflexivity. by destruct (Hv d).
Qed.

(** X1. [get] follows a dotted path segment by segment. For two paths [p]
    and [q], either [p] leads to a value [sub] (then [get] returns [sub]
    for [p] whatever the default, and on [p.q] it returns what it returns
    on [q] from [sub]), or [p] leads nowhere (then [get] returns the
    default on [p] and on [p.q]). *)
Theorem get_follows_dotted_path_by_segments (config : doc) (p q : string) :
  (∃ sub, (∀ d, ConfigDoc.get config p d = sub)
          ∧ ∀ d, ConfigDoc.get config (p +:+ "." +:+ q) d = ConfigDoc.get sub q d)
  ∨ ((∀ d, ConfigDoc.get config p d = d)
     ∧ ∀ d, ConfigDoc.get config (p +:+ "." +:+ q) d = d).
Proof.
  unfold ConfigDoc.get.
  change ("." +:+ q) with (String "."%char q).
  rewrite split_char_app. apply descend_app_cases.
Qed.

(** X2. An entry of the configuration whose key contains a dot is never
    read: adding it, or changing it, changes the result of [get] for no
    path and no default. *)
Theorem get_never_reads_dotted_key (d : gmap string doc) (key : string) (v : doc)
    (key_path : string) (dflt : doc) :
  str_in "." key = true →
  ConfigDoc.get (DDict (<[key := v]> d)) key_path dflt
  = ConfigDoc.get (DDict d) key_path dflt.
Proof.
  intros Hdot. unfold ConfigDoc.get.
  pose proof (split_char_not_nil "." key_path) as Hne.
  pose proof (split_char_segments "." key_path) as Hseg.
  destruct (split_char "." key_path) as [|segment keys]; [done|].
  inversion Hseg as [|? ? Hhd _]; subst. simpl.
  rewrite lookup_insert_ne; [done|].
  by apply (str_in_differs "." key segment).
Qed.

(** An entry [filters.min_review_count] at the top of the document does not
    hide the nested one. *)
Lemma get_never_reads_dotted_key_witness :
  str_in "." "filters.min_review_count" = true
  ∧ ConfigDoc.get
      (DDict (<["filters.min_review_count" := DNum 9]> Scenarios.config_entries))
      "filters.min_review_count" (DNum 3)
    = DNum 5.
Proof.
  split; [reflexivity|].
  rewrite (get_never_reads_dotted_key Scenarios.config_entries
             "filters.min_review_count" (DNum 9) "filters.min_review_count" (DNum 3))
    by reflexivity.
  reflexivity.
Defined.

Lemma split_char_whole (sep : ascii) (s : string) :
  str_in (String sep EmptyString) s = false → split_char sep s = [s].
Proof.
  induction s as [|c s IH]; [done|]. simpl.
  destruct (ascii_dec sep c) as [->|Hne]; [by destruct s|]. simpl.
  intros H. rewrite (IH H).
  destruct (Ascii.eqb c sep) eqn:E; [|done]. apply Ascii.eqb_eq in E. by subst.
Qed.

(** X3. When the loaded configuration is not a mapping (an empty file loads
    as [None]), [get] returns the default for every path. When it is a
    mapping, [get] on a key without a dot is [dict.get]: the default is
    returned only for an absent key, and an entry that is present and null
    is returned as null. *)
Theorem get_defaults_apply_to_absent_entries_only (config : doc) :
  ((∀ d, config ≠ DDict d) →
   ∀ key_path dflt, ConfigDoc.get config key_path dflt = dflt)
  ∧ (∀ d key dflt,
       config = DDict d → str_in "." key = false →
       ConfigDoc.get config key dflt = default dflt (d !! key)).
Proof.
  split.
  - intros Hno key_path dflt. unfold ConfigDoc.get.
    apply descend_not_mapping; [apply split_char_not_nil | exact Hno].
  - intros d key dflt -> Hkey. unfold ConfigDoc.get.
    rewrite (split_char_whole "." key Hkey). simpl. by destruct (d !! key).
Qed.

(** On the document [None] the minimum is the default 3; an entry that is
    null is returned as null, not as the default. *)
Lemma get_defaults_apply_to_absent_entries_only_witness :
  ConfigDoc.get_min_review_count DNull = DNum 3
  ∧ ConfigDoc.get (DDict Scenarios.filters_doc) "excluded_types" (DList []) = DNull.
Proof.
  split.
  - destruct (get_defaults_apply_to_absent_entries_only DNull) as [H _].
    apply H. discriminate.
  - destruct (get_defaults_apply_to_absent_entries_only (DDict Scenarios.filters_doc))
      as [_ H].
    rewrite (H Scenarios.filters_doc "excluded_types" (DList []) eq_refl eq_refl).
    reflexivity.
Defined.

(** ** The state of an address *)

Lemma upper_char_idem (c : ascii) : upper_char (upper_char c) = upper_char c.
Proof. destruct c as [[] [] [] [] [] [] [] []]; reflexivity. Qed.

Lemma upper_fixed (s : string) :
  str_forallb (λ c, Ascii.eqb (upper_char c) c) s = true → upper s = s.
Proof.
  induction s as [|c s IH]; simpl; [done|].
  intros [Hc Hs]%andb_true_iff. apply Ascii.eqb_eq in Hc. by rewrite Hc, IH.
Qed.

Lemma upper_is_upper (s : string) :
  str_forallb (λ c, Ascii.eqb (upper_char c) c) (upper s) = true.
Proof.
  induction s as [|c s IH]; simpl; [done|].
  rewrite upper_char_idem, Ascii.eqb_refl. exact IH.
Qed.

Lemma split_ws_keeps (f : ascii → bool) (s : string) :
  str_forallb f s = true → Forall (λ w, str_forallb f w = true) (split_ws s).
Proof.
  induction s as [|c s IH]; [constructor|].
  cbn [str_forallb]. intros [Hc Hs]%andb_true_iff. specialize (IH Hs).
  cbn [split_ws]. destruct (isspace c); [exact IH|].
  destruct s as [|c' s'].
  - constructor; [|constructor]. simpl. by rewrite Hc.
  - destruct (isspace c').
    + constructor; [|exact IH]. simpl. by rewrite Hc.
    + destruct (split_ws (String c' s')) as [|w ws].
      * constructor; [|constructor]. simpl. by rewrite Hc.
      * inversion IH as [|? ? Hw Hws]; subst. constructor; [|exact Hws].
        simpl. by rewrite Hc, Hw.
Qed.

Lemma split_ws_words (s : string) :
  Forall (λ w, w ≠ "" ∧ SearchSpec.no_space w = true) (split_ws s).
Proof.
  unfold SearchSpec.no_space.
  induction s as [|c s IH]; [constructor|].
  cbn [split_ws]. destruct (isspace c) eqn:Ec; [exact IH|].
  destruct s as [|c' s'].
  - constructor; [|constructor]. simpl. by rewrite Ec.
  - destruct (isspace c') eqn:Ec'.
    + constructor; [|exact IH]. simpl. by rewrite Ec.
    + destruct (split_ws (String c' s')) as [|w ws].
      * constructor; [|constructor]. simpl. by rewrite Ec.
      * inversion IH as [|? ? [Hne Hw] Hws]; subst. constructor; [|exact Hws].
        simpl. by rewrite Ec, Hw.
Qed.

Lemma words_of_word (address : pyval) (w : string) :
  In w (SearchSpec.words_of address) →
  w ≠ "" ∧ upper w = w ∧ SearchSpec.no_space w = true.
Proof.
  destruct address as [| | |s|]; simpl; try done. intros Hin.
  pose proof (split_ws_words (upper s)) as Hwords.
  pose proof (split_ws_keeps _ (upper s) (upper_is_upper s)) as Hup.
  rewrite List.Forall_forall in Hwords, Hup.
  destruct (Hwords w Hin) as [Hne Hsp]. repeat split; [done| |done].
  apply upper_fixed, Hup, Hin.
Qed.

Lemma extract_state_words (settings : Settings.t) (address : pyval) (r : string) :
  SearchModule.extract_state settings address = Ok r →
  r = default "" (List.find (λ word, bool_decide (word ∈ SearchModule.self_us_states settings))
                    (SearchSpec.words_of address)).
Proof.
  unfold SearchModule.extract_state.
  destruct address as [|b|q|s|d]; simpl.
  - by intros [= <-].
  - destruct b; simpl; [discriminate | by intros [= <-]].
  - destruct (Qeq_bool q 0); simpl; [by intros [= <-] | discriminate].
  - destruct (String.eqb s "") eqn:E; simpl.
    + apply String.eqb_eq in E as ->. by intros [= <-].
    + by intros [= <-].
  - destruct (bool_decide (d = ∅)); simpl; [by intros [= <-] | discriminate].
Qed.

Lemma extract_state_member (settings : Settings.t) (address : pyval) (r : string) :
  SearchModule.extract_state settings address = Ok r → r ≠ "" →
  r ∈ SearchModule.self_us_states settings ∧ In r (SearchSpec.words_of address).
Proof.
  intros Hr Hne. apply extract_state_words in Hr.
  destruct (List.find _ (SearchSpec.words_of address)) as [w|] eqn:E; simpl in Hr;
    subst r; [|done].
  apply find_some in E as [Hin Hst]. by apply bool_decide_eq_true in Hst.
Qed.

(** X4. [extract_state] does not raise on an address that is a string or
    [None]. When it returns a state that is not empty, the state is a
    configured state and a word of the upper-cased address, hence equal to
    its own upper case and free of white space; it returns the empty
    string exactly when no word of the upper-cased address is a configured
    state. *)
Theorem extract_state_returns_first_configured_word (settings : Settings.t)
    (address : pyval) :
  let states := SearchModule.self_us_states settings in
  ((address = PNone ∨ ∃ s, address = PStr s) →
   ∃ r, SearchModule.extract_state settings address = Ok r)
  ∧ ∀ r, SearchModule.extract_state settings address = Ok r →
      (r ≠ "" →
       r ∈ states ∧ In r (SearchSpec.words_of address)
       ∧ upper r = r ∧ SearchSpec.no_space r = true)
      ∧ (r = "" ↔ ∀ w, In w (SearchSpec.words_of address) → w ∉ states).
Proof.
  intros states. split.
  - intros [-> | [s ->]]; unfold SearchModule.extract_state; simpl; [eauto|].
    destruct (negb (negb (String.eqb s ""))); simpl; eauto.
  - intros r Hr. apply extract_state_words in Hr. fold states in Hr.
    destruct (List.find _ (SearchSpec.words_of address)) as [w|] eqn:E; simpl in Hr;
      subst r.
    + apply find_some in E as [Hin Hst]. apply bool_decide_eq_true in Hst.
      destruct (words_of_word address w Hin) as (Hne & Hup & Hsp).
      split; [done|]. split; [done|]. intros Hall. by destruct (Hall w Hin).
    + split; [done|]. split; [|done]. intros _ w Hin Hst.
      pose proof (find_none _ _ E w Hin) as Hno. simpl in Hno.
      by apply bool_decide_eq_false in Hno.
Qed.

(** The state is found whatever its case in the address. *)
Lemma extract_state_returns_first_configured_word_witness :
  SearchModule.extract_state Scenarios.settings (PStr "1 Main St, Albany ny 12207")
  = Ok "NY"
  ∧ "NY" ∈ SearchModule.self_us_states Scenarios.settings
  ∧ upper "NY" = "NY".
Proof.
  assert (SearchModule.extract_state Scenarios.settings
            (PStr "1 Main St, Albany ny 12207") = Ok "NY") as Hr by reflexivity.
  split; [exact Hr|].
  destruct (extract_state_returns_first_configured_word Scenarios.settings
              (PStr "1 Main St, Albany ny 12207")) as [_ H].
  destruct (H "NY" Hr) as [Hne _].
  destruct (Hne ltac:(discriminate)) as (H1 & _ & H2 & _). auto.
Defined.

(** ** The searches *)

Section Places.
Import SearchSpec.

Lemma Forall_of_sublist {A : Type} (P : A → Prop) (l k : list A) :
  sublist l k → Forall P k → Forall P l.
Proof.
  induction 1 as [|x l k _ IH|x l k _ IH]; intros HF; [constructor| |].
  - inversion HF; subst. constructor; auto.
  - inversion HF; subst. auto.
Qed.

Lemma distinct_places_sublist (l k : list (gmap string pyval)) :
  sublist l k → distinct_places k → distinct_places l.
Proof.
  induction 1 as [|x l k Hs IH|x l k Hs IH]; simpl; [done| |].
  - intros [Hx Hk]. split; [|auto]. by apply (Forall_of_sublist _ l k).
  - intros [_ Hk]. auto.
Qed.

Lemma distinct_places_app (l1 l2 : list (gmap string pyval)) :
  distinct_places l1 → distinct_places l2 →
  Forall (λ c2, Forall (λ c1, Pipeline.py_eq (place_id_of c2) (place_id_of c1) = false)
                  l1) l2 →
  distinct_places (l1 ++ l2).
Proof.
  induction l1 as [|c l1 IH]; simpl; [done|].
  intros [Hc H1] H2 Hx. split.
  - apply Forall_app. split; [done|].
    eapply Forall_impl; [exact Hx|]. simpl. intros c2 Hc2. by inversion Hc2.
  - apply IH; [done|done|].
    eapply Forall_impl; [exact Hx|]. simpl. intros c2 Hc2. by inversion Hc2.
Qed.

Lemma slice_to_sublist {A : Type} (n : Z) (l : list A) : sublist (slice_to n l) l.
Proof. unfold slice_to. destruct (0 <=? n)%Z; apply sublist_take. Qed.

Lemma unvisited_not_eq (visited : list pyval) (c2 c1 : gmap string pyval) :
  unvisited visited c2 → In (place_id_of c1) visited →
  Pipeline.py_eq (place_id_of c2) (place_id_of c1) = false.
Proof.
  unfold unvisited. intros Hun Hin.
  destruct (Pipeline.py_eq (place_id_of c2) (place_id_of c1)) eqn:E; [|done].
  assert (existsb (Pipeline.py_eq (place_id_of c2)) visited = true) as Hex
    by (apply existsb_exists; eauto).
  congruence.
Qed.

(** New records against known ones: the known ones are in the set, the new
    ones were not. *)
Lemma distinct_places_extend (visited : list pyval)
    (known new : list (gmap string pyval)) :
  distinct_places known → Forall (λ c, In (place_id_of c) visited) known →
  distinct_places new → Forall (unvisited visited) new →
  distinct_places (known ++ new).
Proof.
  intros Hk Hin Hn Hun. apply distinct_places_app; [done|done|].
  eapply Forall_impl; [exact Hun|]. simpl. intros c2 Hc2.
  eapply Forall_impl; [exact Hin|]. simpl. intros c1 Hc1.
  by apply (unvisited_not_eq visited).
Qed.

Lemma unvisited_prefix (visited extra : list pyval) (c : gmap string pyval) :
  unvisited (visited ++ extra) c → unvisited visited c.
Proof.
  unfold unvisited. rewrite existsb_app. by intros [H _]%orb_false_iff.
Qed.

Lemma set_contains_false (visited : list pyval) (v : pyval) :
  set_contains visited v = Ok false → existsb (Pipeline.py_eq v) visited = false.
Proof. destruct v; simpl; congruence. Qed.

End Places.

Section Search.
Import SearchSpec.
Variable World : Type.
Variable settings : Settings.t.
Variable get_coordinates : string → World → (pyval * pyval) * World.
Variable nearby_search : pyval → pyval → Q → string → World
                         → option SearchModule.answer * World.

Lemma company_data_place_id (city keyword : string) (place : SearchModule.place)
    (c : gmap string pyval) :
  SearchModule.company_data settings city keyword place = Ok c →
  place_id_of c = get (SearchModule.entries place) "place_id".
Proof.
  unfold SearchModule.company_data.
  destruct (SearchModule.extract_state _ _) as [st|]; [|discriminate].
  cbn [mbind result_bind].
  destruct (SearchModule.join_types _) as [ty|]; [|discriminate].
  cbn [mbind result_bind]. intros [= <-]. reflexivity.
Qed.

Lemma company_data_record (city keyword : string) (place : SearchModule.place)
    (c : gmap string pyval) :
  SearchModule.company_data settings city keyword place = Ok c →
  search_record (SearchModule.self_us_states settings) city keyword c
  ∧ c !! "name" = Some (get (SearchModule.entries place) "name").
Proof.
  unfold SearchModule.company_data.
  destruct (SearchModule.extract_state _ _) as [st|] eqn:Est; [|discriminate].
  cbn [mbind result_bind].
  destruct (SearchModule.join_types _) as [ty|]; [|discriminate].
  cbn [mbind result_bind]. intros [= <-].
  split; [|reflexivity].
  split; [|split; [reflexivity|split; [reflexivity|split]]].
  - unfold company_keys. cbn [list_to_map foldr]. rewrite !dom_insert_L, dom_empty_L.
    cbn [list_to_set foldr fst]. set_solver.
  - by exists ty.
  - exists st. split; [reflexivity|].
    destruct (String.eqb st "") eqn:E; [apply String.eqb_eq in E; auto|].
    right. apply (extract_state_member settings _ st Est).
    intros ->. by rewrite String.eqb_refl in E.
Qed.
End Search.

Section SearchLoops.
Import SearchSpec.
Variable World : Type.
Variable settings : Settings.t.
Variable get_coordinates : string → World → (pyval * pyval) * World.
Variable nearby_search : pyval → pyval → Q → string → World
                         → option SearchModule.answer * World.

Lemma collect_spec (city keyword : string) (places : list SearchModule.place) :
  ∀ visited companies visited' r,
    SearchModule.collect settings city keyword places visited companies = (visited', r) →
    (∃ extra, visited' = visited ++ extra)
    ∧ ∀ out, r = Ok out →
        ∃ new, out = companies ++ new
               ∧ Forall (search_record (SearchModule.self_us_states settings)
                           city keyword) new
               ∧ Forall (unvisited visited) new
               ∧ Forall (λ c, In (place_id_of c) visited') new
               ∧ (distinct_places companies →
                  Forall (λ c, In (place_id_of c) visited) companies →
                  distinct_places out).
Proof.
  induction places as [|place places IH]; intros visited companies visited' r;
    cbn [SearchModule.collect].
  - intros [= <- <-]. split; [exists []; by rewrite app_nil_r|].
    intros out [= <-]. exists []. rewrite app_nil_r. repeat split; auto.
  - destruct (set_contains visited _) as [[|]|e] eqn:Eset.
    + apply IH.
    + destruct (SearchModule.company_data settings city keyword place)
        as [c|e] eqn:Ec.
      * intros H. apply IH in H as [[extra ->] Hout]. split.
        { exists ([get (SearchModule.entries place) "place_id"] ++ extra).
          by rewrite app_assoc. }
        intros out Hr. destruct (Hout out Hr) as (new & -> & Hrec & Hun & Hin & Hd).
        pose proof (company_data_place_id settings city keyword place c Ec) as Hid.
        apply set_contains_false in Eset.
        exists (c :: new). split; [by rewrite <- app_assoc|].
        split; [constructor; [by apply (company_data_record settings city keyword place)|done]|].
        split.
        { constructor; [unfold unvisited; by rewrite Hid|].
          eapply Forall_impl; [exact Hun|]. simpl. intros c'. apply unvisited_prefix. }
        split.
        { constructor; [|done]. rewrite Hid. apply in_or_app. left.
          apply in_or_app. right. by left. }
        intros Hdc Hinc. apply Hd.
        -- apply (distinct_places_extend visited companies [c]); [done|done| |].
           ++ simpl. split; [constructor|done].
           ++ constructor; [unfold unvisited; by rewrite Hid|constructor].
        -- apply Forall_app. split.
           ++ eapply Forall_impl; [exact Hinc|]. simpl. intros c' Hc'.
              apply in_or_app. by left.
           ++ constructor; [|constructor]. rewrite Hid. apply in_or_app. right. by left.
      * intros [= <- <-]. split; [eauto|]. discriminate.
    + intros [= <- <-]. split; [exists []; by rewrite app_nil_r|]. discriminate.
Qed.

Lemma search_companies_spec (city keyword : string) (radius : Q)
    (visited : list pyval) (w : World) :
  let r : list (gmap string pyval) * (list pyval * World) :=
    SearchModule.search_companies World settings get_coordinates nearby_search
      city keyword radius (visited, w) in
  (∃ extra, r.2.1 = visited ++ extra)
  ∧ Forall (search_record (SearchModule.self_us_states settings) city keyword) r.1
  ∧ Forall (unvisited visited) r.1
  ∧ Forall (λ c, In (place_id_of c) r.2.1) r.1
  ∧ distinct_places r.1.
Proof.
  assert (∀ w' : World, (∃ extra, visited = visited ++ extra)
                ∧ Forall (search_record (SearchModule.self_us_states settings)
                            city keyword) []
                ∧ Forall (unvisited visited) []
                ∧ Forall (λ c, In (place_id_of c) (visited, w').1)
                    ([] : list (gmap string pyval))
                ∧ distinct_places []) as Hnone.
  { intros w'. split; [exists []; by rewrite app_nil_r|]. repeat split; constructor. }
  unfold SearchModule.search_companies.
  destruct (get_coordinates city w) as [[lat lng] w1].
  destruct (negb (truthy lat) || negb (truthy lng)); [apply (Hnone w1)|].
  destruct (nearby_search lat lng radius keyword w1) as [[data|] w2];
    [|apply (Hnone w2)].
  destruct (Pipeline.py_eq _ _); [|apply (Hnone w2)].
  destruct (SearchModule.collect settings city keyword _ visited [])
    as [visited' r] eqn:Ecol.
  apply collect_spec in Ecol as [[extra ->] Hout].
  destruct r as [out|e]; simpl.
  - destruct (Hout out eq_refl) as (new & -> & Hrec & Hun & Hin & Hd).
    simpl. split; [eauto|]. repeat split; try done. apply Hd; [done|constructor].
  - split; [eauto|]. repeat split; constructor.
Qed.

End SearchLoops.

Lemma for_flow_inv {S R A : Type} (I : S → Prop) (P : R → Prop)
    (body : S → A → flow S R) (l : list A) :
  (∀ st a, I st → match body st a with Next st' => I st' | Leave r => P r end) →
  ∀ st, I st → match for_flow body l st with Next st' => I st' | Leave r => P r end.
Proof.
  intros Hbody. induction l as [|a l IH]; intros st Hst; simpl; [done|].
  specialize (Hbody st a Hst). destruct (body st a) as [st'|r]; [by apply IH | done].
Qed.

Lemma for_flow_app {S R A : Type} (body : S → A → flow S R) (l1 l2 : list A) (st : S) :
  for_flow body (l1 ++ l2) st
  = match for_flow body l1 st with
    | Next st' => for_flow body l2 st'
    | Leave r => Leave r
    end.
Proof.
  revert st. induction l1 as [|a l1 IH]; intros st; simpl; [done|].
  destruct (body st a); [apply IH | done].
Qed.

Lemma for_flow_cons {S R A : Type} (body : S → A → flow S R) (a : A) (l : list A)
    (st : S) :
  for_flow body (a :: l) st
  = match body st a with
    | Next st' => for_flow body l st'
    | Leave r => Leave r
    end.
Proof. reflexivity. Qed.

Lemma for_flow_ext {S R A : Type} (body1 body2 : S → A → flow S R) (l : list A)
    (st : S) :
  (∀ st a, body1 st a = body2 st a) → for_flow body1 l st = for_flow body2 l st.
Proof.
  intros H. revert st. induction l as [|a l IH]; intros st; simpl; [done|].
  rewrite H. destruct (body2 st a); [apply IH | done].
Qed.

Lemma for_flow_map {S R A B : Type} (f : A → B) (body : S → B → flow S R)
    (l : list A) (st : S) :
  for_flow body (map f l) st = for_flow (λ st a, body st (f a)) l st.
Proof.
  revert st. induction l as [|a l IH]; intros st; simpl; [done|].
  destruct (body st (f a)); [apply IH | done].
Qed.

Lemma length_slice_to {A : Type} (n : Z) (l : list A) :
  (0 <= n)%Z → (Z.of_nat (length (slice_to n l)) <= n)%Z.
Proof.
  intros Hn. unfold slice_to. destruct (0 <=? n)%Z eqn:E; [|lia].
  rewrite length_take. lia.
Qed.

Lemma slice_to_all {A : Type} (n : Z) (l : list A) :
  (Z.of_nat (length l) <= n)%Z → slice_to n l = l.
Proof.
  intros Hn. unfold slice_to. destruct (0 <=? n)%Z eqn:E; [|lia].
  apply take_ge. lia.
Qed.

Section SearchTheorems.
Import SearchSpec.
Variable World : Type.
Variable settings : Settings.t.
Variable get_coordinates : string → World → (pyval * pyval) * World.
Variable nearby_search : pyval → pyval → Q → string → World
                         → option SearchModule.answer * World.

Lemma found_ok_search (visited0 : list pyval) (found : list (gmap string pyval))
    (s : list pyval * World) (city keyword : string) (radius : Q)
    (companies : list (gmap string pyval)) (s' : list pyval * World) :
  found_ok visited0 found s →
  SearchModule.search_companies World settings get_coordinates nearby_search
    city keyword radius s = (companies, s') →
  found_ok visited0 (found ++ companies) s'.
Proof.
  intros ([extra Hs] & Hd & Hun & Hin) E. destruct s as [visited w].
  cbn [fst] in Hs, Hin. subst visited.
  pose proof (search_companies_spec World settings get_coordinates nearby_search
                city keyword radius (visited0 ++ extra) w) as Hspec.
  cbv zeta in Hspec. rewrite E in Hspec. cbn [fst snd] in Hspec.
  destruct Hspec as ([extra' Hv] & _ & Hun' & Hin' & Hd').
  unfold found_ok. rewrite Hv in *.
  split; [exists (extra ++ extra'); by rewrite app_assoc|].
  split; [by apply (distinct_places_extend (visited0 ++ extra))|].
  split.
  - apply Forall_app. split; [done|].
    eapply Forall_impl; [exact Hun'|]. simpl. intros c. apply unvisited_prefix.
  - apply Forall_app. split; [|done].
    eapply Forall_impl; [exact Hin|]. simpl. intros c Hc. apply in_or_app. by left.
Qed.

Lemma found_ok_sublist (visited0 : list pyval) (found found' : list (gmap string pyval))
    (s : list pyval * World) :
  sublist found' found → found_ok visited0 found s → found_ok visited0 found' s.
Proof.
  intros Hsub (Hs & Hd & Hun & Hin). split; [done|].
  split; [by apply (distinct_places_sublist found' found)|].
  split; by apply (Forall_of_sublist _ found' found).
Qed.

Lemma core_search_inv (visited0 : list pyval) (city keyword : string)
    (st : list (gmap string pyval) * (list pyval * World)) :
  found_ok visited0 st.1 st.2 →
  match SearchModule.core_search World settings get_coordinates nearby_search
          city st keyword with
  | Next st' =>
      found_ok visited0 st'.1 st'.2
      ∧ (Z.of_nat (length st'.1) < SearchModule.self_max_results settings)%Z
  | Leave r =>
      found_ok visited0 (r.1.1 ++ r.1.2) r.2
      ∧ ((0 <= SearchModule.self_max_results settings)%Z →
         (Z.of_nat (length r.1.1) + Z.of_nat (length r.1.2)
          <= SearchModule.self_max_results settings)%Z)
  end.
Proof.
  destruct st as [core s]. cbn [fst snd]. intros Hok.
  unfold SearchModule.core_search.
  destruct (SearchModule.search_companies _ _ _ _ city keyword _ s)
    as [companies s'] eqn:E.
  pose proof (found_ok_search visited0 core s city keyword _ companies s' Hok E) as Hok'.
  destruct (_ <=? _)%Z eqn:Emax; cbn [fst snd].
  - rewrite app_nil_r. split.
    + eapply found_ok_sublist; [apply slice_to_sublist | exact Hok'].
    + intros Hmax. pose proof (length_slice_to (SearchModule.self_max_results settings)
                                 (core ++ companies) Hmax). simpl. lia.
  - split; [done | lia].
Qed.

Lemma peripheral_search_inv (visited0 : list pyval)
    (core : list (gmap string pyval)) (city keyword : string)
    (st : list (gmap string pyval) * (list pyval * World)) :
  (Z.of_nat (length core) < SearchModule.self_max_results settings)%Z ∨ core = [] →
  found_ok visited0 (core ++ st.1) st.2 →
  match SearchModule.peripheral_search World settings get_coordinates nearby_search
          core city st keyword with
  | Next st' =>
      found_ok visited0 (core ++ st'.1) st'.2
      ∧ (Z.of_nat (length core) + Z.of_nat (length st'.1)
         < SearchModule.self_max_results settings)%Z
  | Leave r =>
      found_ok visited0 (r.1.1 ++ r.1.2) r.2
      ∧ ((0 <= SearchModule.self_max_results settings)%Z →
         (Z.of_nat (length r.1.1) + Z.of_nat (length r.1.2)
          <= SearchModule.self_max_results settings)%Z)
  end.
Proof.
  destruct st as [peripheral s]. cbn [fst snd]. intros Hcore Hok.
  unfold SearchModule.peripheral_search.
  destruct (SearchModule.search_companies _ _ _ _ city keyword _ s)
    as [companies s'] eqn:E.
  pose proof (found_ok_search visited0 _ s city keyword _ companies s' Hok E) as Hok'.
  rewrite <- app_assoc in Hok'.
  destruct (_ <=? _)%Z eqn:Emax; cbn [fst snd].
  - split.
    + eapply found_ok_sublist; [|exact Hok'].
      apply sublist_app; [done | apply slice_to_sublist].
    + intros Hmax.
      assert (Z.of_nat (length core) <= SearchModule.self_max_results settings)%Z
        as Hle by (destruct Hcore as [ | -> ]; simpl; lia).
      pose proof (length_slice_to
                    (0 `max` (SearchModule.self_max_results settings
                              - Z.of_nat (length core)))%Z
                    (peripheral ++ companies)) as Hlen.
      lia.
  - split; [done | lia].
Qed.

Lemma optimized_search_spec (visited : list pyval) (w : World) :
  let r := SearchModule.search_with_optimized_keywords World settings
             get_coordinates nearby_search (visited, w) in
  found_ok visited (r.1.1 ++ r.1.2) r.2
  ∧ ((0 <= SearchModule.self_max_results settings)%Z →
     (Z.of_nat (length r.1.1) + Z.of_nat (length r.1.2)
      <= SearchModule.self_max_results settings)%Z).
Proof.
  set (P := λ r : (list (gmap string pyval) * list (gmap string pyval))
                  * SearchModule.state World,
         found_ok visited (r.1.1 ++ r.1.2) r.2
         ∧ ((0 <= SearchModule.self_max_results settings)%Z →
            (Z.of_nat (length r.1.1) + Z.of_nat (length r.1.2)
             <= SearchModule.self_max_results settings)%Z)).
  set (I1 := λ st : list (gmap string pyval) * SearchModule.state World,
         found_ok visited st.1 st.2
         ∧ ((Z.of_nat (length st.1) < SearchModule.self_max_results settings)%Z
            ∨ st.1 = [])).
  intros r. subst r. change (P (SearchModule.search_with_optimized_keywords World
                                  settings get_coordinates nearby_search (visited, w))).
  unfold SearchModule.search_with_optimized_keywords. cbv zeta.
  match goal with
  | |- context [for_flow ?b ?l ?st] =>
      pose proof (λ H, for_flow_inv I1 P b l H st) as Hcore
  end.
  match type of Hcore with ?A → _ => assert A as Hbody end.
  { intros st city Hst.
    apply (for_flow_inv I1 P); [|exact Hst].
    intros st' keyword [Hok _].
    pose proof (core_search_inv visited city keyword st' Hok) as H.
    destruct (SearchModule.core_search _ _ _ _ city st' keyword); [|exact H].
    destruct H. split; auto. }
  specialize (Hcore Hbody).
  match type of Hcore with ?A → _ => assert A as Hstart end.
  { split; [|by right]. split; [exists []; by rewrite app_nil_r|].
    repeat split; constructor. }
  specialize (Hcore Hstart).
  match type of Hcore with
  | match ?f with Next _ => _ | Leave _ => _ end => destruct f as [[core s]|r]
  end; [|exact Hcore].
  destruct Hcore as [Hok Hlen]. cbn [fst snd] in Hok, Hlen.
  set (I2 := λ st : list (gmap string pyval) * SearchModule.state World,
         found_ok visited (core ++ st.1) st.2
         ∧ ((Z.of_nat (length core) + Z.of_nat (length st.1)
             < SearchModule.self_max_results settings)%Z
            ∨ st.1 = [])).
  match goal with
  | |- context [for_flow ?b ?l ?st] =>
      pose proof (λ H, for_flow_inv I2 P b l H st) as Hper
  end.
  match type of Hper with ?A → _ => assert A as Hbody2 end.
  { intros st city Hst.
    apply (for_flow_inv I2 P); [|exact Hst].
    intros st' keyword [Hok' _].
    pose proof (peripheral_search_inv visited core city keyword st' Hlen Hok') as H.
    destruct (SearchModule.peripheral_search _ _ _ _ core city st' keyword); [|exact H].
    destruct H. split; auto. }
  specialize (Hper Hbody2).
  match type of Hper with ?A → _ => assert A as Hstart2 end.
  { split; [|by right]. cbn [fst snd]. by rewrite app_nil_r. }
  specialize (Hper Hstart2).
  match type of Hper with
  | match ?f with Next _ => _ | Leave _ => _ end => destruct f as [[peripheral s']|r]
  end; [|exact Hper].
  destruct Hper as [Hok2 Hlen2]. cbn [fst snd] in Hok2, Hlen2.
  split; [exact Hok2|]. cbn [fst snd]. intros Hmax.
  destruct Hlen2 as [ | -> ]; [lia|]. destruct Hlen as [ | -> ]; simpl; lia.
Qed.

End SearchTheorems.

(** X5. One call of [search_companies] only adds to the set of visited
    places. The records it returns have pairwise different place ids, none
    of which was in the set before the call, and all of which are in the
    set after it. *)
Theorem search_companies_returns_unvisited_places_once (World : Type)
    (settings : Settings.t)
    (get_coordinates : string → World → (pyval * pyval) * World)
    (nearby_search : pyval → pyval → Q → string → World
                     → option SearchModule.answer * World)
    (city keyword : string) (radius : Q) (visited : list pyval) (w : World) :
  let r : list (gmap string pyval) * (list pyval * World) :=
    SearchModule.search_companies World settings get_coordinates nearby_search
      city keyword radius (visited, w) in
  (∃ extra, r.2.1 = visited ++ extra)
  ∧ SearchSpec.distinct_places r.1
  ∧ Forall (SearchSpec.unvisited visited) r.1
  ∧ Forall (λ c, In (SearchSpec.place_id_of c) r.2.1) r.1.
Proof.
  intros r.
  destruct (search_companies_spec World settings get_coordinates nearby_search
              city keyword radius visited w) as (H1 & _ & H2 & H3 & H4).
  auto.
Qed.

(** X7. With a maximum that is not negative, the two lists returned by
    [search_with_optimized_keywords] hold together at most [max_results]
    records, so that cutting their concatenation at [max_results] changes
    nothing. *)
Theorem optimized_search_stays_within_max_results (World : Type)
    (settings : Settings.t)
    (get_coordinates : string → World → (pyval * pyval) * World)
    (nearby_search : pyval → pyval → Q → string → World
                     → option SearchModule.answer * World)
    (visited : list pyval) (w : World) :
  let r := SearchModule.search_with_optimized_keywords World settings
             get_coordinates nearby_search (visited, w) in
  (0 <= Settings.get_max_results settings)%Z →
  (Z.of_nat (length r.1.1) + Z.of_nat (length r.1.2)
   <= Settings.get_max_results settings)%Z
  ∧ slice_to (Settings.get_max_results settings) (r.1.1 ++ r.1.2) = r.1.1 ++ r.1.2.
Proof.
  intros r Hmax.
  destruct (optimized_search_spec World settings get_coordinates nearby_search
              visited w) as [_ Hlen].
  unfold SearchModule.self_max_results in Hlen. fold r in Hlen.
  specialize (Hlen Hmax). split; [exact Hlen|].
  apply slice_to_all. rewrite length_app. lia.
Qed.

(** A maximum of one, and a first search that finds two places. *)
Lemma optimized_search_stays_within_max_results_witness :
  (0 <= Settings.get_max_results Scenarios.settings)%Z
  ∧ (Z.of_nat (length Scenarios.optimized.1) + Z.of_nat (length Scenarios.optimized.2)
     <= 1)%Z.
Proof.
  split; [done|].
  apply (optimized_search_stays_within_max_results nat Scenarios.settings
           Scenarios.get_coordinates Scenarios.nearby_search [] 0%nat).
  done.
Defined.

(** X8. The records of the two lists returned by
    [search_with_optimized_keywords], taken together, have pairwise
    different place ids, none of which was in the set of visited places
    at the start. *)
Theorem optimized_search_returns_each_place_once (World : Type)
    (settings : Settings.t)
    (get_coordinates : string → World → (pyval * pyval) * World)
    (nearby_search : pyval → pyval → Q → string → World
                     → option SearchModule.answer * World)
    (visited : list pyval) (w : World) :
  let r := SearchModule.search_with_optimized_keywords World settings
             get_coordinates nearby_search (visited, w) in
  SearchSpec.distinct_places (r.1.1 ++ r.1.2)
  ∧ Forall (SearchSpec.unvisited visited) (r.1.1 ++ r.1.2).
Proof.
  intros r.
  destruct (optimized_search_spec World settings get_coordinates nearby_search
              visited w) as [(_ & Hd & Hun & _) _].
  auto.
Qed.





Section Comprehensive.
Import SearchSpec.
Variable World : Type.
Variable settings : Settings.t.
Variable get_coordinates : string → World → (pyval * pyval) * World.
Variable nearby_search : pyval → pyval → Q → string → World
                         → option SearchModule.answer * World.

(** After a loop over the keywords that was not left, the total is below
    the maximum, provided a search was made. *)
Lemma comprehensive_keywords_next (city : string) (keywords : list string) :
  keywords ≠ [] →
  ∀ st st',
    for_flow (SearchModule.comprehensive_search World settings get_coordinates
                nearby_search city) keywords st = Next st' →
    (SearchModule.self_max_results settings <=? Z.of_nat (length st'.1))%Z = false.
Proof.
  induction keywords as [|keyword keywords IH]; [done|]. intros _ st st'.
  cbn [for_flow].
  destruct (SearchModule.comprehensive_search _ _ _ _ city st keyword)
    as [st1|r] eqn:E; [|discriminate].
  destruct keywords as [|keyword' keywords'].
  - simpl. intros [= <-]. revert E. unfold SearchModule.comprehensive_search.
    destruct st as [found s].
    destruct (SearchModule.search_companies _ _ _ _ _ _ _ _) as [companies s'].
    destruct (_ <=? _)%Z eqn:Emax; [discriminate|]. by intros [= <-].
  - by apply IH.
Qed.

Lemma comprehensive_keywords_leave (city : string) (keywords : list string) :
  ∀ st r,
    for_flow (SearchModule.comprehensive_search World settings get_coordinates
                nearby_search city) keywords st = Leave r →
    (SearchModule.self_max_results settings <=? Z.of_nat (length r.1))%Z = true.
Proof.
  induction keywords as [|keyword keywords IH]; [discriminate|]. intros st r.
  cbn [for_flow].
  destruct (SearchModule.comprehensive_search _ _ _ _ city st keyword)
    as [st1|r1] eqn:E; [apply IH|].
  intros [= <-]. revert E. unfold SearchModule.comprehensive_search.
  destruct st as [found s].
  destruct (SearchModule.search_companies _ _ _ _ _ _ _ _) as [companies s'].
  destruct (_ <=? _)%Z eqn:Emax; [|discriminate]. by intros [= <-].
Qed.

Lemma grid_no_keywords (cities : list string) : grid cities [] = [].
Proof. induction cities as [|city cities IH]; [done|]. exact IH. Qed.

Lemma comprehensive_cities_flat (keywords : list string) (cities : list string) :
  ∀ st,
    ended (for_flow (SearchModule.comprehensive_city World settings get_coordinates
                       nearby_search keywords) cities st)
    = ended (for_flow
               (λ st ck,
                  SearchModule.comprehensive_search World settings get_coordinates
                    nearby_search ck.1 st ck.2)
               (grid cities keywords) st).
Proof.
  destruct keywords as [|keyword keywords].
  - induction cities as [|city cities IH]; intros st; [done|].
    cbn [for_flow]. unfold SearchModule.comprehensive_city at 1. cbn [for_flow].
    destruct (_ <=? _)%Z; [|rewrite IH]; by rewrite !grid_no_keywords.
  - induction cities as [|city cities IH]; intros st; [done|].
    unfold grid. cbn [flat_map]. fold (grid cities (keyword :: keywords)).
    rewrite for_flow_app, for_flow_map.
    rewrite (for_flow_ext
               (λ st a,
                  SearchModule.comprehensive_search World settings get_coordinates
                    nearby_search (city, a).1 st (city, a).2)
               (SearchModule.comprehensive_search World settings
                  get_coordinates nearby_search city))
      by reflexivity.
    rewrite (for_flow_cons
               (SearchModule.comprehensive_city World settings get_coordinates
                  nearby_search (keyword :: keywords))).
    unfold SearchModule.comprehensive_city at 1.
    destruct (for_flow (SearchModule.comprehensive_search World settings
                          get_coordinates nearby_search city)
                (keyword :: keywords) st) as [st'|r] eqn:E.
    + rewrite (comprehensive_keywords_next city (keyword :: keywords)
                 ltac:(done) st st' E).
      apply IH.
    + by rewrite (comprehensive_keywords_leave city (keyword :: keywords) st r E).
Qed.

End Comprehensive.

(** X9. [search_comprehensive] makes the searches of the grid of cities and
    keywords city by city and stops after the first search that brings
    the total to [max_results]: its two nested loops with their two
    [break]s return what one loop over the grid with one [break]
    returns. *)
Theorem comprehensive_search_is_one_loop_with_one_break (World : Type)
    (settings : Settings.t)
    (get_coordinates : string → World → (pyval * pyval) * World)
    (nearby_search : pyval → pyval → Q → string → World
                     → option SearchModule.answer * World)
    (s : list pyval * World) :
  SearchModule.search_comprehensive World settings get_coordinates nearby_search s
  = SearchSpec.ended
      (for_flow
         (λ st ck,
            SearchModule.comprehensive_search World settings get_coordinates
              nearby_search ck.1 st ck.2)
         (SearchSpec.grid
            (default [] (Settings.search_comprehensive_cities settings))
            (default [] (Settings.search_comprehensive_keywords settings)))
         ([], s)).
Proof.
  unfold SearchModule.search_comprehensive. cbv zeta.
  rewrite <- comprehensive_cities_flat. reflexivity.
Qed.

(** ** The website filter *)

Lemma lower_char_idem (c : ascii) : lower_char (lower_char c) = lower_char c.
Proof. destruct c as [[] [] [] [] [] [] [] []]; reflexivity. Qed.

Lemma lower_idem (s : string) : lower (lower s) = lower s.
Proof. induction s as [|c s IH]; simpl; [done|]. by rewrite lower_char_idem, IH. Qed.

Lemma prefix_lower_fixed (sub t : string) :
  String.prefix sub (lower t) = true → lower sub = sub.
Proof.
  revert t. induction sub as [|a sub IH]; intros t; [done|].
  destruct t as [|b t]; simpl; [discriminate|].
  destruct (ascii_dec a (lower_char b)) as [->|]; [|discriminate].
  intros H. by rewrite lower_char_idem, (IH t H).
Qed.

(** A term found in a lower-cased text has no capital letter. *)
Lemma str_in_lower_fixed (sub t : string) :
  str_in sub (lower t) = true → lower sub = sub.
Proof.
  induction t as [|b t IH].
  - simpl. rewrite orb_false_r. apply (prefix_lower_fixed sub "").
  - cbn [lower str_in]. intros [H|H]%orb_true_iff; [|by apply IH].
    by apply (prefix_lower_fixed sub (String b t)).
Qed.

Section Websites.
Import WebsiteFilter WebsiteSpec.
Variable World : Type.
Variable settings : Settings.t.
Variable requests_get : pyval → World → option (Z * string) * World.
Variable place_details : pyval → World → option details * World.

Lemma validate_website_true (website company_name : pyval) (w : World) :
  (validate_website World settings requests_get website company_name w).1 = true
  ↔ ∃ text indicator,
      (requests_get website w).1 = Some (200%Z, text)
      ∧ In indicator (Settings.get_business_indicators settings)
      ∧ str_in indicator (lower text) = true.
Proof.
  unfold validate_website.
  destruct (requests_get website w) as [[[status_code text]|] w']; simpl.
  - destruct (status_code =? 200)%Z eqn:E.
    + apply Z.eqb_eq in E as ->.
      destruct (existsb _ (Settings.get_business_indicators settings)) eqn:Eex; simpl.
      * apply existsb_exists in Eex as (indicator & Hin & Hi). split; [|done].
        intros _. exists text, indicator. auto.
      * split; [done|]. intros (text' & indicator & [= <-] & Hin & Hi).
        assert (existsb (λ i, str_in i (lower text))
                  (Settings.get_business_indicators settings) = true) as Hex
          by (apply existsb_exists; eauto).
        congruence.
    + simpl. split; [done|]. intros (text' & indicator & [= -> _] & _). done.
  - split; [done|]. intros (text' & indicator & H & _). done.
Qed.

Lemma validate_website_world (website company_name : pyval) (w : World) :
  (validate_website World settings requests_get website company_name w).2
  = (requests_get website w).2.
Proof.
  unfold validate_website.
  destruct (requests_get website w) as [[[status_code text]|] w']; simpl; [|done].
  destruct (status_code =? 200)%Z; [|done]. by destruct (existsb _ _).
Qed.

(** What the [try] block appends is the record with the three entries
    set, and it validated the website. *)
Lemma try_website_appends (c : gmap string pyval) (w w' : World)
    (c' : gmap string pyval) :
  try_website World settings requests_get place_details c (get c "place_id") w
  = (Some (Some c'), w') →
  is_Some (c !! "name")
  ∧ ∃ website phone w1,
      truthy website = true
      ∧ (validate_website World settings requests_get website (get c "name") w1).1 = true
      ∧ c' = <["website_valid" := PBool true]>
               (<["phone" := phone]> (<["website" := website]> c)).
Proof.
  unfold try_website.
  destruct (place_details (get c "place_id") w) as [[details_data|] w1];
    [|discriminate].
  destruct (Pipeline.py_eq _ _).
  - destruct (result_entry details_data) as [result|]; [|discriminate].
    destruct (truthy (get result "website")) eqn:Eweb.
    + destruct (c !! "name") as [name|] eqn:Ename; [|discriminate].
      destruct (validate_website World settings requests_get
                  (get result "website") name w1) as [valid w2] eqn:Ev.
      destruct valid; [|discriminate]. intros [= <- <-].
      split; [eauto|].
      exists (get result "website"), (get result "formatted_phone_number"), w1.
      split; [done|]. split; [|done]. unfold get at 2. rewrite Ename. simpl.
      by rewrite Ev.
    + destruct (c !! "name"); discriminate.
  - destruct (c !! "name"); discriminate.
Qed.

Lemma try_website_no_name (c : gmap string pyval) (place_id : pyval) (w : World) :
  c !! "name" = None →
  (try_website World settings requests_get place_details c place_id w).1 = None.
Proof.
  intros Hname. unfold try_website.
  destruct (place_details place_id w) as [[details_data|] w1]; [|done].
  destruct (Pipeline.py_eq _ _).
  - destruct (result_entry details_data) as [result|]; [|done].
    destruct (truthy (get result "website")); by rewrite Hname.
  - by rewrite Hname.
Qed.

Lemma body_returns (st : list (gmap string pyval) * nat * World)
    (c : gmap string pyval) :
  named c →
  ∃ st', filter_websites_required_body World settings requests_get place_details st c
         = Returns st'.
Proof.
  intros Hn. unfold filter_websites_required_body. destruct st as [[acc n] w].
  destruct (truthy (get c "place_id")) eqn:Ep; simpl; [|eauto].
  destruct (Hn Ep) as [name Hname].
  destruct (try_website _ _ _ _ c _ w) as [[[c'|]|] w']; eauto.
  rewrite Hname. eauto.
Qed.

Lemma body_raises (st : list (gmap string pyval) * nat * World)
    (c : gmap string pyval) :
  ¬ named c →
  filter_websites_required_body World settings requests_get place_details st c
  = KeyError "name".
Proof.
  intros Hn. unfold filter_websites_required_body. destruct st as [[acc n] w].
  destruct (truthy (get c "place_id")) eqn:Ep; simpl.
  - destruct (c !! "name") as [name|] eqn:Ename.
    + destruct Hn. intros _. eauto.
    + pose proof (try_website_no_name c (get c "place_id") w Ename) as Htry.
      destruct (try_website _ _ _ _ c _ w) as [[r|] w']; [discriminate|].
      reflexivity.
  - destruct Hn. intros H. unfold named in *. congruence.
Qed.

Lemma named_dec (c : gmap string pyval) : named c ∨ ¬ named c.
Proof.
  unfold named. destruct (truthy (get c "place_id")); [|left; done].
  destruct (c !! "name"); [left; eauto|right]. intros H. by destruct (H eq_refl).
Qed.

Lemma loop_returns (companies : list (gmap string pyval)) :
  ∀ st,
    (∃ st', filter_websites_required_loop World settings requests_get place_details
              companies st = Returns st')
    ↔ Forall named companies.
Proof.
  induction companies as [|c companies IH]; intros st; cbn [filter_websites_required_loop].
  - split; [constructor | eauto].
  - destruct (named_dec c) as [Hn|Hn].
    + destruct (body_returns st c Hn) as [st1 ->]. rewrite IH. split.
      * by constructor.
      * by inversion 1.
    + rewrite (body_raises st c Hn). split.
      * by intros [st' ?].
      * by inversion 1.
Qed.

Lemma loop_key (companies : list (gmap string pyval)) :
  ∀ st key,
    filter_websites_required_loop World settings requests_get place_details
      companies st = KeyError key → key = "name".
Proof.
  induction companies as [|c companies IH]; intros st key;
    cbn [filter_websites_required_loop]; [discriminate|].
  destruct (named_dec c) as [Hn|Hn].
  - destruct (body_returns st c Hn) as [st1 ->]. apply IH.
  - rewrite (body_raises st c Hn). by intros [= <-].
Qed.

Lemma body_appends (st st' : list (gmap string pyval) * nat * World)
    (c : gmap string pyval) :
  filter_websites_required_body World settings requests_get place_details st c
  = Returns st' →
  st'.1.1 = st.1.1
  ∨ ∃ c', st'.1.1 = st.1.1 ++ [c']
          ∧ validated c c'
          ∧ truthy (get c "place_id") = true ∧ is_Some (c !! "name")
          ∧ Settings.get_business_indicators settings ≠ [].
Proof.
  unfold filter_websites_required_body. destruct st as [[acc n] w].
  destruct (truthy (get c "place_id")) eqn:Ep; simpl.
  - destruct (try_website _ _ _ _ c _ w) as [[[c'|]|] w'] eqn:Etry.
    + intros [= <-]. right. exists c'. split; [done|].
      apply try_website_appends in Etry
        as (Hname & website & phone & w1 & Hweb & Hvalid & ->).
      split; [by exists website, phone|]. split; [done|]. split; [done|].
      apply validate_website_true in Hvalid as (text & indicator & _ & Hin & _).
      intros Hnil. by rewrite Hnil in Hin.
    + intros [= <-]. by left.
    + destruct (c !! "name"); [|discriminate]. intros [= <-]. by left.
  - intros [= <-]. by left.
Qed.

Lemma loop_appends (companies : list (gmap string pyval)) :
  ∀ st st',
    filter_websites_required_loop World settings requests_get place_details
      companies st = Returns st' →
    ∃ kept new,
      st'.1.1 = st.1.1 ++ new
      ∧ sublist kept companies
      ∧ Forall2 validated kept new
      ∧ Forall (λ c, truthy (get c "place_id") = true ∧ is_Some (c !! "name")) kept
      ∧ (Settings.get_business_indicators settings = [] → new = []).
Proof.
  induction companies as [|c companies IH]; intros st st';
    cbn [filter_websites_required_loop].
  - intros [= <-]. exists [], []. rewrite app_nil_r. repeat split; constructor.
  - destruct (filter_websites_required_body _ _ _ _ st c) as [st1|key] eqn:Ebody;
      [|discriminate].
    intros Hloop. apply IH in Hloop as (kept & new & Hacc & Hsub & Hval & Hkept & Hnil).
    apply body_appends in Ebody as [Hsame | (c' & Happ & Hv & Hp & Hn & Hind)].
    + exists kept, new. rewrite <- Hsame. repeat split; try done.
      by apply sublist_cons.
    + exists (c :: kept), (c' :: new). rewrite Hacc, Happ, <- app_assoc.
      split; [done|]. split; [by apply sublist_skip|].
      split; [by constructor|]. split; [by constructor|]. done.
Qed.

End Websites.

(** X10. [validate_website] makes one request and never raises. It returns
    [True] exactly when the response has the status 200 and its
    lower-cased text contains a configured indicator; such an indicator
    has no capital letter; and with no indicators configured (the default
    is the empty list) it returns [False] for every website. *)
Theorem validate_website_needs_status_200_and_an_indicator (World : Type)
    (settings : Settings.t)
    (requests_get : pyval → World → option (Z * string) * World)
    (website company_name : pyval) (w : World) :
  let r := WebsiteFilter.validate_website World settings requests_get
             website company_name w in
  r.2 = (requests_get website w).2
  ∧ (r.1 = true
     ↔ ∃ text indicator,
         (requests_get website w).1 = Some (200%Z, text)
         ∧ In indicator (Settings.get_business_indicators settings)
         ∧ str_in indicator (lower text) = true)
  ∧ (r.1 = true
     → ∃ indicator, In indicator (Settings.get_business_indicators settings)
                    ∧ lower indicator = indicator)
  ∧ (Settings.filters_business_indicators settings = None → r.1 = false).
Proof.
  intros r. split; [apply validate_website_world|].
  split; [apply validate_website_true|]. split.
  - intros (text & indicator & _ & Hin & Hi)%validate_website_true.
    exists indicator. split; [done|]. by apply (str_in_lower_fixed indicator text).
  - intros Hnone. destruct r.1 eqn:E; [|done].
    apply validate_website_true in E as (text & indicator & _ & Hin & _).
    unfold Settings.get_business_indicators in Hin. by rewrite Hnone in Hin.
Qed.

(** The page contains the indicator [services]; without indicators it is
    refused. *)
Lemma validate_website_needs_status_200_and_an_indicator_witness :
  (WebsiteFilter.validate_website nat Scenarios.settings Scenarios.requests_get
     (PStr "https://acme.example") (PStr "Acme Devices") 0%nat).1 = true
  ∧ (WebsiteFilter.validate_website nat (Scenarios.settings_with 1 None None)
       Scenarios.requests_get (PStr "https://acme.example") (PStr "Acme Devices")
       0%nat).1 = false.
Proof.
  split.
  - destruct (validate_website_needs_status_200_and_an_indicator nat
                Scenarios.settings Scenarios.requests_get
                (PStr "https://acme.example") (PStr "Acme Devices") 0%nat)
      as (_ & Hiff & _).
    apply Hiff. exists "Our Services and Team", "services".
    split; [reflexivity|]. split; [by left | reflexivity].
  - destruct (validate_website_needs_status_200_and_an_indicator nat
                (Scenarios.settings_with 1 None None) Scenarios.requests_get
                (PStr "https://acme.example") (PStr "Acme Devices") 0%nat)
      as (_ & _ & _ & Hnone).
    by apply Hnone.
Defined.

(** X11. [filter_websites_required] returns exactly when every record that
    has a place id has the key [name]. On the first record with a place id
    and without that key it raises, whatever the network answers, and the
    exception is the [KeyError] of [company['name']]. *)
Theorem website_filter_raises_on_record_without_name (World : Type)
    (settings : Settings.t)
    (requests_get : pyval → World → option (Z * string) * World)
    (place_details : pyval → World → option WebsiteFilter.details * World)
    (companies : list (gmap string pyval)) (w : World) :
  ((∃ out, WebsiteFilter.filter_websites_required World settings requests_get
             place_details companies w = WebsiteFilter.Returns out)
   ↔ Forall WebsiteSpec.named companies)
  ∧ ∀ key, WebsiteFilter.filter_websites_required World settings requests_get
             place_details companies w = WebsiteFilter.KeyError key →
           key = "name".
Proof.
  unfold WebsiteFilter.filter_websites_required. split.
  - rewrite <- (loop_returns World settings requests_get place_details companies
                  ([], 0%nat, w)).
    destruct (WebsiteFilter.filter_websites_required_loop _ _ _ _ companies _)
      as [[[acc n] w']|key]; split; eauto.
    + intros [out H]. discriminate.
    + intros [st' H]. discriminate.
  - intros key.
    destruct (WebsiteFilter.filter_websites_required_loop _ _ _ _ companies _)
      as [[[acc n] w']|key'] eqn:E; [discriminate|].
    intros [= <-]. by apply loop_key in E.
Qed.

(** A record without a place id is skipped; a record with a place id and
    without a name raises. *)
Lemma website_filter_raises_on_record_without_name_witness :
  (∃ out, WebsiteFilter.filter_websites_required nat Scenarios.settings
            Scenarios.requests_get Scenarios.place_details
            [Scenarios.with_place; Scenarios.without_place] 0%nat
          = WebsiteFilter.Returns out)
  ∧ WebsiteFilter.filter_websites_required nat Scenarios.settings
      Scenarios.requests_get Scenarios.place_details
      [Scenarios.with_place; Scenarios.without_name] 0%nat
    = WebsiteFilter.KeyError "name".
Proof.
  split; [|reflexivity].
  apply (website_filter_raises_on_record_without_name nat Scenarios.settings
           Scenarios.requests_get Scenarios.place_details
           [Scenarios.with_place; Scenarios.without_place] 0%nat).
  repeat constructor.
  - intros _. by exists (PStr "Acme Devices").
  - discriminate.
Defined.

(** X12. What [filter_websites_required] returns is, in input order, a
    sub-list of the input records that have a place id and a name, each
    with [website] set to a value that is not empty, [phone] and
    [website_valid] set to [True]. With no business indicators configured
    it returns the empty list. *)
Theorem website_filter_keeps_validated_records (World : Type)
    (settings : Settings.t)
    (requests_get : pyval → World → option (Z * string) * World)
    (place_details : pyval → World → option WebsiteFilter.details * World)
    (companies out : list (gmap string pyval)) (w w' : World) :
  WebsiteFilter.filter_websites_required World settings requests_get
    place_details companies w = WebsiteFilter.Returns (out, w') →
  (∃ kept,
     sublist kept companies
     ∧ Forall2 WebsiteSpec.validated kept out
     ∧ Forall (λ c, truthy (get c "place_id") = true ∧ is_Some (c !! "name")) kept)
  ∧ Forall (λ c', c' !! "website_valid" = Some (PBool true)) out
  ∧ (Settings.get_business_indicators settings = [] → out = []).
Proof.
  unfold WebsiteFilter.filter_websites_required.
  destruct (WebsiteFilter.filter_websites_required_loop _ _ _ _ companies _)
    as [[[acc n] w1]|key] eqn:E; [|discriminate].
  intros [= <- <-].
  apply loop_appends in E as (kept & new & Hacc & Hsub & Hval & Hkept & Hnil).
  simpl in Hacc. subst acc. split; [eauto|]. split; [|done].
  clear Hsub Hkept Hnil. induction Hval as [|c c' kept new (website & phone & _ & ->) _ IH];
    constructor; [|exact IH].
  by rewrite lookup_insert_eq.
Qed.

(** One record is skipped, the other is returned with its website. *)
Lemma website_filter_keeps_validated_records_witness :
  WebsiteFilter.filter_websites_required nat Scenarios.settings
    Scenarios.requests_get Scenarios.place_details
    [Scenarios.without_place; Scenarios.with_place] 0%nat
  = WebsiteFilter.Returns
      ([<["website_valid" := PBool true]>
          (<["phone" := PStr "555-0100"]>
             (<["website" := PStr "https://acme.example"]> Scenarios.with_place))],
       2%nat)
  ∧ Forall (λ c', c' !! "website_valid" = Some (PBool true))
      [<["website_valid" := PBool true]>
         (<["phone" := PStr "555-0100"]>
            (<["website" := PStr "https://acme.example"]> Scenarios.with_place))].
Proof.
  assert (WebsiteFilter.filter_websites_required nat Scenarios.settings
            Scenarios.requests_get Scenarios.place_details
            [Scenarios.without_place; Scenarios.with_place] 0%nat
          = WebsiteFilter.Returns
              ([<["website_valid" := PBool true]>
                  (<["phone" := PStr "555-0100"]>
                     (<["website" := PStr "https://acme.example"]>
                        Scenarios.with_place))],
               2%nat)) as H by reflexivity.
  split; [exact H|].
  by destruct (website_filter_keeps_validated_records nat Scenarios.settings
                 Scenarios.requests_get Scenarios.place_details _ _ _ _ H)
    as (_ & Hv & _).
Defined.

(** ** The loops that call the model *)

Section Precheck.
Import AIEvaluation AISpec.
Variable World : Type.
Variable run_precheck : gmap string pyval → World → reply * World.

Lemma ai_precheck_body_cases (acc : list (gmap string pyval)) (w : World)
    (c : gmap string pyval) :
  ai_precheck_body World run_precheck (acc, w) c
  = (if says_yes (run_precheck c w).1 then acc ++ [c] else acc, (run_precheck c w).2).
Proof.
  unfold ai_precheck_body, says_yes.
  destruct (run_precheck c w) as [[response|message] w']; simpl; [|done].
  by destruct (startswith _ _).
Qed.

Lemma ai_precheck_loop_sublist (l : list (gmap string pyval)) :
  ∀ acc w, ∃ passed,
    (fold_left (ai_precheck_body World run_precheck) l (acc, w)).1 = acc ++ passed
    ∧ sublist passed l.
Proof.
  induction l as [|c l IH]; intros acc w; cbn [fold_left].
  - exists []. by rewrite app_nil_r.
  - rewrite ai_precheck_body_cases.
    destruct (says_yes (run_precheck c w).1).
    + destruct (IH (acc ++ [c]) (run_precheck c w).2) as (passed & -> & Hsub).
      exists (c :: passed). rewrite <- app_assoc. split; [done|]. by apply sublist_skip.
    + destruct (IH acc (run_precheck c w).2) as (passed & -> & Hsub).
      exists passed. split; [done|]. by apply sublist_cons.
Qed.

Lemma ai_precheck_loop_filter (answer : gmap string pyval → reply)
    (l : list (gmap string pyval)) :
  (∀ c w, (run_precheck c w).1 = answer c) →
  ∀ acc w,
    (fold_left (ai_precheck_body World run_precheck) l (acc, w)).1
    = acc ++ List.filter (λ c, says_yes (answer c)) l.
Proof.
  intros Hpure. induction l as [|c l IH]; intros acc w; cbn [fold_left List.filter].
  - by rewrite app_nil_r.
  - rewrite ai_precheck_body_cases, Hpure.
    destruct (says_yes (answer c)); rewrite IH; [by rewrite <- app_assoc | done].
Qed.

End Precheck.

(** X13. [ai_precheck] returns, in input order, a sub-list of the first
    [cap] companies (of all of them when [cap] is [None]), the records
    unchanged. When the reply of the model depends on the company alone,
    the companies returned are those whose reply, stripped and
    lower-cased, starts with [yes]; a call that fails drops the
    company. *)
Theorem ai_precheck_keeps_the_companies_answered_yes (World : Type)
    (run_precheck : gmap string pyval → World → AIEvaluation.reply * World)
    (companies : list (gmap string pyval)) (cap : option Z) (w : World) :
  let passed := (AIEvaluation.ai_precheck World run_precheck companies cap w).1 in
  let considered :=
    slice_to (default (Z.of_nat (length companies)) cap) companies in
  sublist passed considered
  ∧ sublist passed companies
  ∧ (cap = None → considered = companies)
  ∧ ∀ answer, (∀ c w, (run_precheck c w).1 = answer c) →
              passed = List.filter (λ c, AISpec.says_yes (answer c)) considered.
Proof.
  intros passed considered. subst passed. unfold AIEvaluation.ai_precheck.
  cbv zeta. fold considered.
  destruct (ai_precheck_loop_sublist World run_precheck considered [] w)
    as (passed & Hp & Hsub).
  cbn [app] in Hp. rewrite Hp. split; [done|]. split; [|split].
  - etrans; [exact Hsub|]. apply slice_to_sublist.
  - intros ->. subst considered. simpl. apply slice_to_all. lia.
  - intros answer Hpure. rewrite <- Hp.
    by rewrite (ai_precheck_loop_filter World run_precheck answer considered Hpure).
Qed.

(** The model answers [Yes.] for the records with a rating and fails on the
    other. *)
Lemma ai_precheck_keeps_the_companies_answered_yes_witness :
  (AIEvaluation.ai_precheck nat Scenarios.run_precheck
     [Examples.acme; Examples.local_shop; Examples.modest] None 0%nat).1
  = [Examples.acme; Examples.modest].
Proof.
  destruct (ai_precheck_keeps_the_companies_answered_yes nat Scenarios.run_precheck
              [Examples.acme; Examples.local_shop; Examples.modest] None 0%nat)
    as (_ & _ & _ & Hf).
  rewrite (Hf Scenarios.answer) by reflexivity. reflexivity.
Defined.

Section Evaluation.
Import AIEvaluation AISpec.
Variable World : Type.
Variable settings : Settings.t.
Variable _fetch_site_excerpt : pyval → World → option string * World.
Variable run_evaluation : gmap string pyval → option string → World → reply * World.


Lemma fit_token_category (line : string) : In (ParserSpec.fit_token line) categories.
Proof.
  unfold ParserSpec.fit_token.
  repeat match goal with |- context [if ?b then _ else _] => destruct b end;
    simpl; tauto.
Qed.








End Evaluation.





(** ** The rows of the output *)

Section Rows.
Import OutputModule OutputSpec.

Lemma custom_column_insert (company row : gmap string pyval) (column : string) :
  custom_column company row column = <[column := get company (source column)]> row.
Proof.
  unfold custom_column, source.
  repeat match goal with
         | |- context [String.eqb column ?k] =>
             destruct (String.eqb column k) eqn:?; [try reflexivity|]
         end;
    try reflexivity;
    match goal with
    | H : String.eqb column _ = true |- _ => apply String.eqb_eq in H; by subst column
    end.
Qed.

Lemma excel_column_insert (company row : gmap string pyval) (column : string) :
  excel_column company row column = <[column := get company (source column)]> row.
Proof. unfold excel_column, source. by destruct (String.eqb column "keywords"). Qed.

Lemma custom_schema_fold (company : gmap string pyval) (columns : list string) :
  ∀ row column,
    fold_left (custom_column company) columns row !! column
    = if bool_decide (column ∈ columns)
      then Some (get company (source column)) else row !! column.
Proof.
  induction columns as [|col columns IH]; intros row column; cbn [fold_left].
  - by rewrite bool_decide_eq_false_2 by (apply not_elem_of_nil).
  - rewrite IH, custom_column_insert.
    destruct (bool_decide (column ∈ columns)) eqn:E.
    + apply bool_decide_eq_true in E.
      by rewrite bool_decide_eq_true_2 by (apply elem_of_cons; by right).
    + apply bool_decide_eq_false in E.
      destruct (decide (col = column)) as [->|Hne].
      * rewrite lookup_insert_eq. by rewrite bool_decide_eq_true_2 by (apply elem_of_cons; by left).
      * rewrite lookup_insert_ne by done.
        rewrite bool_decide_eq_false_2; [done|].
        intros [->|]%elem_of_cons; done.
Qed.

End Rows.

(** X16. The row of [save_results_with_custom_schema] has exactly the
    requested columns, each read from the entry of the same name, and
    [keywords] from [keyword_used], [None] standing for a missing entry.
    On the fifteen columns of the schema it is the row of [save_results],
    and so is the row of [export_to_excel]. *)
Theorem writers_build_the_same_row (company : gmap string pyval) :
  (∀ schema_columns column,
     OutputModule.custom_schema_row schema_columns company !! column
     = if bool_decide (column ∈ schema_columns)
       then Some (get company (OutputSpec.source column)) else None)
  ∧ OutputModule.custom_schema_row OutputModule.schema_columns company
    = OutputModule.save_results_row company
  ∧ OutputModule.export_to_excel_row company = OutputModule.save_results_row company.
Proof.
  split; [|split].
  - intros schema_columns column. unfold OutputModule.custom_schema_row.
    rewrite custom_schema_fold. by rewrite lookup_empty.
  - reflexivity.
  - reflexivity.
Qed.

(** ** The two versions of the pipeline *)

(** X17. Configured with the two lists of [get_exclusion_filters] and the
    minimum of 3 reviews, [filter_noise] of [filter_module.py] is
    [filter_noise] of [ModularProspectingModel1.py]: same result, same
    exception. *)
Theorem legacy_noise_filter_is_the_configured_one (float_of_str : string → option Q)
    (config : ConfigManager.t) (companies : list (gmap string pyval)) :
  ConfigManager.get_excluded_types config = Legacy.get_exclusion_filters.1 →
  ConfigManager.get_negative_keywords config = Legacy.get_exclusion_filters.2 →
  ConfigManager.get_min_review_count config = 3%Q →
  FilterModule.filter_noise float_of_str config companies
  = Legacy.filter_noise float_of_str companies.
Proof.
  intros Ht Hn Hm. unfold FilterModule.filter_noise, Legacy.filter_noise.
  rewrite Ht, Hn, Hm. reflexivity.
Qed.

(** The configuration with the two lists and no minimum configured. *)
Lemma legacy_noise_filter_is_the_configured_one_witness :
  ConfigManager.get_min_review_count Scenarios.legacy_config = 3%Q
  ∧ FilterModule.filter_noise float_of_digits Scenarios.legacy_config
      [Examples.acme; Examples.tavern]
    = Legacy.filter_noise float_of_digits [Examples.acme; Examples.tavern].
Proof.
  split; [reflexivity|].
  by apply legacy_noise_filter_is_the_configured_one.
Defined.



(** ** The score: the entries it reads and its range *)

(** The pair a conditional award evaluates to is given a name, so that the
    rest of the score is read whatever the rule decided. *)
Ltac name_conditionals :=
  repeat match goal with
         | |- context [if ?b then ?x else ?y] =>
             generalize (if b then x else y); intros [? ?]; cbn beta iota zeta
         end.

(** The cases of every conditional. *)
Ltac split_conditionals :=
  repeat match goal with
         | |- context [if ?b then _ else _] => destruct b; cbn beta iota zeta
         end.

Section ScoreReads.
Import ConfigManager ScoreReads.
Variable float_of_str : string → option Q.
Variable config : ConfigManager.t.

Lemma calculate_reads (c1 c2 : gmap string pyval) :
  (∀ k, In k reads → c1 !! k = c2 !! k) →
  match FilterModule.calculate_website_required_score float_of_str config c1 with
  | Ok r1 =>
      ∃ score breakdown,
        r1 = stored score breakdown c1
        ∧ FilterModule.calculate_website_required_score float_of_str config c2
          = Ok (stored score breakdown c2)
  | Raise e =>
      FilterModule.calculate_website_required_score float_of_str config c2 = Raise e
  end.
Proof.
  intros H. unfold FilterModule.calculate_website_required_score, get, get_or.
  assert (c2 !! "keyword_used" = c1 !! "keyword_used") as ->
    by (symmetry; apply H; unfold reads; simpl; tauto).
  assert (c2 !! "website_valid" = c1 !! "website_valid") as ->
    by (symmetry; apply H; unfold reads; simpl; tauto).
  assert (c2 !! "rating" = c1 !! "rating") as ->
    by (symmetry; apply H; unfold reads; simpl; tauto).
  assert (c2 !! "user_ratings_total" = c1 !! "user_ratings_total") as ->
    by (symmetry; apply H; unfold reads; simpl; tauto).
  assert (c2 !! "state" = c1 !! "state") as ->
    by (symmetry; apply H; unfold reads; simpl; tauto).
  assert (c2 !! "types" = c1 !! "types") as ->
    by (symmetry; apply H; unfold reads; simpl; tauto).
  cbv zeta. rewrite !_to_float_ok.
  destruct (py_lower (default (PStr "") (c1 !! "keyword_used")))
    as [keyword_used|e]; cbn [mbind result_bind]; [|reflexivity].
  name_conditionals.
  destruct (py_in _ _) as [in_us|e]; cbn [mbind result_bind]; [|reflexivity].
  name_conditionals.
  destruct (py_lower _) as [business_types|e]; cbn [mbind result_bind]; [|reflexivity].
  name_conditionals.
  eexists _, _; split; reflexivity.
Qed.

End ScoreReads.

Lemma stored_twice (score : Q) (breakdown : gmap string Q) (c : gmap string pyval) :
  ScoreReads.stored score breakdown (ScoreReads.stored score breakdown c)
  = ScoreReads.stored score breakdown c.
Proof.
  unfold ScoreReads.stored.
  rewrite (insert_insert_ne (<["website_required_score":=PNum score]> c)
             "website_required_score" "score_breakdown") by done.
  by rewrite !insert_insert_eq.
Qed.

Lemma stored_reads (score : Q) (breakdown : gmap string Q) (c : gmap string pyval)
    (k : string) :
  In k ScoreReads.reads → ScoreReads.stored score breakdown c !! k = c !! k.
Proof.
  unfold ScoreReads.reads, ScoreReads.stored. simpl.
  intros H. rewrite !lookup_insert_ne; [done|..]; intros <-; intuition discriminate.
Qed.

(** X20. When [calculate_website_required_score] returns, the record
    returned is its argument with the score and the breakdown stored; the
    two depend on six entries only ([keyword_used], [website_valid],
    [rating], [user_ratings_total], [state], [types]): a record that
    agrees on them gets the same score and breakdown. Scoring the scored
    record again returns it unchanged. *)
Theorem score_depends_on_six_entries_and_is_idempotent
    (float_of_str : string → option Q) (config : ConfigManager.t)
    (c scored : gmap string pyval) :
  FilterModule.calculate_website_required_score float_of_str config c = Ok scored →
  (∃ score breakdown,
     scored = ScoreReads.stored score breakdown c
     ∧ ∀ other, (∀ k, In k ScoreReads.reads → c !! k = other !! k) →
         FilterModule.calculate_website_required_score float_of_str config other
         = Ok (ScoreReads.stored score breakdown other))
  ∧ FilterModule.calculate_website_required_score float_of_str config scored
    = Ok scored.
Proof.
  intros Hc.
  assert (∃ score breakdown,
            scored = ScoreReads.stored score breakdown c
            ∧ ∀ other, (∀ k, In k ScoreReads.reads → c !! k = other !! k) →
                FilterModule.calculate_website_required_score float_of_str config other
                = Ok (ScoreReads.stored score breakdown other)) as Hshape.
  { pose proof (calculate_reads float_of_str config c c (λ k _, eq_refl)) as H0.
    rewrite Hc in H0. destruct H0 as (score & breakdown & -> & _).
    exists score, breakdown. split; [done|]. intros other Hother.
    pose proof (calculate_reads float_of_str config c other Hother) as H1.
    rewrite Hc in H1. destruct H1 as (score' & breakdown' & Heq & ->).
    f_equal. unfold ScoreReads.stored in Heq.
    assert (<["score_breakdown":=PDict breakdown]>
              (<["website_required_score":=PNum score]> c) !! "score_breakdown"
            = <["score_breakdown":=PDict breakdown']>
                (<["website_required_score":=PNum score']> c) !! "score_breakdown")
      as Hb by (by rewrite Heq).
    assert (<["score_breakdown":=PDict breakdown]>
              (<["website_required_score":=PNum score]> c) !! "website_required_score"
            = <["score_breakdown":=PDict breakdown']>
                (<["website_required_score":=PNum score']> c)
                !! "website_required_score")
      as Hs by (by rewrite Heq).
    rewrite !lookup_insert_eq in Hb.
    rewrite lookup_insert_ne, lookup_insert_eq in Hs by done. symmetry in Hs.
    rewrite lookup_insert_ne, lookup_insert_eq in Hs by done.
    assert (breakdown' = breakdown) as -> by congruence.
    assert (score' = score) as -> by congruence. reflexivity. }
  split; [exact Hshape|].
  destruct Hshape as (score & breakdown & -> & Hother).
  rewrite (Hother (ScoreReads.stored score breakdown c)).
  - by rewrite stored_twice.
  - intros k Hk. by rewrite stored_reads.
Qed.

(** Scoring the scored record of scenario 1 again. *)
Lemma score_depends_on_six_entries_and_is_idempotent_witness :
  FilterModule.calculate_website_required_score float_of_digits
    Examples.default_config Scenarios.acme_with_website = Ok Scenarios.acme_scored
  ∧ FilterModule.calculate_website_required_score float_of_digits
      Examples.default_config Scenarios.acme_scored = Ok Scenarios.acme_scored.
Proof.
  assert (FilterModule.calculate_website_required_score float_of_digits
            Examples.default_config Scenarios.acme_with_website
          = Ok Scenarios.acme_scored) as H by reflexivity.
  split; [exact H|].
  by destruct (score_depends_on_six_entries_and_is_idempotent float_of_digits
                 Examples.default_config _ _ H) as [_ Hi].
Defined.

(** X19. With no weights configured the stored score lies between 0 and
    10; it is at least 2 when [website_valid] is set and at most 8 when it
    is not. *)
Theorem default_score_lies_between_0_and_10 (float_of_str : string → option Q)
    (config : ConfigManager.t) (c scored : gmap string pyval) :
  ConfigManager.website_required_weights (ConfigManager.get_scoring_config config)
  = None →
  FilterModule.calculate_website_required_score float_of_str config c = Ok scored →
  ∃ score,
    scored !! "website_required_score" = Some (PNum score)
    ∧ (0 <= score)%Q ∧ (score <= 10)%Q
    ∧ (truthy (get c "website_valid") = true → (2 <= score)%Q)
    ∧ (truthy (get c "website_valid") = false → (score <= 8)%Q).
Proof.
  intros Hw. unfold FilterModule.calculate_website_required_score,
    FilterModule.scoring_config.
  rewrite Hw. cbv zeta. rewrite !_to_float_ok.
  change (default ∅ None) with (∅ : gmap string Q).
  change (wget ∅ "industry_match" 3) with 3%Q.
  change (wget ∅ "website_required" 2) with 2%Q.
  change (wget ∅ "high_rating" 2) with 2%Q.
  change (wget ∅ "good_rating" 1) with 1%Q.
  change (wget ∅ "size_indicator" 1) with 1%Q.
  change (wget ∅ "us_location" 1) with 1%Q.
  change (wget ∅ "business_type" 1) with 1%Q.
  destruct (py_lower (get_or c "keyword_used" (PStr "")))
    as [keyword_used|e]; cbn [mbind result_bind]; [|discriminate].
  destruct (py_in _ _) as [in_us|e]; cbn [mbind result_bind].
  2:{ split_conditionals; discriminate. }
  destruct (py_lower _) as [business_types|e]; cbn [mbind result_bind].
  2:{ split_conditionals; discriminate. }
  destruct (truthy (get c "website_valid")); cbn beta iota zeta;
    split_conditionals;
    intros [= <-]; eexists;
    (split; [rewrite lookup_insert_ne by done; apply lookup_insert_eq|]);
    repeat split; intros; try discriminate.
Qed.

(** The record of scenario 1 with a validated website scores 9. *)
Lemma default_score_lies_between_0_and_10_witness :
  FilterModule.calculate_website_required_score float_of_digits
    Examples.default_config Scenarios.acme_with_website = Ok Scenarios.acme_scored
  ∧ ∃ score, Scenarios.acme_scored !! "website_required_score" = Some (PNum score)
             ∧ (2 <= score)%Q ∧ (score <= 10)%Q.
Proof.
  assert (FilterModule.calculate_website_required_score float_of_digits
            Examples.default_config Scenarios.acme_with_website
          = Ok Scenarios.acme_scored) as H by reflexivity.
  split; [exact H|].
  destruct (default_score_lies_between_0_and_10 float_of_digits
              Examples.default_config _ _ eq_refl H) as (score & Hs & _ & H10 & H2 & _).
  exists score. split; [exact Hs|]. split; [by apply H2 | exact H10].
Defined.

(** ** Scoring, then categorizing *)



Section ScoreTotal.
Import ConfigManager.
Variable float_of_str : string → option Q.
Variable config : ConfigManager.t.


End ScoreTotal.



(** ** The two filters together *)

Section FiltersTogether.
Import ConfigManager IcpSpec.
Variable float_of_str : string → option Q.
Variable config : ConfigManager.t.

Lemma record_ok_with_score (score : gmap string pyval → Q) (c : gmap string pyval) :
  record_ok c → record_ok (with_icp_score score c).
Proof.
  unfold record_ok, with_icp_score, text_field_ok.
  by rewrite !lookup_insert_ne.
Qed.


Lemma configured_score_with_score (states : gset string) (weights : gmap string Q)
    (score : gmap string pyval → Q) (c : gmap string pyval) :
  configured_score float_of_str states weights (with_icp_score score c)
  = configured_score float_of_str states weights c.
Proof.
  unfold configured_score, weighted_score, location_points, rating_points,
    category_points, keyword_points, in_states, text_of, get, with_icp_score.
  by rewrite !lookup_insert_ne.
Qed.


Lemma with_score_twice (score : gmap string pyval → Q) (c : gmap string pyval) :
  score (with_icp_score score c) = score c →
  with_icp_score score (with_icp_score score c) = with_icp_score score c.
Proof.
  intros H. unfold with_icp_score at 1. rewrite H. unfold with_icp_score.
  by rewrite insert_insert_eq.
Qed.

Lemma list_filter_map {A : Type} (f : A → A) (p : A → bool) (l : list A) :
  (∀ a, p (f a) = p a) → List.filter p (map f l) = map f (List.filter p l).
Proof.
  intros H. induction l as [|a l IH]; simpl; [done|].
  rewrite H. destruct (p a); simpl; by rewrite IH.
Qed.


Lemma list_filter_all {A : Type} (p : A → bool) (l : list A) :
  Forall (λ a, p a = true) l → List.filter p l = l.
Proof.
  induction 1 as [|a l Ha _ IH]; simpl; [done|]. by rewrite Ha, IH.
Qed.

Lemma icp_filter_ok (companies : list (gmap string pyval)) :
  Forall record_ok companies →
  FilterModule.filter_by_icp_criteria float_of_str config companies
  = Ok (map (with_icp_score
               (configured_score float_of_str (FilterModule.self_us_states config)
                  (default ∅ (icp_weights (get_scoring_config config)))))
          (List.filter
             (λ c, Qge_bool
                     (configured_score float_of_str (FilterModule.self_us_states config)
                        (default ∅ (icp_weights (get_scoring_config config))) c)
                     (default 2%Q (min_icp_score (get_scoring_config config))))
             companies)).
Proof.
  intros Hok. unfold FilterModule.filter_by_icp_criteria.
  exact (icp_loop _
           (configured_score float_of_str (FilterModule.self_us_states config)
              (default ∅ (icp_weights (get_scoring_config config))))
           (default 2%Q (min_icp_score (get_scoring_config config))) companies
           (λ acc c Hc,
              filter_by_icp_criteria_body_ok float_of_str config _ _ acc c Hc)
           Hok []).
Qed.

End FiltersTogether.

(** X22. The ICP filter is idempotent on records whose [types] and
    [keyword_used] hold strings or are missing and whose [state] can be
    looked up in a set: applied to its own result it returns that
    result. *)
Theorem icp_filter_is_idempotent (float_of_str : string → option Q)
    (config : ConfigManager.t) (companies out : list (gmap string pyval)) :
  Forall IcpSpec.record_ok companies →
  FilterModule.filter_by_icp_criteria float_of_str config companies = Ok out →
  FilterModule.filter_by_icp_criteria float_of_str config out = Ok out.
Proof.
  intros Hok. rewrite (icp_filter_ok float_of_str config companies Hok).
  intros [= <-]. rewrite icp_filter_ok.
  - f_equal. rewrite list_filter_map
      by (intros c; by rewrite configured_score_with_score).
    rewrite filter_filter_same, map_map. apply map_ext. intros c.
    apply with_score_twice. apply configured_score_with_score.
  - apply Forall_map. apply Forall_filter_keep.
    eapply Forall_impl; [exact Hok|]. intros c. apply record_ok_with_score.
Qed.

(** The result on three records, filtered again. *)
Lemma icp_filter_is_idempotent_witness :
  Forall IcpSpec.record_ok [Examples.acme; Examples.unrated; Examples.modest]
  ∧ FilterModule.filter_by_icp_criteria float_of_digits Examples.default_config
      [<["icp_score" := PNum 5]> Examples.acme;
       <["icp_score" := PNum (5 # 2)]> Examples.modest]
    = Ok [<["icp_score" := PNum 5]> Examples.acme;
          <["icp_score" := PNum (5 # 2)]> Examples.modest].
Proof.
  assert (Forall IcpSpec.record_ok [Examples.acme; Examples.unrated; Examples.modest])
    as Hok by (repeat constructor; discriminate).
  split; [exact Hok|].
  by apply (icp_filter_is_idempotent float_of_digits Examples.default_config
              [Examples.acme; Examples.unrated; Examples.modest]).
Defined.



(** ** The values the parser stores *)

Lemma rstrip_idem (s : string) : rstrip (rstrip s) = rstrip s.
Proof.
  induction s as [|c s IH]; [done|]. cbn [rstrip].
  destruct (rstrip s) as [|d r] eqn:E.
  - destruct (isspace c) eqn:Ec; [done|]. simpl. by rewrite Ec.
  - cbn [rstrip]. cbn [rstrip] in IH. by rewrite IH.
Qed.

Lemma lstrip_head (s : string) :
  lstrip s = "" ∨ ∃ c t, lstrip s = String c t ∧ isspace c = false.
Proof.
  induction s as [|c s IH]; [by left|]. simpl.
  destruct (isspace c) eqn:E; [exact IH|]. right. eauto.
Qed.

Lemma rstrip_head (c : ascii) (t : string) :
  isspace c = false → ∃ t', rstrip (String c t) = String c t'.
Proof.
  intros Hc. cbn [rstrip]. destruct (rstrip t); [|eauto]. rewrite Hc. eauto.
Qed.

Lemma strip_idem (s : string) : strip (strip s) = strip s.
Proof.
  unfold strip. destruct (lstrip_head s) as [->|(c & t & -> & Hc)]; [done|].
  destruct (rstrip_head c t Hc) as [t' Ht]. rewrite Ht.
  cbn [lstrip]. rewrite Hc, <- Ht. apply rstrip_idem.
Qed.

(** X24. On a text that is not empty the parser stores, under
    [ai_fit_category], one of High, Medium, Low and Unknown, and under
    each of the three other fields a text without leading or trailing
    white space. *)
Theorem parsed_fields_are_categories_and_stripped_text (text : string) :
  text ≠ "" →
  (∃ category, In category AISpec.categories
               ∧ AIModule._parse_ai_evaluation_fields text !! "ai_fit_category"
                 = Some category)
  ∧ ∀ key, In key ["ai_reasoning"; "ai_people_assessment"; "ai_revenue_assessment"] →
           ∃ value, AIModule._parse_ai_evaluation_fields text !! key = Some value
                    ∧ strip value = value.
Proof.
  intros Hne. split.
  - eexists. split; [|by apply parse_fit_field].
    destruct (last _); [apply fit_token_category | simpl; tauto].
  - intros key Hkey.
    assert (∃ label dflt,
              In (key, label, dflt)
                [("ai_reasoning", "ai_reasoning:", "Not evaluated");
                 ("ai_people_assessment", "ai_people_assessment:", "Not enough data");
                 ("ai_revenue_assessment", "ai_revenue_assessment:", "Unknown")]
              ∧ strip dflt = dflt) as (label & dflt & Hin & Hd).
    { simpl in Hkey. destruct Hkey as [<-|[<-|[<-|[]]]]; eexists _, _;
        (split; [simpl; eauto|reflexivity]). }
    eexists. split; [by apply (parse_text_field text key label dflt)|].
    destruct (last _); [apply strip_idem | exact Hd].
Qed.

(** An answer of two lines, the second with spaces around it. *)
Lemma parsed_fields_are_categories_and_stripped_text_witness :
  Examples.two_lines ≠ ""
  ∧ ∃ value, AIModule._parse_ai_evaluation_fields Examples.two_lines !! "ai_reasoning"
             = Some value
             ∧ strip value = value.
Proof.
  assert (Examples.two_lines ≠ "") as Hne by discriminate.
  split; [exact Hne|].
  destruct (parsed_fields_are_categories_and_stripped_text Examples.two_lines Hne)
    as [_ H].
  apply H. simpl. tauto.
Defined.
